(** * OpenAlgo strategy legs: P&L summary, manual-leg endpoints, market exit

    A shallow embedding of
    - [blueprints/strategy_state.py]: [compute_strategy_state_summary],
      [create_manual_leg_endpoint], [manual_exit_leg_endpoint],
      [create_strategy_override_endpoint], [get_strategy_states],
      [get_strategy_state];
    - [services/strategy_exit_service.py]: [execute_market_exit],
      [_execute_live_market_exit], [_execute_sandbox_market_exit];
    - [broker/zerodha/credential_manager.py]: the cache of shared
      credentials and the functions that read it.

    Modelling conventions.
    - Python [float] values are idealised as exact rationals ([Q]): only
      finite values, no rounding, no NaN.  Comparisons are the boolean
      [Qle_bool]; equalities between computed amounts are stated with [==].
    - A dictionary key that is absent or holds [None] is [None : option _]
      wherever the source cannot tell the two apart ([d.get(k)],
      [d.get(k, 0) or 0]); where it can, a three-way type is used.
    - Dictionaries keyed by strings are [gmap string _]; their iteration
      order is the map's, not Python's insertion order (immaterial for exact
      sums).
    - f-string messages are constructors of an inductive type that carry the
      interpolated values.
    - Calls to collaborators outside the two files (state store, broker,
      market data, session) are fields of an interface record; every call
      with an outside effect is appended to an event log. *)

From Stdlib Require Import QArith Lqa ZArith Bool Ascii String.
From stdpp Require Import gmap strings list fin_maps.

Local Open Scope Z_scope.
Local Open Scope Q_scope.
Local Open Scope string_scope.
Local Open Scope list_scope.
Local Open Scope stdpp_scope.

(** ** Python helpers *)

Module Py.

(** [x or 0] followed by [float(...)], for [x] a number or [None]:
    [None] and a zero are falsy, so the right operand [0] is taken. *)
Definition float_or_zero (x : option Q) : Q :=
  match x with
  | Some q => if Qeq_bool q 0 then 0 else q
  | None => 0
  end.

(** [sum(xs)]: a left-to-right accumulation that starts at [0]. *)
Definition sum (xs : list Q) : Q := fold_left Qplus xs 0.

(** Truthiness of an optional string: [None] and [''] are falsy. *)
Definition truthy_str (s : option string) : bool :=
  match s with
  | Some s => negb (bool_decide (s = ""))
  | None => false
  end.

(** Truthiness of an optional number: [None] and [0] are falsy. *)
Definition truthy_num (x : option Q) : bool :=
  match x with
  | Some q => negb (Qeq_bool q 0)
  | None => false
  end.

Definition map_ascii (f : ascii -> ascii) : string -> string :=
  fix go s :=
    match s with
    | EmptyString => EmptyString
    | String c s' => String (f c) (go s')
    end.

Definition lower_ascii (c : ascii) : ascii :=
  let n := nat_of_ascii c in
  if (Nat.leb 65 n && Nat.leb n 90)%bool then ascii_of_nat (n + 32) else c.

Definition upper_ascii (c : ascii) : ascii :=
  let n := nat_of_ascii c in
  if (Nat.leb 97 n && Nat.leb n 122)%bool then ascii_of_nat (n - 32) else c.

(** [str.lower()] and [str.upper()] on the ASCII range; other bytes are
    kept.  No character outside ASCII maps to one of the letters of the
    status, side and exchange words compared below. *)
Definition lower : string -> string := map_ascii lower_ascii.
Definition upper : string -> string := map_ascii upper_ascii.

(** [needle in haystack] for strings. *)
Fixpoint contains (needle hay : string) : bool :=
  if String.prefix needle hay then true
  else match hay with
       | EmptyString => false
       | String _ hay' => contains needle hay'
       end.

End Py.

(** ** Data model: what the state store returns *)

(** A dictionary key that may be absent, hold [None], or hold a value. *)
Inductive Field (A : Type) :=
| Missing
| IsNone
| Holds (a : A).
Arguments Missing {A}.
Arguments IsNone {A}.
Arguments Holds {A} a.

Record Trade := mkTrade {
  trade_leg_key : option string;
  trade_exit_price : option Q;
  trade_exit_status : option string;
  trade_pnl : option Q
}.

Record Leg := mkLeg {
  leg_symbol : option string;
  leg_exchange : option string;
  leg_product : option string;
  leg_quantity : option Z;
  leg_side : option string;
  leg_entry_price : option Q;
  leg_sl_price : option Q;
  leg_target_price : option Q;
  leg_type : Field string;
  leg_status : option string;
  leg_unrealized_pnl : option Q
}.

Record Summary := mkSummary {
  total_realized_pnl : Q;
  total_unrealized_pnl : Q;
  total_pnl : Q;
  trade_history_pnl : Q;
  open_positions_count : nat;
  idle_positions_count : nat;
  total_trades : nat
}.

(** A value of [legs] may itself be [None]; [trade_history] may be absent
    or [None]; [config] is absent or a dictionary, of which the product is
    kept. *)
Record StrategyState := mkState {
  st_status : option string;
  st_legs : Field (gmap string (option Leg));
  st_trade_history : option (list (option Trade));
  st_config_product : option string;
  st_summary : option Summary
}.

(** ** [compute_strategy_state_summary] *)

Definition OPEN_LEG_STATUSES : gset string :=
  {[ "IN_POSITION"; "PENDING_ENTRY"; "PENDING_EXIT" ]}.

(** The three accumulators of the loop over [legs.items()]. *)
Record LegTotals := mkTotals {
  acc_unrealized : Q;
  acc_open : nat;
  acc_idle : nat
}.

(** [(leg or {}).get('status', '')] *)
Definition status_of (leg : option Leg) : string :=
  match leg with
  | Some l => default "" (leg_status l)
  | None => ""
  end.

(** [(leg or {}).get('unrealized_pnl', 0) or 0], as a float *)
Definition unrealized_of (leg : option Leg) : Q :=
  Py.float_or_zero (leg ≫= leg_unrealized_pnl).

(** [(t or {}).get('pnl', 0) or 0], as a float *)
Definition pnl_of (t : option Trade) : Q :=
  Py.float_or_zero (t ≫= trade_pnl).

(** One iteration of the loop body. *)
Definition summary_step (a : LegTotals) (item : string * option Leg) : LegTotals :=
  let leg_status := status_of item.2 in
  if bool_decide (leg_status ∈ OPEN_LEG_STATUSES) then
    {| acc_unrealized := acc_unrealized a + unrealized_of item.2;
       acc_open := acc_open a + 1;
       acc_idle := acc_idle a |}
  else if bool_decide (leg_status = "IDLE") then
    {| acc_unrealized := acc_unrealized a;
       acc_open := acc_open a;
       acc_idle := acc_idle a + 1 |}
  else a.

(** [state.get('legs', {}) or {}], and also [state.get('legs', {})] when
    the key does not hold [None]. *)
Definition state_legs (state : StrategyState) : gmap string (option Leg) :=
  match st_legs state with
  | Holds legs => legs
  | Missing | IsNone => ∅
  end.

Definition state_trade_history (state : StrategyState) : list (option Trade) :=
  default [] (st_trade_history state).

Definition compute_strategy_state_summary (state : StrategyState) : Summary :=
  let legs := state_legs state in
  let trade_history := state_trade_history state in
  let totals :=
    fold_left summary_step (map_to_list legs)
      {| acc_unrealized := 0; acc_open := 0%nat; acc_idle := 0%nat |} in
  let total_realized_pnl := Py.sum (map pnl_of trade_history) in
  {| total_realized_pnl := total_realized_pnl;
     total_unrealized_pnl := acc_unrealized totals;
     total_pnl := total_realized_pnl + acc_unrealized totals;
     trade_history_pnl := total_realized_pnl;
     open_positions_count := acc_open totals;
     idle_positions_count := acc_idle totals;
     total_trades := length trade_history |}.

(** [state['summary'] = compute_strategy_state_summary(state)], as both GET
    endpoints do before they serialise the state. *)
Definition attach_summary (state : StrategyState) : StrategyState :=
  {| st_status := st_status state;
     st_legs := st_legs state;
     st_trade_history := st_trade_history state;
     st_config_product := st_config_product state;
     st_summary := Some (compute_strategy_state_summary state) |}.

(** *** The summary as the specification words it *)

Module PnlSpec.

(** Sum of a list of amounts. *)
Definition total (xs : list Q) : Q := fold_right Qplus 0 xs.

(** A missing or null amount counts as zero. *)
Definition amount (x : option Q) : Q := default 0 x.


(** A snapshot with the given trade history and no legs. *)
Definition history_only (trades : list (option Trade)) : StrategyState :=
  mkState (Some "RUNNING") Missing (Some trades) None None.

Definition has_status (s : string) (leg : option Leg) : Prop :=
  leg ≫= leg_status = Some s.

Definition is_open (leg : option Leg) : Prop :=
  has_status "IN_POSITION" leg \/ has_status "PENDING_ENTRY" leg
  \/ has_status "PENDING_EXIT" leg.

Definition is_idle (leg : option Leg) : Prop := has_status "IDLE" leg.

#[export] Instance has_status_dec s leg : Decision (has_status s leg).
Proof. unfold has_status. apply _. Defined.

#[export] Instance is_open_dec leg : Decision (is_open leg).
Proof. unfold is_open. apply _. Defined.

#[export] Instance is_idle_dec leg : Decision (is_idle leg).
Proof. unfold is_idle. apply _. Defined.

Definition open_legs (state : StrategyState) : list (option Leg) :=
  filter is_open (map snd (map_to_list (state_legs state))).

Definition idle_legs (state : StrategyState) : list (option Leg) :=
  filter is_idle (map snd (map_to_list (state_legs state))).

End PnlSpec.


(** ** Collaborator interfaces of the market exit engine *)

(** A numeric field of a broker or market-data response. [Null] stands for
    [None] and for any other falsy value that is not a number; [Unparsable]
    for a truthy value that [float()] rejects. A numeric string is the
    [Number] it parses to. *)
Inductive PyNum :=
| Absent
| Null
| Number (q : Q)
| Unparsable.

(** The dictionary sent to [place_order]. [quantity] is sent as
    [str(quantity)]. *)
Record OrderRequest := mkOrder {
  ord_apikey : string;
  ord_strategy : string;
  ord_symbol : string;
  ord_exchange : string;
  ord_action : string;
  ord_quantity : Z;
  ord_price : string;
  ord_product : string;
  ord_pricetype : string
}.

(** [(success, response, status_code)] of [place_order]. *)
Record PlaceResult := mkPlaced {
  placed_success : bool;
  placed_status : option string;
  placed_message : option string;
  placed_orderid : option string
}.

(** [status_response['data']] *)
Record OrderData := mkOrderData {
  od_order_status : option string;
  od_average_price : PyNum;
  od_price : PyNum;
  od_order_tag : option string
}.

(** [(success, status_response, _)] of [get_order_status]. *)
Record StatusResult := mkPolled {
  polled_success : bool;
  polled_status : option string;
  polled_message : option string;
  polled_data : option OrderData
}.

(** [(success, quotes_response, _)] of [get_quotes]. *)
Record QuotesResult := mkQuoted {
  quoted_success : bool;
  quoted_status : option string;
  quoted_ltp : PyNum
}.

(** The services the engine imports. [get_order_status] is indexed by the
    number of status calls made before, so that a value of this record
    fixes a whole poll transcript. *)
Record Broker := mkBroker {
  get_analyze_mode : bool;
  place_order : OrderRequest -> PlaceResult;
  get_order_status : nat -> string -> StatusResult;
  get_ltp_value : string -> string -> option Q;
  get_quotes : string -> string -> QuotesResult
}.

(** A value of a request body handed to [float()] or [int()]: the number
    it converts to, or [Rejected] when the conversion raises [TypeError] or
    [ValueError]. *)
Inductive Parsed (A : Type) :=
| Converts (a : A)
| Rejected.
Arguments Converts {A} a.
Arguments Rejected {A}.

(** The keyword arguments of [add_manual_strategy_leg]. The two wait
    parameters are converted only in mode NEW and are handed over as
    received otherwise. *)
Record NewLeg := mkNewLeg {
  new_symbol : string;
  new_exchange : string;
  new_product : string;
  new_quantity : Z;
  new_side : string;
  new_entry_price : option Q;
  new_entry_time : Z;
  new_sl_price : option Q;
  new_target_price : option Q;
  new_leg_pair_name : option string;
  new_is_main_leg : bool;
  new_sl_percent : option Q;
  new_target_percent : option Q;
  new_reentry_limit : option Z;
  new_reexecute_limit : option Z;
  new_status : string;
  new_wait_trade_percent : option (Parsed Q);
  new_wait_baseline_price : option (Parsed Q)
}.

(** Calls with an effect outside the process, in the order they are made. *)
Inductive Event :=
| EvPlaceOrder (order : OrderRequest)
| EvSleep (seconds : Q)
| EvGetOrderStatus (orderid : string)
| EvGetLtp (symbol exchange : string)
| EvGetQuotes (symbol exchange : string)
| EvAddLeg (instance_id leg_key : string) (leg : NewLeg)
| EvManualExit (instance_id leg_key : string) (exit_price : option Q)
    (exit_status : string)
| EvCreateOverride (instance_id leg_key override_type : string)
    (new_value : option Q).

(** The third component of the engine's result. *)
Inductive ExitMessage :=
| MsgText (text : string)
| MsgOrderEnded (order_status order_tag : string)
| MsgInvalidFill (fill_price : Q)
| MsgExited (fill_price : Q)
| MsgExitedAnalyzer (ltp : Q)
| MsgTimeout (seconds : Q)
| MsgNoLtp (symbol exchange : string)
| MsgUnexpected.

(** [(success, fill_price, message)] *)
Record ExitResult := mkExit {
  exit_success : bool;
  exit_fill_price : option Q;
  exit_message : ExitMessage
}.

(** How a block of statements ends: it returns from the function, raises,
    or falls through to the next statement with a value. *)
Inductive Flow (R A : Type) :=
| Return (r : R)
| Raise
| Next (a : A).
Arguments Return {R A} r.
Arguments Raise {R A}.
Arguments Next {R A} a.

(** ** [services/strategy_exit_service.py] *)

Module ExitService.

(** [float(d.get(key, 0))]; [None] when [float] raises. *)
Definition float_default_zero (x : PyNum) : option Q :=
  match x with
  | Absent => Some 0
  | Number q => Some q
  | Null | Unparsable => None
  end.

(** The branch [order_status == 'complete']. *)
Definition on_complete (order_data : OrderData) : Flow ExitResult unit :=
  match float_default_zero (od_average_price order_data) with
  | None => Raise
  | Some fill_price =>
    let refetched :=
      if Qle_bool fill_price 0
      then float_default_zero (od_price order_data)
      else Some fill_price in
    match refetched with
    | None => Raise
    | Some fill_price =>
      if Qle_bool fill_price 0
      then Return (mkExit false None (MsgInvalidFill fill_price))
      else Return (mkExit true (Some fill_price) (MsgExited fill_price))
    end
  end.

(** The statements of one iteration that follow the status call:
    [Next tt] is [continue] or the end of the body. *)
Definition on_status (status_response : StatusResult) : Flow ExitResult unit :=
  if negb (polled_success status_response)
     || negb (bool_decide (polled_status status_response = Some "success"))
  then Next tt
  else
    let order_data :=
      default (mkOrderData None Absent Absent None) (polled_data status_response) in
    let order_status := Py.lower (default "" (od_order_status order_data)) in
    if bool_decide (order_status = "complete") then on_complete order_data
    else if bool_decide (order_status ∈ ["rejected"; "cancelled"]) then
      Return (mkExit false None
                (MsgOrderEnded order_status
                   (default "No reason provided" (od_order_tag order_data))))
    else Next tt.

(** [for attempt in range(max_retries)], with [remaining] iterations left
    from [attempt] on. The events of the iterations run are returned in
    order. *)
Fixpoint poll_loop (b : Broker) (order_id : string) (retry_interval : Q)
    (remaining attempt : nat) : Flow ExitResult unit * list Event :=
  match remaining with
  | O => (Next tt, [])
  | S remaining' =>
    let events := [EvSleep retry_interval; EvGetOrderStatus order_id] in
    match on_status (get_order_status b attempt order_id) with
    | Next _ =>
      let '(flow, later) :=
        poll_loop b order_id retry_interval remaining' (S attempt) in
      (flow, events ++ later)
    | flow => (flow, events)
    end
  end.

Definition market_order (symbol exchange product : string) (quantity : Z)
    (action api_key : string) : OrderRequest :=
  {| ord_apikey := api_key;
     ord_strategy := "StrategyExit";
     ord_symbol := symbol;
     ord_exchange := exchange;
     ord_action := action;
     ord_quantity := quantity;
     ord_price := "0";
     ord_product := product;
     ord_pricetype := "MARKET" |}.

(** [_execute_live_market_exit]; a result [None] is an exception that
    leaves the function. *)
Definition _execute_live_market_exit (b : Broker)
    (symbol exchange product : string) (quantity : Z) (action api_key : string)
    (max_retries : Z) (retry_interval : Q)
    : option ExitResult * list Event :=
  let order_data := market_order symbol exchange product quantity action api_key in
  let response := place_order b order_data in
  if negb (placed_success response)
     || negb (bool_decide (placed_status response = Some "success"))
  then
    (Some (mkExit false None
             (MsgText (default "Failed to place market exit order"
                         (placed_message response)))),
     [EvPlaceOrder order_data])
  else if negb (Py.truthy_str (placed_orderid response)) then
    (Some (mkExit false None (MsgText "No order ID returned from broker")),
     [EvPlaceOrder order_data])
  else
    let order_id := default "" (placed_orderid response) in
    let '(flow, polls) :=
      poll_loop b order_id retry_interval (Z.to_nat max_retries) 0 in
    (match flow with
     | Return r => Some r
     | Raise => None
     | Next _ =>
       Some (mkExit false None
               (MsgTimeout (inject_Z max_retries * retry_interval)))
     end,
     EvPlaceOrder order_data :: polls).

(** [ltp = d.get('ltp')] followed by [if ltp: ltp = float(ltp)]; the outer
    [None] is a raising [float]. *)
Definition quote_ltp (x : PyNum) : option (option Q) :=
  match x with
  | Absent | Null => Some None
  | Number q => Some (Some q)
  | Unparsable => None
  end.

(** The body of [if ltp is None or ltp <= 0:], entered with the value [ltp]
    of the first lookup: the price to go on with, or the early return taken
    when [not ltp or ltp <= 0]. *)
Definition quotes_fallback (b : Broker) (symbol exchange : string)
    (ltp : option Q) : Flow ExitResult Q :=
  let quotes := get_quotes b symbol exchange in
  let refreshed :=
    if quoted_success quotes
       && bool_decide (quoted_status quotes = Some "success")
    then quote_ltp (quoted_ltp quotes)
    else Some ltp in
  match refreshed with
  | None => Raise
  | Some None => Return (mkExit false None (MsgNoLtp symbol exchange))
  | Some (Some q) =>
    if Qeq_bool q 0 || Qle_bool q 0
    then Return (mkExit false None (MsgNoLtp symbol exchange))
    else Next q
  end.

(** The reference price of the sandbox exit, with the lookups made. *)
Definition sandbox_reference_price (b : Broker) (symbol exchange : string)
    : Flow ExitResult Q * list Event :=
  let ltp := get_ltp_value b symbol exchange in
  let fallback :=
    (quotes_fallback b symbol exchange ltp,
     [EvGetLtp symbol exchange; EvGetQuotes symbol exchange]) in
  match ltp with
  | None => fallback
  | Some q =>
    if Qle_bool q 0 then fallback else (Next q, [EvGetLtp symbol exchange])
  end.

(** [_execute_sandbox_market_exit]; a result [None] is an exception that
    leaves the function. *)
Definition _execute_sandbox_market_exit (b : Broker)
    (symbol exchange product : string) (quantity : Z) (action api_key : string)
    : option ExitResult * list Event :=
  let '(price, lookups) := sandbox_reference_price b symbol exchange in
  match price with
  | Return r => (Some r, lookups)
  | Raise => (None, lookups)
  | Next ltp =>
    let order_data := market_order symbol exchange product quantity action api_key in
    let response := place_order b order_data in
    if negb (placed_success response)
       || negb (bool_decide
                  (placed_status response ∈ [Some "success"; Some "analyze"]))
    then
      (Some (mkExit false None
               (MsgText (default "Failed to place sandbox exit order"
                           (placed_message response)))),
       lookups ++ [EvPlaceOrder order_data])
    else
      (Some (mkExit true (Some ltp) (MsgExitedAnalyzer ltp)),
       lookups ++ [EvPlaceOrder order_data])
  end.

(** [exit_action = 'SELL' if leg_side == 'BUY' else 'BUY'] *)
Definition exit_action (leg_side : string) : string :=
  if bool_decide (leg_side = "BUY") then "SELL" else "BUY".

(** [execute_market_exit]: the mode switch inside [try], and the handler
    that turns any exception into a failed result. *)
Definition execute_market_exit (b : Broker)
    (leg_symbol leg_exchange leg_product : string) (leg_quantity : Z)
    (leg_side api_key : string) (max_retries : Z) (retry_interval : Q)
    : ExitResult * list Event :=
  let exit_action := exit_action leg_side in
  let is_analyzer := get_analyze_mode b in
  let '(result, events) :=
    if is_analyzer then
      _execute_sandbox_market_exit b leg_symbol leg_exchange leg_product
        leg_quantity exit_action api_key
    else
      _execute_live_market_exit b leg_symbol leg_exchange leg_product
        leg_quantity exit_action api_key max_retries retry_interval in
  match result with
  | Some r => (r, events)
  | None => (mkExit false None MsgUnexpected, events)
  end.

(** A result that, when it reports success, carries a positive fill
    price. *)
Definition filled (r : ExitResult) : Prop :=
  exit_success r = true -> exists p, exit_fill_price r = Some p /\ 0 < p.

(** The defaults of [max_retries] and [retry_interval]. *)
Definition default_max_retries : Z := 10.
Definition default_retry_interval : Q := 2.

End ExitService.

(** *** Poll transcripts, as the specification words them *)

Module LiveSpec.







(** [n] poll attempts: a sleep of [retry_interval], then a status call. *)
Definition polls (order_id : string) (retry_interval : Q) (n : nat) : list Event :=
  mjoin (replicate n [EvSleep retry_interval; EvGetOrderStatus order_id]).

(** A fetched status response with the given order status and prices. *)
Definition status_reply (order_status : string) (average_price price : PyNum)
    : StatusResult :=
  mkPolled true (Some "success") None
    (Some (mkOrderData (Some order_status) average_price price None)).

(** A live broker that accepts the order as ["ORD1"] and answers the status
    calls from a transcript; past its end the order stays open. *)
Definition scripted (transcript : list StatusResult) : Broker :=
  {| get_analyze_mode := false;
     place_order := fun _ => mkPlaced true (Some "success") None (Some "ORD1");
     get_order_status := fun attempt _ =>
       default (status_reply "open" Absent Absent) (transcript !! attempt);
     get_ltp_value := fun _ _ => None;
     get_quotes := fun _ _ => mkQuoted false None Absent |}.




End LiveSpec.

(** *** Sandbox price sources, as the specification words them *)

Module SandboxSpec.

(** A price that is missing or not positive. *)
Definition unusable (x : option Q) : Prop :=
  match x with
  | None => True
  | Some q => q <= 0
  end.

(** The quote lookup succeeded and its [ltp] field is the number [q]. *)
Definition quote_gives (q : Q) (r : QuotesResult) : Prop :=
  quoted_success r = true /\ quoted_status r = Some "success"
  /\ quoted_ltp r = Number q.

(** The quote lookup failed or carries no [ltp]. *)
Definition quote_missing (r : QuotesResult) : Prop :=
  quoted_success r = false \/ quoted_status r <> Some "success"
  \/ quoted_ltp r = Absent \/ quoted_ltp r = Null.

(** The reference price [p] the two sources resolve to. *)
Definition reference_price (b : Broker) (symbol exchange : string) (p : Q) : Prop :=
  0 < p
  /\ (get_ltp_value b symbol exchange = Some p
      \/ (unusable (get_ltp_value b symbol exchange)
          /\ quote_gives p (get_quotes b symbol exchange))).

(** Both sources yield a missing or non-positive price. *)
Definition no_reference_price (b : Broker) (symbol exchange : string) : Prop :=
  unusable (get_ltp_value b symbol exchange)
  /\ (quote_missing (get_quotes b symbol exchange)
      \/ exists q, quote_gives q (get_quotes b symbol exchange) /\ q <= 0).

(** The bookkeeping order came back with status ['success'] or ['analyze']. *)
Definition order_accepted (r : PlaceResult) : Prop :=
  placed_success r = true
  /\ (placed_status r = Some "success" \/ placed_status r = Some "analyze").

(** An analyzer-mode broker with the given answers of the two lookups. *)
Definition sandbox (ltp : option Q) (quotes : QuotesResult) : Broker :=
  {| get_analyze_mode := true;
     place_order := fun _ => mkPlaced true (Some "analyze") None (Some "SB1");
     get_order_status := fun _ _ => mkPolled false None None None;
     get_ltp_value := fun _ _ => ltp;
     get_quotes := fun _ _ => quotes |}.

End SandboxSpec.

(** ** [blueprints/strategy_state.py]: the two leg endpoints *)

(** The JSON body of [POST .../manual-leg]. *)
Record ManualLegRequest := mkLegRequest {
  req_leg_key : option string;
  req_symbol : option string;
  req_exchange : option string;
  req_product : option string;
  req_quantity : option Z;
  req_side : option string;
  req_entry_price : option (Parsed Q);
  req_sl_percent : option (Parsed Q);
  req_target_percent : option (Parsed Q);
  req_leg_pair_name : option string;
  req_is_main_leg : option bool;
  req_reentry_limit : option (Parsed Z);
  req_reexecute_limit : option (Parsed Z);
  req_mode : Field string;
  req_wait_trade_percent : option (Parsed Q);
  req_wait_baseline_price : option (Parsed Q)
}.

(** The JSON body of [POST .../manual-exit]; [exit_at_market] is the
    truthiness of [data.get('exit_at_market', False)]. *)
Record ManualExitRequest := mkExitRequest {
  req_exit_price : option (Parsed Q);
  req_exit_status : option string;
  req_exit_at_market : bool
}.

(** An exception of the state store, named by the [except] clause that
    catches it, with [str(exc)]. *)
Inductive StoreError :=
| StrategyStateDuplicateLegError (text : string)
| StrategyStateNotFoundError (text : string)
| StrategyStateDbNotFoundError (text : string)
| StrategyStateDbError (text : string)
| OtherException (text : string).

(** What a store call hands back as [result]. *)
Inductive Payload :=
| LegPayload (leg : Leg)
| StatePayload (state : StrategyState)
| NoPayload.

(** The [message] of a response. *)
Inductive ApiMessage :=
| MText (text : string)
| MNotInPosition (status : option string)
| MExitFailed (reason : ExitMessage)
| MCrossCheck (side exit_status : string) (entry_price : Q).

(** [jsonify({...}), code] *)
Record Response := mkResponse {
  http_code : Z;
  resp_status : string;
  resp_message : ApiMessage;
  resp_data : option Payload
}.

(** The session and the clock. *)
Record Session := mkSession {
  session_user : option string;
  get_api_key_for_tradingview : string -> option string;
  utc_now : Z
}.

Module Blueprint.

Definition error (code : Z) (message : ApiMessage) : Response :=
  mkResponse code "error" message None.

Definition success (message : string) (result : Payload) : Response :=
  mkResponse 200 "success" (MText message) (Some result).

(** A handler runs against the store and the event log and either returns a
    response early or goes on with a value. *)
Section Handlers.

Context {Db : Type}.

Record World := mkWorld {
  w_db : Db;
  w_events : list Event
}.

Definition Handler (A : Type) : Type := World -> (Response + A) * World.

Definition ret {A} (a : A) : Handler A := fun w => (inr a, w).

Definition reply {A} (r : Response) : Handler A := fun w => (inl r, w).

Definition bind {A B} (m : Handler A) (k : A -> Handler B) : Handler B :=
  fun w =>
    match m w with
    | (inl r, w') => (inl r, w')
    | (inr a, w') => k a w'
    end.

(** [if c: return r] *)
Definition reject_if (c : bool) (r : Response) : Handler unit :=
  if c then reply r else ret tt.

(** A pure block of checks that may return early. *)
Definition checked {A} (c : Response + A) : Handler A :=
  match c with
  | inl r => reply r
  | inr a => ret a
  end.

Definition emit (events : list Event) : Handler unit :=
  fun w => (inr tt, mkWorld (w_db w) (w_events w ++ events)).

Definition read {A} (f : Db -> A) : Handler A :=
  fun w => (inr (f (w_db w)), w).

(** A store call that may change the store, logged as [event]. *)
Definition store_call {A} (event : Event) (f : Db -> A * Db) : Handler A :=
  fun w =>
    let '(a, db') := f (w_db w) in
    (inr a, mkWorld db' (w_events w ++ [event])).

Definition run (h : Handler Response) (db : Db) : Response * World :=
  match h (mkWorld db []) with
  | (inl r, w) => (r, w)
  | (inr r, w) => (r, w)
  end.

End Handlers.

Arguments World Db : clear implicits.
Arguments Handler Db A : clear implicits.

Notation "x <- m ;; k" := (bind m (fun x => k))
  (at level 100, m at next level, right associativity).
Notation "m ;;; k" := (bind m (fun _ => k))
  (at level 100, right associativity).

(** Early return inside a pure block of checks. *)
Notation "'ok' x <- c 'in' k" :=
  (match c with inl r => inl r | inr x => k end)
  (at level 100, x name, c at next level, right associativity).
Notation "'unless' c 'answer' r 'in' k" :=
  (if c then inl r else k)
  (at level 100, c at next level, r at next level, right associativity).

(** *** [create_manual_leg_endpoint] *)

(** [float(x)] inside [try], with the response of the handler. *)
Definition to_float (x : Parsed Q) (on_error : string) : Response + Q :=
  match x with
  | Converts q => inr q
  | Rejected => inl (error 400 (MText on_error))
  end.

Definition to_int (x : Parsed Z) (on_error : string) : Response + Z :=
  match x with
  | Converts z => inr z
  | Rejected => inl (error 400 (MText on_error))
  end.

(** The loop over [required_fields.items()]: the message of the first
    field whose value is [None]. *)
Definition first_missing (data : ManualLegRequest) : option string :=
  if bool_decide (req_leg_key data = None) then Some "leg_key is required"
  else if bool_decide (req_symbol data = None) then Some "symbol is required"
  else if bool_decide (req_exchange data = None) then Some "exchange is required"
  else if bool_decide (req_product data = None) then Some "product is required"
  else if bool_decide (req_quantity data = None) then Some "quantity is required"
  else if bool_decide (req_side data = None) then Some "side is required"
  else if bool_decide (req_is_main_leg data = None)
       then Some "is_main_leg is required"
  else None.

(** [mode = data.get('mode', 'TRACK')] *)
Definition request_mode (data : ManualLegRequest) : option string :=
  match req_mode data with
  | Missing => Some "TRACK"
  | IsNone => None
  | Holds m => Some m
  end.

(** The conversion of [entry_price], by mode. *)
Definition parse_entry_price (mode : string) (entry_price : option (Parsed Q))
    : Response + option Q :=
  if bool_decide (mode = "NEW") then
    match entry_price with
    | Some x => ok e <- to_float x "entry_price must be a number" in inr (Some e)
    | None => inr None
    end
  else
    match entry_price with
    | None => inl (error 400 (MText "entry_price is required"))
    | Some x => ok e <- to_float x "entry_price must be a number" in inr (Some e)
    end.

(** Status and wait parameters: [(status, wait_trade_percent,
    wait_baseline_price)]. *)
Definition parse_wait (mode : string)
    (wait_trade_percent wait_baseline_price : option (Parsed Q))
    : Response + (string * option (Parsed Q) * option (Parsed Q)) :=
  if bool_decide (mode = "NEW") then
    match wait_trade_percent with
    | Some x =>
      match x with
      | Rejected => inl (error 400 (MText "Invalid wait parameters"))
      | Converts w =>
        unless Qle_bool w 0
          answer error 400 (MText "wait_trade_percent must be positive") in
        match wait_baseline_price with
        | None =>
          inl (error 400 (MText "wait_baseline_price is required for wait entry"))
        | Some Rejected => inl (error 400 (MText "Invalid wait parameters"))
        | Some (Converts base) =>
          inr ("PENDING_ENTRY", Some (Converts w), Some (Converts base))
        end
      end
    | None => inr ("PENDING_ENTRY", None, wait_baseline_price)
    end
  else inr ("IN_POSITION", wait_trade_percent, wait_baseline_price).

(** The stop-loss block: [(sl_percent, sl_value)]. *)
Definition parse_sl (side : string) (entry_price : option Q)
    (sl_percent : option (Parsed Q)) : Response + (option Q * option Q) :=
  match entry_price with
  | Some entry_price =>
    match sl_percent with
    | Some x =>
      ok sl_percent <- to_float x "sl_percent must be a number" in
      unless Qle_bool sl_percent 0
        answer error 400 (MText "sl_percent must be positive") in
      if bool_decide (side = "BUY")
      then inr (Some sl_percent, Some (entry_price * (1 - sl_percent)))
      else inr (Some sl_percent, Some (entry_price * (1 + sl_percent)))
    | None => inr (None, None)
    end
  | None =>
    match sl_percent with
    | Some x =>
      ok sl_percent <- to_float x "sl_percent must be positive" in
      unless Qle_bool sl_percent 0
        answer error 400 (MText "sl_percent must be positive") in
      inr (Some sl_percent, None)
    | None => inr (None, None)
    end
  end.

(** The target block: [(target_percent, target_value)]. *)
Definition parse_target (side : string) (entry_price : option Q)
    (target_percent : option (Parsed Q)) : Response + (option Q * option Q) :=
  match target_percent, entry_price with
  | Some x, Some entry_price =>
    ok target_percent <- to_float x "target_percent must be a number" in
    unless Qle_bool target_percent 0
      answer error 400 (MText "target_percent must be positive") in
    if bool_decide (side = "BUY")
    then inr (Some target_percent, Some (entry_price * (1 + target_percent)))
    else inr (Some target_percent, Some (entry_price * (1 - target_percent)))
  | Some x, None =>
    ok target_percent <- to_float x "target_percent must be positive" in
    unless Qle_bool target_percent 0
      answer error 400 (MText "target_percent must be positive") in
    inr (Some target_percent, None)
  | None, _ => inr (None, None)
  end.

(** The validation of [reentry_limit] and of [reexecute_limit]. *)
Definition parse_limit (name : string) (limit : option (Parsed Z))
    : Response + option Z :=
  match limit with
  | Some x =>
    ok n <- to_int x (name ++ " must be an integer") in
    unless Z.ltb n 0 answer error 400 (MText (name ++ " must be non-negative")) in
    inr (Some n)
  | None => inr None
  end.

(** Everything [create_manual_leg_endpoint] does before it calls the
    store: the early return, or the leg key and the arguments of the call. *)
Definition validate_manual_leg (now : Z) (body : option ManualLegRequest)
    : Response + (string * NewLeg) :=
  match body with
  | None => inl (error 400 (MText "Request body is required"))
  | Some data =>
    let mode := request_mode data in
    unless negb (bool_decide (mode ∈ [Some "TRACK"; Some "NEW"]))
      answer error 400 (MText "mode must be TRACK or NEW") in
    let mode := default "" mode in
    match first_missing data with
    | Some message => inl (error 400 (MText message))
    | None =>
      ok entry_price <- parse_entry_price mode (req_entry_price data) in
      let side := Py.upper (default "" (req_side data)) in
      unless negb (bool_decide (side ∈ ["BUY"; "SELL"]))
        answer error 400 (MText "side must be BUY or SELL") in
      ok waits <- parse_wait mode (req_wait_trade_percent data)
                       (req_wait_baseline_price data) in
      ok sl <- parse_sl side entry_price (req_sl_percent data) in
      ok target <- parse_target side entry_price (req_target_percent data) in
      ok reentry_limit <- parse_limit "reentry_limit" (req_reentry_limit data) in
      ok reexecute_limit <-
        parse_limit "reexecute_limit" (req_reexecute_limit data) in
      inr (default "" (req_leg_key data),
           {| new_symbol := default "" (req_symbol data);
              new_exchange := default "" (req_exchange data);
              new_product := default "" (req_product data);
              new_quantity := default 0%Z (req_quantity data);
              new_side := side;
              new_entry_price := entry_price;
              new_entry_time := now;
              new_sl_price := sl.2;
              new_target_price := target.2;
              new_leg_pair_name := req_leg_pair_name data;
              new_is_main_leg := default false (req_is_main_leg data);
              new_sl_percent := sl.1;
              new_target_percent := target.1;
              new_reentry_limit := reentry_limit;
              new_reexecute_limit := reexecute_limit;
              new_status := waits.1.1;
              new_wait_trade_percent := waits.1.2;
              new_wait_baseline_price := waits.2 |})
    end
  end.

Section ManualLeg.

Context {Db : Type}.

(** [database.strategy_state_db.add_manual_strategy_leg] *)
Context (add_manual_strategy_leg :
           string -> string -> NewLeg -> Db -> (StoreError + Payload) * Db).

(** The [except] clauses around the store call. *)
Definition add_leg_failed (instance_id : string) (e : StoreError) : Response :=
  match e with
  | StrategyStateDuplicateLegError text => error 409 (MText text)
  | StrategyStateNotFoundError _ =>
    error 404 (MText ("Strategy state not found: " ++ instance_id))
  | StrategyStateDbNotFoundError text => error 500 (MText text)
  | StrategyStateDbError text => error 500 (MText text)
  | OtherException text => error 500 (MText text)
  end.

Definition create_manual_leg_endpoint (session : Session)
    (instance_id : string) (body : option ManualLegRequest)
    : Handler Db Response :=
  call <- checked (validate_manual_leg (utc_now session) body) ;;
  let '(leg_key, leg) := call in
  outcome <- store_call (EvAddLeg instance_id leg_key leg)
               (add_manual_strategy_leg instance_id leg_key leg) ;;
  match outcome with
  | inl e => reply (add_leg_failed instance_id e)
  | inr result => ret (success "Manual leg added successfully" result)
  end.

End ManualLeg.

(** *** [manual_exit_leg_endpoint] *)

(** The two exit modes, once the body is validated: a priced exit with its
    positive-checked [exit_price], or a market exit ([exit_price = None]
    until the order is executed). *)
Inductive ExitMode :=
| Priced (exit_price : Q)
| AtMarket.

(** The checks on [exit_status] and [exit_price] that precede the state
    lookup: the early return, or the mode and the exit status. *)
Definition validate_exit_request (body : option ManualExitRequest)
    : Response + (ExitMode * string) :=
  match body with
  | None => inl (error 400 (MText "Request body is required"))
  | Some data =>
    let exit_status := req_exit_status data in
    if req_exit_at_market data then
      if negb (Py.truthy_str exit_status) then inr (AtMarket, "MANUAL_EXIT")
      else
        let exit_status := default "" exit_status in
        unless negb (bool_decide
                       (exit_status ∈ ["SL_HIT"; "TARGET_HIT"; "MANUAL_EXIT"]))
          answer error 400
                 (MText "exit_status must be SL_HIT, TARGET_HIT, or MANUAL_EXIT") in
        inr (AtMarket, exit_status)
    else
      unless negb (Py.truthy_str exit_status)
        answer error 400 (MText "exit_status is required for manual price exits") in
      let exit_status := default "" exit_status in
      unless negb (bool_decide (exit_status ∈ ["SL_HIT"; "TARGET_HIT"]))
        answer error 400
               (MText "exit_status must be SL_HIT or TARGET_HIT for manual price exits") in
      match req_exit_price data with
      | None =>
        inl (error 400 (MText "exit_price is required when exit_at_market is false"))
      | Some x =>
        ok exit_price <- to_float x "exit_price must be a valid number" in
        unless Qle_bool exit_price 0
          answer error 400 (MText "exit_price must be positive") in
        inr (Priced exit_price, exit_status)
      end
  end.

(** [leg.get('leg_type', 'MANUAL')] *)
Definition leg_type_of (leg : Leg) : option string :=
  match leg_type leg with
  | Missing => Some "MANUAL"
  | IsNone => None
  | Holds t => Some t
  end.

(** The exchange guessed from the symbol when the leg has none. *)
Definition infer_exchange (leg_symbol : string) : string :=
  let symbol_upper := Py.upper leg_symbol in
  if Py.contains "CE" symbol_upper || Py.contains "PE" symbol_upper then
    if Py.contains "SENSEX" symbol_upper || Py.contains "BANKEX" symbol_upper
    then "BFO"
    else if Py.contains "NIFTY" symbol_upper
            || Py.contains "BANKNIFTY" symbol_upper
            || Py.contains "FINNIFTY" symbol_upper
            || Py.contains "MIDCPNIFTY" symbol_upper
    then "NFO"
    else "NFO"
  else "NSE".

(** The block [if not exit_at_market:] that checks the exit price against
    side and entry price: the response of the violated check, if any. *)
Definition cross_check (leg : Leg) (exit_status : string) (exit_price : Q)
    : option Response :=
  let entry_price := leg_entry_price leg in
  let side := leg_side leg in
  if Py.truthy_num entry_price && Py.truthy_str side then
    let entry_price := default 0 entry_price in
    let side := default "" side in
    if bool_decide (exit_status = "TARGET_HIT") then
      if bool_decide (side = "BUY") && Qle_bool exit_price entry_price
      then Some (error 400 (MCrossCheck side exit_status entry_price))
      else if bool_decide (side = "SELL") && Qle_bool entry_price exit_price
      then Some (error 400 (MCrossCheck side exit_status entry_price))
      else None
    else if bool_decide (exit_status = "SL_HIT") then
      if bool_decide (side = "BUY") && Qle_bool entry_price exit_price
      then Some (error 400 (MCrossCheck side exit_status entry_price))
      else if bool_decide (side = "SELL") && Qle_bool exit_price entry_price
      then Some (error 400 (MCrossCheck side exit_status entry_price))
      else None
    else None
  else None.

Section ManualExit.

Context {Db : Type}.

(** The calls into [database.strategy_state_db]. *)
Context (get_strategy_state_by_instance_id : string -> Db -> option StrategyState).
Context (manual_exit_strategy_leg :
           string -> string -> option Q -> string -> Z -> Db
           -> (StoreError + Payload) * Db).
Context (create_strategy_override :
           string -> string -> string -> option Q -> Db
           -> (StoreError + Payload) * Db).

Context (broker : Broker) (session : Session).

(** The block [if exit_at_market:] that executes the order: the fill price
    to exit at. *)
Definition market_exit_block (state : StrategyState) (leg : Leg)
    : Handler Db (option Q) :=
  let username := session_user session in
  reject_if (negb (Py.truthy_str username))
    (error 401 (MText "User not found in session")) ;;;
  let api_key := get_api_key_for_tradingview session (default "" username) in
  reject_if (negb (Py.truthy_str api_key))
    (error 401 (MText "API key not found for user")) ;;;
  let api_key := default "" api_key in
  let leg_symbol := leg_symbol leg in
  let leg_exchange := leg_exchange leg in
  let leg_product := leg_product leg in
  let leg_quantity := leg_quantity leg in
  let leg_side := leg_side leg in
  let leg_product :=
    if negb (Py.truthy_str leg_product) then st_config_product state
    else leg_product in
  reject_if (negb (Py.truthy_str leg_symbol))
    (error 400 (MText "Symbol is required for market exit")) ;;;
  reject_if (match leg_quantity with
             | None => true
             | Some q => Z.eqb q 0 || Z.leb q 0
             end)
    (error 400 (MText "Quantity is required for market exit")) ;;;
  reject_if (negb (Py.truthy_str leg_side))
    (error 400 (MText "Side (BUY/SELL) is required for market exit")) ;;;
  let leg_symbol := default "" leg_symbol in
  let leg_exchange :=
    if negb (Py.truthy_str leg_exchange) then infer_exchange leg_symbol
    else default "" leg_exchange in
  let leg_product :=
    if negb (Py.truthy_str leg_product) then "MIS"
    else default "" leg_product in
  let '(result, events) :=
    ExitService.execute_market_exit broker leg_symbol leg_exchange leg_product
      (default 0%Z leg_quantity) (default "" leg_side) api_key
      ExitService.default_max_retries ExitService.default_retry_interval in
  emit events ;;;
  reject_if (negb (exit_success result))
    (error 400 (MExitFailed (exit_message result))) ;;;
  ret (exit_fill_price result).

(** The [except] clauses around the store update. *)
Definition exit_failed (instance_id : string) (e : StoreError) : Response :=
  match e with
  | StrategyStateNotFoundError _ =>
    error 404 (MText ("Strategy state not found: " ++ instance_id))
  | StrategyStateDbNotFoundError text => error 500 (MText text)
  | StrategyStateDbError text => error 500 (MText text)
  | StrategyStateDuplicateLegError text => error 500 (MText text)
  | OtherException text => error 500 (MText text)
  end.

(** The store update and the override that follows it. An exception of
    [create_strategy_override] is logged and dropped. *)
Definition commit_exit (instance_id leg_key : string)
    (leg_type : option string)
    (strategy_status : string) (exit_price : option Q) (exit_status : string)
    : Handler Db Response :=
  outcome <- store_call (EvManualExit instance_id leg_key exit_price exit_status)
               (manual_exit_strategy_leg instance_id leg_key exit_price
                  exit_status (utc_now session)) ;;
  match outcome with
  | inl e => reply (exit_failed instance_id e)
  | inr result =>
    (if negb (bool_decide (leg_type = Some "MANUAL"))
        && bool_decide (strategy_status = "RUNNING")
     then
       store_call
         (EvCreateOverride instance_id leg_key "MANUAL_EXIT" exit_price)
         (create_strategy_override instance_id leg_key "MANUAL_EXIT" exit_price)
       ;;; ret tt
     else ret tt) ;;;
    ret (success ("Position exited successfully with status " ++ exit_status)
           result)
  end.

(** The exit price of the request: the fill price of the executed order
    for a market exit, the cross-checked price of the body otherwise. *)
Definition resolve_exit_price (mode : ExitMode) (state : StrategyState)
    (leg : Leg) (exit_status : string) : Handler Db (option Q) :=
  match mode with
  | AtMarket => market_exit_block state leg
  | Priced exit_price =>
    match cross_check leg exit_status exit_price with
    | Some r => reply r
    | None => ret (Some exit_price)
    end
  end.

Definition manual_exit_leg_endpoint (instance_id leg_key : string)
    (body : option ManualExitRequest) : Handler Db Response :=
  request <- checked (validate_exit_request body) ;;
  let '(mode, exit_status) := request in
  state <- read (get_strategy_state_by_instance_id instance_id) ;;
  match state with
  | None =>
    reply (error 404 (MText ("Strategy state not found: " ++ instance_id)))
  | Some state =>
    (* [leg_key not in legs] on [None] raises; the outer handler answers
       with [str(exc)] *)
    reject_if (match st_legs state with IsNone => true | _ => false end)
      (error 500 (MText "argument of type 'NoneType' is not iterable")) ;;;
    match state_legs state !! leg_key with
    | None => reply (error 404 (MText ("Leg not found: " ++ leg_key)))
    | Some None =>
      (* [leg.get] on [None] raises, likewise *)
      reply (error 500 (MText "'NoneType' object has no attribute 'get'"))
    | Some (Some leg) =>
      reject_if (negb (bool_decide (leg_status leg = Some "IN_POSITION")))
        (error 400 (MNotInPosition (leg_status leg))) ;;;
      let leg_type := leg_type_of leg in
      let strategy_status := default "COMPLETED" (st_status state) in
      exit_price <- resolve_exit_price mode state leg exit_status ;;
      commit_exit instance_id leg_key leg_type strategy_status exit_price
        exit_status
    end
  end.

End ManualExit.

End Blueprint.

(** ** The state store behind [add_manual_strategy_leg] *)

Module SpecStore.

(** The leg record kept for the arguments of an added leg. *)
Definition stored_leg (leg : NewLeg) : Leg :=
  {| leg_symbol := Some (new_symbol leg);
     leg_exchange := Some (new_exchange leg);
     leg_product := Some (new_product leg);
     leg_quantity := Some (new_quantity leg);
     leg_side := Some (new_side leg);
     leg_entry_price := new_entry_price leg;
     leg_sl_price := new_sl_price leg;
     leg_target_price := new_target_price leg;
     leg_type := Holds "MANUAL";
     leg_status := Some (new_status leg);
     leg_unrealized_pnl := None |}.

Definition with_legs (state : StrategyState)
    (legs : gmap string (option Leg)) : StrategyState :=
  {| st_status := st_status state;
     st_legs := Holds legs;
     st_trade_history := st_trade_history state;
     st_config_product := st_config_product state;
     st_summary := st_summary state |}.

(** Modelled from the spec: [add_manual_strategy_leg] of
    [database/strategy_state_db.py], which is not among the sources.  The
    store is a map from instance id to strategy state.  "Fails with
    DuplicateLeg if [leg_key] already exists in the strategy; fails with
    StateNotFound if [instance_id] does not exist.  On success, persists the
    new Leg and returns it."  "Attempting to add a duplicate key fails with a
    DuplicateLeg error rather than overwriting." *)
Definition add_manual_strategy_leg (instance_id leg_key : string)
    (leg : NewLeg) (db : gmap string StrategyState)
    : (StoreError + Payload) * gmap string StrategyState :=
  match db !! instance_id with
  | None => (inl (StrategyStateNotFoundError instance_id), db)
  | Some state =>
    match state_legs state !! leg_key with
    | Some _ => (inl (StrategyStateDuplicateLegError leg_key), db)
    | None =>
      let stored := stored_leg leg in
      (inr (LegPayload stored),
       <[instance_id :=
           with_legs state (<[leg_key := Some stored]> (state_legs state))]> db)
    end
  end.

End SpecStore.

(** ** Properties of the endpoints, as the specification words them *)

Module LegSpec.


(** What the cross-check of a priced exit asks of the exit price. *)
Definition consistent (side exit_status : string) (entry exit_price : Q) : Prop :=
  (exit_status = "TARGET_HIT" -> side = "BUY" -> entry < exit_price)
  /\ (exit_status = "TARGET_HIT" -> side = "SELL" -> exit_price < entry)
  /\ (exit_status = "SL_HIT" -> side = "BUY" -> exit_price < entry)
  /\ (exit_status = "SL_HIT" -> side = "SELL" -> entry < exit_price).

(** A request body with the seven required fields of a tracked leg. *)
Definition tracked (leg_key side : string) (entry_price : Q)
    (sl_percent target_percent : option Q) : ManualLegRequest :=
  {| req_leg_key := Some leg_key;
     req_symbol := Some "NIFTY";
     req_exchange := Some "NFO";
     req_product := Some "MIS";
     req_quantity := Some 50%Z;
     req_side := Some side;
     req_entry_price := Some (Converts entry_price);
     req_sl_percent := Converts <$> sl_percent;
     req_target_percent := Converts <$> target_percent;
     req_leg_pair_name := None;
     req_is_main_leg := Some false;
     req_reentry_limit := None;
     req_reexecute_limit := None;
     req_mode := Missing;
     req_wait_trade_percent := None;
     req_wait_baseline_price := None |}.

(** A leg in position. *)
Definition open_leg (side leg_type : string) (entry_price : Q) : Leg :=
  {| leg_symbol := Some "NIFTY";
     leg_exchange := Some "NFO";
     leg_product := Some "MIS";
     leg_quantity := Some 50%Z;
     leg_side := Some side;
     leg_entry_price := Some entry_price;
     leg_sl_price := None;
     leg_target_price := None;
     leg_type := Holds leg_type;
     leg_status := Some "IN_POSITION";
     leg_unrealized_pnl := None |}.

(** A strategy with one leg, ["L1"]. *)
Definition one_leg_state (status : string) (leg : Leg) : StrategyState :=
  {| st_status := Some status;
     st_legs := Holds {[ "L1" := Some leg ]};
     st_trade_history := None;
     st_config_product := None;
     st_summary := None |}.

(** A store that holds one running strategy, ["S1"], with a BUY leg ["L1"]
    entered at 100. *)
Definition one_strategy (leg_type : string) : gmap string StrategyState :=
  {[ "S1" := one_leg_state "RUNNING" (open_leg "BUY" leg_type 100) ]}.


(** Store calls for the examples: a lookup in the map, an exit and an
    override that the store accepts, and an override that fails. *)
Definition lookup_state (instance_id : string)
    (db : gmap string StrategyState) : option StrategyState :=
  db !! instance_id.

Definition accept_exit (instance_id leg_key : string) (exit_price : option Q)
    (exit_status : string) (exit_time : Z) (db : gmap string StrategyState)
    : (StoreError + Payload) * gmap string StrategyState :=
  (inr NoPayload, db).

Definition accept_override (instance_id leg_key override_type : string)
    (new_value : option Q) (db : gmap string StrategyState)
    : (StoreError + Payload) * gmap string StrategyState :=
  (inr NoPayload, db).

Definition failing_override (instance_id leg_key override_type : string)
    (new_value : option Q) (db : gmap string StrategyState)
    : (StoreError + Payload) * gmap string StrategyState :=
  (inl (StrategyStateDbError "database is locked"), db).

Definition priced_exit (exit_status : string) (exit_price : Q)
    : ManualExitRequest :=
  mkExitRequest (Some (Converts exit_price)) (Some exit_status) false.

Definition market_exit (exit_status : option string) : ManualExitRequest :=
  mkExitRequest None exit_status true.

(** The override is due: the leg is not a manual one (a leg without
    [leg_type] counts as manual) and the strategy is running. *)
Definition override_due (state : StrategyState) (leg : Leg) : Prop :=
  leg_type leg <> Holds "MANUAL" /\ leg_type leg <> Missing
  /\ st_status state = Some "RUNNING".

(** The exit status of a market exit: the one of the body, or MANUAL_EXIT
    when the body has none. *)
Definition market_status (data : ManualExitRequest) (exit_status : string) : Prop :=
  ((req_exit_status data = None \/ req_exit_status data = Some "")
   /\ exit_status = "MANUAL_EXIT")
  \/ (req_exit_status data = Some exit_status
      /\ (exit_status = "SL_HIT" \/ exit_status = "TARGET_HIT"
          \/ exit_status = "MANUAL_EXIT")).

(** Events of the broker and of market data, as opposed to store calls. *)
Definition broker_event (e : Event) : Prop :=
  match e with
  | EvAddLeg _ _ _ | EvManualExit _ _ _ _ | EvCreateOverride _ _ _ _ => False
  | _ => True
  end.

Definition a_session : Session :=
  {| session_user := Some "trader";
     get_api_key_for_tradingview := fun _ => Some "key";
     utc_now := 0 |}.

End LegSpec.

(** ** Further vocabulary for the engine *)

Module EngineSpec.



End EngineSpec.

(** ** Snapshots that differ in one place *)

Module Snapshot.


(** The snapshot with [leg] stored under [leg_key]. *)
Definition put_leg (state : StrategyState) (leg_key : string)
    (leg : option Leg) : StrategyState :=
  SpecStore.with_legs state (<[leg_key := leg]> (state_legs state)).

End Snapshot.

(** ** Further vocabulary for the manual exit *)

Module ExitSpec.


(** A response that answers before any collaborator is called: its message
    is a fixed text or the not-in-position message. *)
Definition early (r : Response) : Prop :=
  resp_status r = "error"
  /\ ((exists text, resp_message r = MText text)
      \/ exists status, resp_message r = MNotInPosition status).

(** The session names a user who has an API key. *)
Definition authenticated (session : Session) (api_key : string) : Prop :=
  exists user,
    session_user session = Some user /\ user <> ""
    /\ get_api_key_for_tradingview session user = Some api_key
    /\ api_key <> "".

(** The leg carries the symbol, quantity and side a market exit needs. *)
Definition exitable (leg : Leg) (symbol : string) (quantity : Z)
    (side : string) : Prop :=
  leg_symbol leg = Some symbol /\ symbol <> ""
  /\ leg_quantity leg = Some quantity /\ (0 < quantity)%Z
  /\ leg_side leg = Some side /\ side <> "".

(** [x or fallback] for an optional string. *)
Definition or_else (x : option string) (fallback : string) : string :=
  match x with
  | Some s => if bool_decide (s = "") then fallback else s
  | None => fallback
  end.

(** The exchange and the product of the exit order: those of the leg, else
    the exchange inferred from the symbol and the product of the strategy
    configuration, else MIS. *)
Definition exit_exchange (leg : Leg) (symbol : string) : string :=
  or_else (leg_exchange leg) (Blueprint.infer_exchange symbol).

Definition exit_product (state : StrategyState) (leg : Leg) : string :=
  or_else (leg_product leg) (or_else (st_config_product state) "MIS").

End ExitSpec.

(** ** The other endpoints of [blueprints/strategy_state.py] *)

(** The JSON body of [POST .../override]. *)
Record OverrideRequest := mkOverrideRequest {
  req_override_leg_key : option string;
  req_override_type : option string;
  req_new_value : option (Parsed Q)
}.

(** The answer of a GET endpoint: [message] only on an error, [data] only
    on success. *)
Record ReadResponse (A : Type) := mkRead {
  read_code : Z;
  read_status : string;
  read_message : option string;
  read_data : option A
}.
Arguments mkRead {A} _ _ _ _.
Arguments read_code {A} _.
Arguments read_status {A} _.
Arguments read_message {A} _.
Arguments read_data {A} _.

Module Endpoints.

Import Blueprint.

(** [str(exc)] *)
Definition str_exc (e : StoreError) : string :=
  match e with
  | StrategyStateDuplicateLegError text
  | StrategyStateNotFoundError text
  | StrategyStateDbNotFoundError text
  | StrategyStateDbError text
  | OtherException text => text
  end.

(** [f'{x}'] for a string or [None]. *)
Definition format_str (x : option string) : string := default "None" x.

Definition is_lower_ascii (c : ascii) : bool :=
  let n := nat_of_ascii c in (Nat.leb 97 n && Nat.leb n 122)%bool.

Definition is_upper_ascii (c : ascii) : bool :=
  let n := nat_of_ascii c in (Nat.leb 65 n && Nat.leb n 90)%bool.

(** [s.replace(old, new)] for two one-character strings. *)
Definition replace_char (old new : ascii) : string -> string :=
  Py.map_ascii (fun c => if Ascii.eqb c old then new else c).

(** [str.title()] on the ASCII range: a cased letter that follows an uncased
    character is upper-cased, one that follows a cased letter is
    lower-cased. *)
Fixpoint title_from (previous_is_cased : bool) (s : string) : string :=
  match s with
  | EmptyString => EmptyString
  | String c s' =>
    if is_lower_ascii c then
      String (if previous_is_cased then c else Py.upper_ascii c)
        (title_from true s')
    else if is_upper_ascii c then
      String (if previous_is_cased then Py.lower_ascii c else c)
        (title_from true s')
    else String c (title_from false s')
  end.

Definition title : string -> string := title_from false.

(** *** [create_strategy_override_endpoint] *)

(** The checks on the body that precede the state lookup: the early return,
    or [leg_key], [override_type] and the converted [new_value].  A body
    that is falsy ([None] or an empty object) is [None]. *)
Definition validate_override_request (body : option OverrideRequest)
    : Response + (string * string * Q) :=
  match body with
  | None => inl (error 400 (MText "Request body is required"))
  | Some data =>
    let leg_key := req_override_leg_key data in
    let override_type := req_override_type data in
    let new_value := req_new_value data in
    unless negb (Py.truthy_str leg_key)
      answer error 400 (MText "leg_key is required") in
    unless negb (Py.truthy_str override_type)
      answer error 400 (MText "override_type is required") in
    let leg_key := default "" leg_key in
    let override_type := default "" override_type in
    unless negb (bool_decide (override_type ∈ ["sl_price"; "target_price"]))
      answer error 400 (MText "override_type must be sl_price or target_price") in
    match new_value with
    | None => inl (error 400 (MText "new_value is required"))
    | Some x =>
      ok new_value <- to_float x "new_value must be a valid number" in
      unless negb (Qle_bool 0 new_value)
        answer error 400 (MText "new_value must be non-negative") in
      inr (leg_key, override_type, new_value)
    end
  end.

(** The message of the success response. *)
Definition override_created (override_type : string) : string :=
  (title (replace_char "_" " " override_type)
   ++ " override created. Will be applied within 5 seconds.")%string.

Section Override.

Context {Db : Type}.

Context (get_strategy_state_by_instance_id : string -> Db -> option StrategyState).
Context (create_strategy_override :
           string -> string -> string -> option Q -> Db
           -> (StoreError + Payload) * Db).

Definition create_strategy_override_endpoint (instance_id : string)
    (body : option OverrideRequest) : Handler Db Response :=
  request <- checked (validate_override_request body) ;;
  let '(leg_key, override_type, new_value) := request in
  state <- read (get_strategy_state_by_instance_id instance_id) ;;
  match state with
  | None =>
    reply (error 404 (MText ("Strategy state not found: " ++ instance_id)))
  | Some state =>
    (* [leg_key not in legs] on [None] raises; the outer handler answers
       with [str(e)] *)
    reject_if (match st_legs state with IsNone => true | _ => false end)
      (error 500 (MText "argument of type 'NoneType' is not iterable")) ;;;
    match state_legs state !! leg_key with
    | None => reply (error 404 (MText ("Leg not found: " ++ leg_key)))
    | Some None =>
      (* [leg.get] on [None] raises, likewise *)
      reply (error 500 (MText "'NoneType' object has no attribute 'get'"))
    | Some (Some leg) =>
      reject_if (negb (bool_decide (leg_status leg = Some "IN_POSITION")))
        (error 400
           (MText ("Can only modify SL/Target for legs in IN_POSITION status. Current status: "
                   ++ format_str (leg_status leg)))) ;;;
      outcome <- store_call
                   (EvCreateOverride instance_id leg_key override_type
                      (Some new_value))
                   (create_strategy_override instance_id leg_key override_type
                      (Some new_value)) ;;
      match outcome with
      | inl e => reply (error 500 (MText (str_exc e)))
      | inr result => ret (success (override_created override_type) result)
      end
    end
  end.

End Override.

(** *** [get_strategy_states] and [get_strategy_state] *)

Section Reads.

Context {Db : Type}.

(** The two reading calls into [database.strategy_state_db]; either may
    raise. *)
Context (get_all_strategy_states : Db -> StoreError + list StrategyState).
Context (get_strategy_state_by_instance_id :
           string -> Db -> StoreError + option StrategyState).

Definition get_strategy_states (db : Db) : ReadResponse (list StrategyState) :=
  match get_all_strategy_states db with
  | inr states => mkRead 200 "success" None (Some (map attach_summary states))
  | inl e => mkRead 500 "error" (Some (str_exc e)) None
  end.

Definition get_strategy_state (instance_id : string) (db : Db)
    : ReadResponse StrategyState :=
  match get_strategy_state_by_instance_id instance_id db with
  | inr None =>
    mkRead 404 "error"
      (Some ("Strategy state not found: " ++ instance_id)%string) None
  | inr (Some state) => mkRead 200 "success" None (Some (attach_summary state))
  | inl e => mkRead 500 "error" (Some (str_exc e)) None
  end.

End Reads.

End Endpoints.

(** ** Vocabulary for the override endpoint *)

Module OverrideSpec.

(** The two limits of a leg that an override may set. *)
Definition limit_name (override_type : string) : Prop :=
  override_type = "sl_price" \/ override_type = "target_price".

(** The strategy is stored and holds [leg] under [leg_key], in position. *)
Definition open_at {Db : Type}
    (lookup : string -> Db -> option StrategyState)
    (instance_id leg_key : string) (db : Db) (leg : Leg) : Prop :=
  exists state,
    lookup instance_id db = Some state
    /\ (exists legs, st_legs state = Holds legs /\ legs !! leg_key = Some (Some leg))
    /\ leg_status leg = Some "IN_POSITION".

(** A well-formed body. *)
Definition request (leg_key override_type : string) (new_value : Q)
    : OverrideRequest :=
  mkOverrideRequest (Some leg_key) (Some override_type)
    (Some (Converts new_value)).


End OverrideSpec.

(** * [broker/zerodha/credential_manager.py]

    The module-level cache is threaded through every call; the environment
    variable and the file system are read through [Env].  Calls are taken one
    at a time (the lock makes the load-and-store step atomic).  The three
    credential fields of the file are strings, [null] or absent. *)

Module CredentialManager.

(** The dictionary that [_load_shared_credentials_from_file] returns. *)
Record Credentials := mkCredentials {
  api_key : string;
  access_token : string;
  openalgo_api_key : option string
}.

(** The JSON object of the file, as read by the three [creds.get]. *)
Record CredentialsJson := mkJson {
  json_api_key : option string;
  json_access_token : option string;
  json_openalgo_api_key : option string
}.

(** What is at a path: nothing, something that [open], [json.load] or
    [creds.get] raise on, or a JSON object. *)
Inductive FileState :=
| NoFile
| Broken (text : string)
| JsonObject (creds : CredentialsJson).

Inductive LoadError :=
| FileNotFoundError (path : string)
| ValueError (path : string)
| OtherError (text : string).

Record Env := mkEnv {
  getenv_SHARED_CREDENTIALS_FILE : option string;
  file_at : string -> FileState
}.

(** [_credentials_cache] *)
Definition Cache : Type := option Credentials.

Definition _load_shared_credentials_from_file (env : Env)
    (shared_credentials_file : string) : LoadError + Credentials :=
  match file_at env shared_credentials_file with
  | NoFile => inl (FileNotFoundError shared_credentials_file)
  | Broken text => inl (OtherError text)
  | JsonObject creds =>
    let api_key := json_api_key creds in
    let access_token := json_access_token creds in
    let openalgo_api_key := json_openalgo_api_key creds in
    if negb (Py.truthy_str api_key) || negb (Py.truthy_str access_token)
    then inl (ValueError shared_credentials_file)
    else
      inr {| api_key := default "" api_key;
             access_token := default "" access_token;
             openalgo_api_key :=
               if Py.truthy_str openalgo_api_key then openalgo_api_key
               else None |}
  end.

Definition _get_or_load_shared_credentials (env : Env) (cache : Cache)
    : (LoadError + option Credentials) * Cache :=
  let shared_credentials_file := getenv_SHARED_CREDENTIALS_FILE env in
  if negb (Py.truthy_str shared_credentials_file) then (inr None, cache)
  else
    match cache with
    | Some credentials => (inr (Some credentials), cache)
    | None =>
      match _load_shared_credentials_from_file env
              (default "" shared_credentials_file) with
      | inr credentials => (inr (Some credentials), Some credentials)
      | inl e => (inl e, cache)
      end
    end.

Definition get_shared_credentials (env : Env)
    (default_api_key default_access_token : option string) (cache : Cache)
    : (LoadError + option string * option string) * Cache :=
  match _get_or_load_shared_credentials env cache with
  | (inr (Some credentials), cache') =>
    (inr (Some (api_key credentials), Some (access_token credentials)), cache')
  | (inr None, cache') => (inr (default_api_key, default_access_token), cache')
  | (inl e, cache') => (inl e, cache')
  end.

Definition get_shared_auth_token (env : Env)
    (default_auth_token : option string) (cache : Cache)
    : (LoadError + option string) * Cache :=
  match _get_or_load_shared_credentials env cache with
  | (inr (Some credentials), cache') =>
    (inr (Some (api_key credentials ++ ":" ++ access_token credentials)%string),
     cache')
  | (inr None, cache') => (inr default_auth_token, cache')
  | (inl e, cache') => (inl e, cache')
  end.

Definition get_shared_openalgo_api_key (env : Env) (cache : Cache)
    : option string * Cache :=
  match _get_or_load_shared_credentials env cache with
  | (inr (Some credentials), cache') => (openalgo_api_key credentials, cache')
  | (inr None, cache') => (None, cache')
  | (inl _, cache') => (None, cache')
  end.

(** *** Vocabulary *)

(** Shared mode is requested: the variable names a file. *)
Definition shared_mode (env : Env) : Prop :=
  exists path, getenv_SHARED_CREDENTIALS_FILE env = Some path /\ path <> "".

(** Credentials that carry a key and a token, and no empty OpenAlgo key. *)
Definition usable (c : Credentials) : Prop :=
  api_key c <> "" /\ access_token c <> "" /\ openalgo_api_key c <> Some "".

(** The file the variable names cannot be loaded. *)
Definition cannot_load (env : Env) (e : LoadError) : Prop :=
  exists path,
    getenv_SHARED_CREDENTIALS_FILE env = Some path /\ path <> ""
    /\ _load_shared_credentials_from_file env path = inl e.

(** One call of the public interface. *)
Inductive Call :=
| CallCredentials (default_api_key default_access_token : option string)
| CallAuthToken (default_auth_token : option string)
| CallOpenalgoKey.

(** The cache after a call. *)
Definition cache_after (env : Env) (c : Call) (cache : Cache) : Cache :=
  match c with
  | CallCredentials k t => (get_shared_credentials env k t cache).2
  | CallAuthToken d => (get_shared_auth_token env d cache).2
  | CallOpenalgoKey => (get_shared_openalgo_api_key env cache).2
  end.

(** The cache after a sequence of calls, each in its own environment. *)
Definition cache_after_all (calls : list (Env * Call)) (cache : Cache) : Cache :=
  fold_left (fun cache ec => cache_after ec.1 ec.2 cache) calls cache.

End CredentialManager.

(** ** Vocabulary for the two GET endpoints *)

Module ReadSpec.

(** [served] is [state] as an endpoint serves it: the same snapshot, with
    its summary under [summary]. *)
Definition serves (state served : StrategyState) : Prop :=
  st_status served = st_status state
  /\ st_legs served = st_legs state
  /\ st_trade_history served = st_trade_history state
  /\ st_config_product served = st_config_product state
  /\ st_summary served = Some (compute_strategy_state_summary state).

(** A store for the examples: the listing of a map and the lookup in it. *)
Definition list_states (db : gmap string StrategyState)
    : StoreError + list StrategyState :=
  inr (map snd (map_to_list db)).

Definition find_state (instance_id : string) (db : gmap string StrategyState)
    : StoreError + option StrategyState :=
  inr (db !! instance_id).

End ReadSpec.

(** ** Vocabulary for the credential manager, continued *)

Module CredentialSpec.

Import CredentialManager.

(** The cache is empty or holds usable credentials. *)
Definition cache_ok (cache : Cache) : Prop :=
  forall c, cache = Some c -> usable c.

(** An environment for the examples: the variable, and one file. *)
Definition one_file (variable : option string) (path : string)
    (content : FileState) : Env :=
  {| getenv_SHARED_CREDENTIALS_FILE := variable;
     file_at := fun p => if bool_decide (p = path) then content else NoFile |}.

Definition good_file : FileState :=
  JsonObject (mkJson (Some "kite-key") (Some "kite-token") None).

End CredentialSpec.


(** * Theorems *)

(** ** P&L summary *)

Section PnlFacts.

Import PnlSpec.

Lemma float_or_zero_amount (x : option Q) : Py.float_or_zero x == amount x.
Proof.
  destruct x as [q|]; simpl; [|reflexivity].
  destruct (Qeq_bool q 0) eqn:E; [|reflexivity].
  symmetry. by apply Qeq_bool_iff.
Qed.




Lemma total_perm (xs ys : list Q) : xs ≡ₚ ys -> total xs == total ys.
Proof.
  induction 1 as [|x xs ys _ IH|x y xs|xs ys zs _ IH1 _ IH2]; simpl.
  - reflexivity.
  - by rewrite IH.
  - ring.
  - by rewrite IH1.
Qed.

Lemma open_status_iff (leg : option Leg) :
  status_of leg ∈ OPEN_LEG_STATUSES <-> is_open leg.
Proof.
  unfold OPEN_LEG_STATUSES, is_open, has_status, status_of.
  rewrite !elem_of_union, !elem_of_singleton.
  destruct leg as [l|]; simpl; [destruct (leg_status l) as [s|]; simpl|];
    split; intros H; repeat destruct H as [H|H]; try discriminate;
    try (injection H as ->); subst; auto.
Qed.

Lemma idle_status_iff (leg : option Leg) :
  status_of leg = "IDLE" <-> is_idle leg.
Proof.
  unfold is_idle, has_status, status_of.
  destruct leg as [l|]; simpl; [destruct (leg_status l) as [s|]; simpl|];
    split; intros H; try discriminate; try (injection H as ->); subst; auto.
Qed.

Lemma idle_not_open (leg : option Leg) : is_idle leg -> ~ is_open leg.
Proof.
  unfold is_idle, is_open, has_status. intros -> [H|[H|H]]; discriminate.
Qed.

(** What the three accumulators hold after any run of the loop. *)
Lemma summary_loop (items : list (string * option Leg)) (a : LegTotals) :
  let r := fold_left summary_step items a in
  acc_unrealized r ==
    acc_unrealized a
    + total (map (fun leg => amount (leg ≫= leg_unrealized_pnl))
               (filter is_open (map snd items)))
  /\ acc_open r = (acc_open a + length (filter is_open (map snd items)))%nat
  /\ acc_idle r = (acc_idle a + length (filter is_idle (map snd items)))%nat.
Proof.
  revert a. induction items as [|[k leg] items IH]; intros a; simpl.
  - split; [ring | split; lia].
  - destruct (IH (summary_step a (k, leg))) as (IHu & IHo & IHi).
    rewrite IHu, IHo, IHi. clear IH IHu IHo IHi.
    unfold summary_step; simpl. rewrite !filter_cons.
    case_bool_decide as Hopen.
    + apply open_status_iff in Hopen.
      destruct (decide (is_open leg)) as [_|Hn]; [|by destruct Hn].
      destruct (decide (is_idle leg)) as [Hi|_];
        [by apply idle_not_open in Hi|].
      simpl. unfold unrealized_of. rewrite float_or_zero_amount.
      split; [ring | split; lia].
    + rewrite open_status_iff in Hopen.
      destruct (decide (is_open leg)) as [|_]; [done|].
      case_bool_decide as Hidle.
      * apply idle_status_iff in Hidle.
        destruct (decide (is_idle leg)) as [_|Hn]; [|by destruct Hn].
        simpl. split; [ring | split; lia].
      * rewrite idle_status_iff in Hidle.
        destruct (decide (is_idle leg)) as [|_]; [done|].
        simpl. split; [ring | split; lia].
Qed.

End PnlFacts.



(** ** Market exit engine, live mode *)

Section LivePolling.

Import ExitService LiveSpec.

Context (b : Broker) (order_id : string) (retry_interval : Q).






Lemma polls_S (n : nat) :
  polls order_id retry_interval (S n)
  = [EvSleep retry_interval; EvGetOrderStatus order_id]
    ++ polls order_id retry_interval n.
Proof. reflexivity. Qed.


(** The loop makes at most [remaining] polls and nothing else. *)
Lemma poll_loop_bound (remaining attempt : nat) :
  exists n, (n <= remaining)%nat
    /\ (poll_loop b order_id retry_interval remaining attempt).2
       = polls order_id retry_interval n.
Proof.
  revert attempt. induction remaining as [|m IH]; intros attempt.
  - exists 0%nat. by split.
  - cbn [poll_loop].
    destruct (on_status (get_order_status b attempt order_id)) eqn:E.
    + exists 1%nat. split; [lia|done].
    + exists 1%nat. split; [lia|done].
    + destruct (IH (S attempt)) as (n & Hn & Hev).
      exists (S n). split; [lia|].
      destruct poll_loop as [f ev]. simpl in *. by rewrite Hev.
Qed.



End LivePolling.

Section LiveExit.

Import ExitService LiveSpec.

Context (b : Broker) (symbol exchange product : string) (quantity : Z)
  (side api_key order_id : string) (max_retries : Z) (retry_interval : Q).

Let order : OrderRequest :=
  market_order symbol exchange product quantity (exit_action side) api_key.

Hypothesis live_mode : get_analyze_mode b = false.
Hypothesis placed_ok : placed_success (place_order b order) = true.
Hypothesis placed_status_ok : placed_status (place_order b order) = Some "success".
Hypothesis placed_id : placed_orderid (place_order b order) = Some order_id.
Hypothesis id_nonempty : order_id <> "".



End LiveExit.


(** ** Market exit engine, sandbox mode *)

Section SandboxExit.

Import ExitService SandboxSpec.

Context (b : Broker) (symbol exchange : string).

Lemma positive_not_le (q : Q) : 0 < q -> Qle_bool q 0 = false.
Proof.
  intros Hq. destruct (Qle_bool q 0) eqn:E; [|done].
  apply Qle_bool_iff in E. lra.
Qed.

Lemma positive_not_zero (q : Q) : 0 < q -> Qeq_bool q 0 = false.
Proof.
  intros Hq. destruct (Qeq_bool q 0) eqn:E; [|done].
  apply Qeq_bool_iff in E. lra.
Qed.

Lemma reference_price_resolved (p : Q) :
  reference_price b symbol exchange p ->
  exists lookups,
    sandbox_reference_price b symbol exchange = (Next p, lookups)
    /\ (get_ltp_value b symbol exchange = Some p ->
        lookups = [EvGetLtp symbol exchange]).
Proof.
  intros [Hp [Hl|[Hl (Hs & Hst & Hq)]]]; unfold sandbox_reference_price.
  - rewrite Hl, positive_not_le by done. by eexists.
  - exists [EvGetLtp symbol exchange; EvGetQuotes symbol exchange].
    assert (quotes_fallback b symbol exchange
              (get_ltp_value b symbol exchange) = Next p) as Hf.
    { unfold quotes_fallback. rewrite Hs, Hst, Hq. simpl.
      by rewrite positive_not_le, positive_not_zero. }
    destruct (get_ltp_value b symbol exchange) as [q|] eqn:E; simpl in Hl.
    + split.
      * apply Qle_bool_iff in Hl. by rewrite Hl, Hf.
      * intros [= ->]. lra.
    + by rewrite Hf.
Qed.

Lemma no_reference_price_fails :
  no_reference_price b symbol exchange ->
  sandbox_reference_price b symbol exchange
  = (Return (mkExit false None (MsgNoLtp symbol exchange)),
     [EvGetLtp symbol exchange; EvGetQuotes symbol exchange]).
Proof.
  intros [Hl Hq]. unfold sandbox_reference_price.
  assert (quotes_fallback b symbol exchange (get_ltp_value b symbol exchange)
          = Return (mkExit false None (MsgNoLtp symbol exchange))) as Hf.
  { unfold quotes_fallback.
    assert (forall x : option Q, unusable x ->
              match x with
              | Some q =>
                if Qeq_bool q 0 || Qle_bool q 0
                then Return (mkExit false None (MsgNoLtp symbol exchange))
                else Next q
              | None => Return (mkExit false None (MsgNoLtp symbol exchange))
              end
              = (Return (mkExit false None (MsgNoLtp symbol exchange))
                 : Flow ExitResult Q)) as Hun.
    { intros [q|] Hx; simpl in *; [|done].
      apply Qle_bool_iff in Hx. rewrite Hx. by rewrite orb_true_r. }
    destruct Hq as [[H|[H|[H|H]]]|(q & (Hs & Hst & Hn) & Hq)].
    - rewrite H. simpl. by apply Hun.
    - rewrite (bool_decide_eq_false_2 _ H), andb_false_r. by apply Hun.
    - rewrite H. destruct (_ && _); simpl; [done|by apply Hun].
    - rewrite H. destruct (_ && _); simpl; [done|by apply Hun].
    - rewrite Hs, Hst, Hn. simpl. by apply (Hun (Some q)). }
  rewrite Hf.
  destruct (get_ltp_value b symbol exchange) as [q|]; simpl in *; [|done].
  apply Qle_bool_iff in Hl. by rewrite Hl.
Qed.

End SandboxExit.

(** C4. In analyzer mode the engine takes the last traded price as the
    reference price; when that is missing or not positive it takes the
    [ltp] of the quote lookup; when both are missing or not positive the
    exit fails with no fill price and no order is placed; otherwise, once
    the bookkeeping order comes back with status [success] or [analyze], the
    exit succeeds with the reference price as fill price.  With no last
    traded price and a quote of 75.0 the exit succeeds at 75.0; with neither
    it fails. *)
Theorem sandbox_exit_outcomes :
  (forall (b : Broker) (symbol exchange product : string) (quantity : Z)
      (side api_key : string) (max_retries : Z) (retry_interval : Q),
    let order :=
      ExitService.market_order symbol exchange product quantity
        (ExitService.exit_action side) api_key in
    let run :=
      ExitService.execute_market_exit b symbol exchange product quantity side
        api_key max_retries retry_interval in
    get_analyze_mode b = true ->
    (forall p : Q,
        SandboxSpec.reference_price b symbol exchange p ->
        SandboxSpec.order_accepted (place_order b order) ->
        run.1 = mkExit true (Some p) (MsgExitedAnalyzer p)
        /\ (get_ltp_value b symbol exchange = Some p ->
            run.2 = [EvGetLtp symbol exchange; EvPlaceOrder order]))
    /\ (SandboxSpec.no_reference_price b symbol exchange ->
        run = (mkExit false None (MsgNoLtp symbol exchange),
               [EvGetLtp symbol exchange; EvGetQuotes symbol exchange])))
  /\ (let order :=
        ExitService.market_order "NIFTY" "NFO" "MIS" 10 "SELL" "key" in
      ExitService.execute_market_exit
        (SandboxSpec.sandbox None (mkQuoted true (Some "success") (Number 75)))
        "NIFTY" "NFO" "MIS" 10 "BUY" "key" 10 2
      = (mkExit true (Some 75) (MsgExitedAnalyzer 75),
         [EvGetLtp "NIFTY" "NFO"; EvGetQuotes "NIFTY" "NFO";
          EvPlaceOrder order])
      /\ ExitService.execute_market_exit
           (SandboxSpec.sandbox None (mkQuoted false None Absent))
           "NIFTY" "NFO" "MIS" 10 "BUY" "key" 10 2
         = (mkExit false None (MsgNoLtp "NIFTY" "NFO"),
            [EvGetLtp "NIFTY" "NFO"; EvGetQuotes "NIFTY" "NFO"])).
Proof.
  split; [|by vm_compute].
  intros b symbol exchange product quantity side api_key max_retries
    retry_interval order run Hmode.
  subst run. unfold ExitService.execute_market_exit.
  rewrite Hmode. unfold ExitService._execute_sandbox_market_exit. fold order.
  split.
  - intros p Href [Hok Hst].
    destruct (reference_price_resolved b symbol exchange p Href)
      as (lookups & -> & Hlook).
    rewrite Hok. simpl.
    rewrite bool_decide_eq_true_2
      by (rewrite !elem_of_cons; destruct Hst as [->| ->]; tauto).
    simpl. split; [done|]. intros Hl. by rewrite (Hlook Hl).
  - intros Hno. by rewrite no_reference_price_fails.
Qed.

(** ** Adding a manual leg *)

Section ManualLegFacts.

Import Blueprint.

Lemma to_float_400 (x : Parsed Q) (m : string) (r : Response) :
  to_float x m = inl r -> http_code r = 400%Z /\ resp_status r = "error".
Proof. destruct x; simpl; intros [= <-]; done. Qed.

Lemma parse_entry_price_400 mode x r :
  parse_entry_price mode x = inl r ->
  http_code r = 400%Z /\ resp_status r = "error".
Proof.
  unfold parse_entry_price. intros H.
  destruct (bool_decide _), x as [[q|]|]; simpl in H;
    try discriminate; injection H as <-; done.
Qed.

Lemma parse_wait_400 mode w base r :
  parse_wait mode w base = inl r ->
  http_code r = 400%Z /\ resp_status r = "error".
Proof.
  unfold parse_wait. intros H.
  destruct (bool_decide _); [|done].
  destruct w as [[w|]|]; simpl in H; [| |done].
  - destruct (Qle_bool w 0); [by injection H as <-|].
    destruct base as [[base|]|]; try done; by injection H as <-.
  - by injection H as <-.
Qed.

Lemma parse_sl_400 side entry x r :
  parse_sl side entry x = inl r ->
  http_code r = 400%Z /\ resp_status r = "error".
Proof.
  unfold parse_sl, to_float. intros H.
  repeat case_match; simplify_eq; done.
Qed.

Lemma parse_target_400 side entry x r :
  parse_target side entry x = inl r ->
  http_code r = 400%Z /\ resp_status r = "error".
Proof.
  unfold parse_target, to_float. intros H.
  repeat case_match; simplify_eq; done.
Qed.

Lemma parse_limit_400 name x r :
  parse_limit name x = inl r ->
  http_code r = 400%Z /\ resp_status r = "error".
Proof.
  unfold parse_limit. intros H.
  destruct x as [[n|]|]; simpl in H; try done; try (by injection H as <-).
  destruct (Z.ltb n 0); [by injection H as <-|done].
Qed.

(** Every early return of the validation is a 400 error. *)
Lemma validate_manual_leg_400 now body r :
  validate_manual_leg now body = inl r ->
  http_code r = 400%Z /\ resp_status r = "error".
Proof.
  unfold validate_manual_leg. intros H.
  destruct body as [data|]; [|by injection H as <-].
  destruct (negb _); [by injection H as <-|].
  destruct (first_missing data); [by injection H as <-|].
  destruct (parse_entry_price _ _) as [r0|entry] eqn:He;
    [injection H as <-; by eapply parse_entry_price_400|].
  destruct (negb _); [by injection H as <-|].
  destruct (parse_wait _ _ _) as [r0|waits] eqn:Hw;
    [injection H as <-; by eapply parse_wait_400|].
  destruct (parse_sl _ _ _) as [r0|sl] eqn:Hsl;
    [injection H as <-; by eapply parse_sl_400|].
  destruct (parse_target _ _ _) as [r0|target] eqn:Ht;
    [injection H as <-; by eapply parse_target_400|].
  destruct (parse_limit "reentry_limit" _) as [r0|l1] eqn:Hl1;
    [injection H as <-; by eapply parse_limit_400|].
  destruct (parse_limit "reexecute_limit" _) as [r0|l2] eqn:Hl2;
    [injection H as <-; by eapply parse_limit_400|].
  done.
Qed.

(** What an accepted request went through. *)
Lemma validate_manual_leg_accepts now data leg_key leg :
  validate_manual_leg now (Some data) = inr (leg_key, leg) ->
  exists mode,
    request_mode data = Some mode
    /\ req_leg_key data = Some leg_key
    /\ parse_entry_price mode (req_entry_price data) = inr (new_entry_price leg)
    /\ new_side leg = Py.upper (default "" (req_side data))
    /\ (new_side leg = "BUY" \/ new_side leg = "SELL")
    /\ parse_sl (new_side leg) (new_entry_price leg) (req_sl_percent data)
       = inr (new_sl_percent leg, new_sl_price leg)
    /\ parse_target (new_side leg) (new_entry_price leg)
         (req_target_percent data)
       = inr (new_target_percent leg, new_target_price leg).
Proof.
  unfold validate_manual_leg. intros H.
  destruct (bool_decide (request_mode data ∈ _)) eqn:Hm; simpl in H; [|done].
  apply bool_decide_eq_true_1 in Hm.
  destruct (request_mode data) as [mode|] eqn:Hmode;
    [|rewrite !elem_of_cons, elem_of_nil in Hm;
      by destruct Hm as [?|[?|[]]]].
  destruct (first_missing data) eqn:Hmiss; [done|].
  destruct (parse_entry_price _ _) as [r0|entry] eqn:He; [done|].
  destruct (bool_decide (Py.upper _ ∈ _)) eqn:Hside; simpl in H; [|done].
  apply bool_decide_eq_true_1 in Hside.
  destruct (parse_wait _ _ _) as [r0|waits] eqn:Hw; [done|].
  destruct (parse_sl _ _ _) as [r0|sl] eqn:Hsl; [done|].
  destruct (parse_target _ _ _) as [r0|target] eqn:Ht; [done|].
  destruct (parse_limit "reentry_limit" _) as [r0|l1] eqn:Hl1; [done|].
  destruct (parse_limit "reexecute_limit" _) as [r0|l2] eqn:Hl2; [done|].
  injection H as <- <-. simpl.
  exists mode. repeat split; try done.
  - unfold first_missing in Hmiss.
    destruct (req_leg_key data); [done|]. by rewrite bool_decide_eq_true_2 in Hmiss.
  - rewrite !elem_of_cons, elem_of_nil in Hside.
    destruct Hside as [?|[?|[]]]; auto.
  - by destruct sl.
  - by destruct target.
Qed.

Section Endpoint.

Context {Db : Type}.
Context (add : string -> string -> NewLeg -> Db -> (StoreError + Payload) * Db).
Context (session : Session) (instance_id : string).

(** The endpoint is the validation followed by one store call. *)
Lemma create_manual_leg_run (body : option ManualLegRequest) (db : Db) :
  run (create_manual_leg_endpoint add session instance_id body) db
  = match validate_manual_leg (utc_now session) body with
    | inl r => (r, mkWorld db [])
    | inr (leg_key, leg) =>
      ((match (add instance_id leg_key leg db).1 with
        | inl e => add_leg_failed instance_id e
        | inr result => success "Manual leg added successfully" result
        end),
       mkWorld (add instance_id leg_key leg db).2
         [EvAddLeg instance_id leg_key leg])
    end.
Proof.
  unfold run, create_manual_leg_endpoint, bind, checked, store_call.
  destruct (validate_manual_leg _ _) as [r|[leg_key leg]]; simpl; [done|].
  destruct (add instance_id leg_key leg db) as [[e|result] db']; done.
Qed.

End Endpoint.

End ManualLegFacts.

Section ManualLegPrices.

Import Blueprint.

Lemma parse_entry_price_known mode entry result :
  parse_entry_price mode (Some (Converts entry)) = inr result ->
  result = Some entry.
Proof.
  unfold parse_entry_price. destruct (bool_decide _); simpl; by intros [= <-].
Qed.

Lemma parse_entry_price_absent mode result :
  parse_entry_price mode None = inr result -> result = None.
Proof.
  unfold parse_entry_price. destruct (bool_decide _); simpl; [|done].
  by intros [= <-].
Qed.

Lemma parse_sl_priced side entry p percent price :
  parse_sl side (Some entry) (Some (Converts p)) = inr (percent, price) ->
  0 < p
  /\ (side = "BUY" -> price = Some (entry * (1 - p)))
  /\ (side <> "BUY" -> price = Some (entry * (1 + p))).
Proof.
  unfold parse_sl; simpl.
  destruct (Qle_bool p 0) eqn:Hp; [done|].
  assert (0 < p).
  { apply Qnot_le_lt. intros Hle. apply Qle_bool_iff in Hle. congruence. }
  case_bool_decide; intros [= <- <-]; repeat split; done.
Qed.

Lemma parse_target_priced side entry p percent price :
  parse_target side (Some entry) (Some (Converts p)) = inr (percent, price) ->
  0 < p
  /\ (side = "BUY" -> price = Some (entry * (1 + p)))
  /\ (side <> "BUY" -> price = Some (entry * (1 - p))).
Proof.
  unfold parse_target; simpl.
  destruct (Qle_bool p 0) eqn:Hp; [done|].
  assert (0 < p).
  { apply Qnot_le_lt. intros Hle. apply Qle_bool_iff in Hle. congruence. }
  case_bool_decide; intros [= <- <-]; repeat split; done.
Qed.

Lemma parse_sl_unset side entry x percent price :
  entry = None \/ x = None ->
  parse_sl side entry x = inr (percent, price) -> price = None.
Proof.
  unfold parse_sl, to_float. intros [-> | ->] H;
    repeat case_match; simplify_eq; done.
Qed.

Lemma parse_target_unset side entry x percent price :
  entry = None \/ x = None ->
  parse_target side entry x = inr (percent, price) -> price = None.
Proof.
  unfold parse_target, to_float. intros [-> | ->] H;
    repeat case_match; simplify_eq; done.
Qed.

Lemma parse_sl_nonpositive side entry p :
  p <= 0 -> exists r, parse_sl side entry (Some (Converts p)) = inl r.
Proof.
  intros Hp. apply Qle_bool_iff in Hp. unfold parse_sl; simpl.
  destruct entry; rewrite Hp; by eexists.
Qed.

Lemma parse_target_nonpositive side entry p :
  p <= 0 -> exists r, parse_target side entry (Some (Converts p)) = inl r.
Proof.
  intros Hp. apply Qle_bool_iff in Hp. unfold parse_target; simpl.
  destruct entry; rewrite Hp; by eexists.
Qed.

(** The leg an endpoint run hands to the store is the validated one. *)
Lemma added_leg_validated {Db : Type}
    (add : string -> string -> NewLeg -> Db -> (StoreError + Payload) * Db)
    (session : Session) (instance_id : string) (body : option ManualLegRequest)
    (db : Db) (iid leg_key : string) (leg : NewLeg) :
  EvAddLeg iid leg_key leg
    ∈ w_events (run (create_manual_leg_endpoint add session instance_id body) db).2 ->
  validate_manual_leg (utc_now session) body = inr (leg_key, leg).
Proof.
  rewrite create_manual_leg_run.
  destruct (validate_manual_leg _ _) as [r|[k l]]; simpl.
  - by rewrite elem_of_nil.
  - rewrite list_elem_of_singleton. by intros [= _ -> ->].
Qed.

End ManualLegPrices.

(** C6. Whenever the endpoint hands a leg to the store, with the entry
    price known and the stop-loss percent supplied, the percent is strictly
    positive and [sl_price] is [entry_price * (1 - sl_percent)] for BUY and
    [entry_price * (1 + sl_percent)] for SELL; likewise [target_price] is
    [entry_price * (1 + target_percent)] for BUY and
    [entry_price * (1 - target_percent)] for SELL; when the entry price or
    the percent is absent the price is left unset; and a request that
    supplies a non-positive percent is answered 400 without a store call,
    whether or not the entry price is known. *)
Theorem manual_leg_sl_target_prices :
  forall (Db : Type)
    (add : string -> string -> NewLeg -> Db -> (StoreError + Payload) * Db)
    (session : Session) (instance_id : string) (data : ManualLegRequest)
    (db : Db),
    let out :=
      Blueprint.run
        (Blueprint.create_manual_leg_endpoint add session instance_id
           (Some data)) db in
    (forall (iid leg_key : string) (leg : NewLeg),
        EvAddLeg iid leg_key leg ∈ Blueprint.w_events out.2 ->
        (new_side leg = "BUY" \/ new_side leg = "SELL")
        /\ (forall entry p : Q,
              req_entry_price data = Some (Converts entry) ->
              req_sl_percent data = Some (Converts p) ->
              0 < p
              /\ (new_side leg = "BUY" ->
                  new_sl_price leg = Some (entry * (1 - p)))
              /\ (new_side leg = "SELL" ->
                  new_sl_price leg = Some (entry * (1 + p))))
        /\ (forall entry p : Q,
              req_entry_price data = Some (Converts entry) ->
              req_target_percent data = Some (Converts p) ->
              0 < p
              /\ (new_side leg = "BUY" ->
                  new_target_price leg = Some (entry * (1 + p)))
              /\ (new_side leg = "SELL" ->
                  new_target_price leg = Some (entry * (1 - p))))
        /\ (req_entry_price data = None \/ req_sl_percent data = None ->
            new_sl_price leg = None)
        /\ (req_entry_price data = None \/ req_target_percent data = None ->
            new_target_price leg = None))
    /\ (forall p : Q,
          req_sl_percent data = Some (Converts p)
          \/ req_target_percent data = Some (Converts p) ->
          p <= 0 ->
          http_code out.1 = 400%Z /\ out.2 = Blueprint.mkWorld db []).
Proof.
  intros Db add session instance_id data db out. split.
  - intros iid leg_key leg Hev. subst out.
    apply added_leg_validated in Hev.
    apply validate_manual_leg_accepts in Hev
      as (mode & _ & _ & Hentry & _ & Hside & Hsl & Htarget).
    split_and!; [done| | | |].
    + intros entry p He Hp. rewrite He, Hp in *.
      apply parse_entry_price_known in Hentry. rewrite Hentry in Hsl.
      apply parse_sl_priced in Hsl as (Hpos & Hb & Hs).
      split_and!; [done|done|]. intros Hsell. apply Hs. by rewrite Hsell.
    + intros entry p He Hp. rewrite He, Hp in *.
      apply parse_entry_price_known in Hentry. rewrite Hentry in Htarget.
      apply parse_target_priced in Htarget as (Hpos & Hb & Hs).
      split_and!; [done|done|]. intros Hsell. apply Hs. by rewrite Hsell.
    + intros Habs. eapply parse_sl_unset; [|exact Hsl].
      destruct Habs as [Habs|Habs]; [left|by right].
      rewrite Habs in Hentry. by apply parse_entry_price_absent in Hentry.
    + intros Habs. eapply parse_target_unset; [|exact Htarget].
      destruct Habs as [Habs|Habs]; [left|by right].
      rewrite Habs in Hentry. by apply parse_entry_price_absent in Hentry.
  - intros p Hsupplied Hp. subst out. rewrite create_manual_leg_run.
    destruct (Blueprint.validate_manual_leg _ _) as [r|[leg_key leg]] eqn:Hv.
    + split; [|done]. by apply validate_manual_leg_400 in Hv as [? _].
    + apply validate_manual_leg_accepts in Hv
        as (mode & _ & _ & _ & _ & _ & Hsl & Htarget).
      destruct Hsupplied as [Hs|Hs]; rewrite Hs in *.
      * destruct (parse_sl_nonpositive (new_side leg) (new_entry_price leg) p Hp)
          as [r Hr]. congruence.
      * destruct (parse_target_nonpositive (new_side leg)
                    (new_entry_price leg) p Hp) as [r Hr]. congruence.
Qed.



(** C8, as stated, fails: the body is validated before the store is asked,
    and a request for the existing key ["L1"] with a side that is neither
    BUY nor SELL is answered 400 (validation), not 409 (duplicate). *)
Lemma duplicate_key_invalid_side_is_400 :
  let db := LegSpec.one_strategy "MANUAL" in
  let out :=
    Blueprint.run
      (Blueprint.create_manual_leg_endpoint
         SpecStore.add_manual_strategy_leg LegSpec.a_session "S1"
         (Some (LegSpec.tracked "L1" "HOLD" 100 None None))) db in
  (exists state, db !! "S1" = Some state /\ is_Some (state_legs state !! "L1"))
  /\ out.1 = Blueprint.error 400 (MText "side must be BUY or SELL")
  /\ http_code out.1 <> 409%Z.
Proof.
  intros db out. split.
  - exists (LegSpec.one_leg_state "RUNNING" (LegSpec.open_leg "BUY" "MANUAL" 100)).
    split; [by vm_compute|]. vm_compute. by eexists.
  - split; [by vm_compute|]. by vm_compute.
Qed.

(** C8. With the store of the specification: a request whose [leg_key]
    is already among the legs of the strategy never succeeds and leaves the
    store as it was, so that the existing leg is not overwritten; it is
    answered 409 when its body passes validation and 400 (before the store
    is asked) when it does not.  A request that names an unknown instance id
    is answered 404 when its body passes validation, and 400 otherwise. *)
Theorem duplicate_leg_rejected :
  forall (session : Session) (instance_id : string)
    (body : option ManualLegRequest) (db : gmap string StrategyState),
    let out :=
      Blueprint.run
        (Blueprint.create_manual_leg_endpoint
           SpecStore.add_manual_strategy_leg session instance_id body) db in
    let validated := Blueprint.validate_manual_leg (utc_now session) body in
    (forall (data : ManualLegRequest) (state : StrategyState)
        (leg_key : string),
        body = Some data ->
        req_leg_key data = Some leg_key ->
        db !! instance_id = Some state ->
        is_Some (state_legs state !! leg_key) ->
        Blueprint.w_db out.2 = db
        /\ resp_status out.1 = "error"
        /\ (forall leg, validated = inr (leg_key, leg) ->
              http_code out.1 = 409%Z
              /\ Blueprint.w_events out.2 = [EvAddLeg instance_id leg_key leg])
        /\ (forall r, validated = inl r ->
              out.1 = r /\ http_code r = 400%Z
              /\ Blueprint.w_events out.2 = []))
    /\ (db !! instance_id = None ->
        Blueprint.w_db out.2 = db
        /\ resp_status out.1 = "error"
        /\ (forall leg_key leg, validated = inr (leg_key, leg) ->
              http_code out.1 = 404%Z)
        /\ (forall r, validated = inl r -> out.1 = r /\ http_code r = 400%Z)).
Proof.
  intros session instance_id body db out validated. subst out validated.
  rewrite create_manual_leg_run. split.
  - intros data state leg_key -> Hkey Hstate [old Hold].
    destruct (Blueprint.validate_manual_leg _ _) as [r|[k leg]] eqn:Hv.
    + pose proof (validate_manual_leg_400 _ _ _ Hv) as [H400 Herr].
      simpl. split_and!; [done|done|done|].
      intros r' [= <-]. by split_and!.
    + pose proof (validate_manual_leg_accepts _ _ _ _ Hv) as (_ & _ & Hk & _).
      assert (k = leg_key) as -> by congruence.
      unfold SpecStore.add_manual_strategy_leg. rewrite Hstate, Hold. simpl.
      split_and!; [done|done| |done].
      intros leg' [= <-]. by split.
  - intros Hnone.
    destruct (Blueprint.validate_manual_leg _ _) as [r|[k leg]] eqn:Hv.
    + pose proof (validate_manual_leg_400 _ _ _ Hv) as [H400 Herr].
      simpl. split_and!; [done|done|done|].
      intros r' [= <-]. by split.
    + unfold SpecStore.add_manual_strategy_leg. rewrite Hnone. simpl.
      by split_and!.
Qed.

(** ** Exiting a leg by hand *)

Section EngineFacts.

Import ExitService.

Lemma not_le_positive (q : Q) : Qle_bool q 0 = false -> 0 < q.
Proof.
  intros H. apply Qnot_le_lt. intros Hle. apply Qle_bool_iff in Hle. congruence.
Qed.

Lemma on_status_filled (s : StatusResult) (r : ExitResult) :
  on_status s = Return r -> filled r.
Proof.
  unfold on_status, on_complete, filled. intros H Hok.
  repeat case_match; simplify_eq; simpl in *; try done;
    eexists; (split; [done|]); by apply not_le_positive.
Qed.

Lemma poll_loop_filled (b : Broker) (order_id : string) (interval : Q)
    (remaining attempt : nat) (r : ExitResult) :
  (poll_loop b order_id interval remaining attempt).1 = Return r -> filled r.
Proof.
  revert attempt. induction remaining as [|n IH]; intros attempt; [done|].
  cbn [poll_loop].
  destruct (on_status (get_order_status b attempt order_id)) as [r'| |[]] eqn:E;
    simpl.
  - intros [= <-]. by eapply on_status_filled.
  - done.
  - specialize (IH (S attempt)). destruct poll_loop. exact IH.
Qed.

(** The engine reports success only with a positive fill price. *)
Lemma execute_market_exit_filled (b : Broker)
    (symbol exchange product : string) (quantity : Z) (side api_key : string)
    (max_retries : Z) (interval : Q) :
  filled (execute_market_exit b symbol exchange product quantity side api_key
            max_retries interval).1.
Proof.
  unfold execute_market_exit.
  destruct (get_analyze_mode b).
  - unfold _execute_sandbox_market_exit, sandbox_reference_price, quotes_fallback.
    intros Hok. repeat case_match; simplify_eq; simpl in *; try done;
      eexists; (split; [done|]); apply not_le_positive.
    all: try done.
    all: match goal with
         | H : Qeq_bool ?a 0 || Qle_bool ?a 0 = false |- _ =>
           by apply orb_false_elim in H as [_ ?]
         end.
  - unfold _execute_live_market_exit.
    repeat case_match; simplify_eq; simpl; try done.
    match goal with
    | H : poll_loop _ _ _ _ _ = (Return ?r, _) |- _ =>
      apply (f_equal fst) in H; simpl in H; by apply poll_loop_filled in H
    end.
Qed.

End EngineFacts.

Section EngineEvents.

Import ExitService.

Lemma polls_broker_events (order_id : string) (interval : Q) (n : nat) :
  Forall LegSpec.broker_event (LiveSpec.polls order_id interval n).
Proof.
  induction n as [|n IH]; [constructor|].
  rewrite polls_S. repeat constructor. exact IH.
Qed.

(** The engine makes no store call. *)
Lemma execute_market_exit_events (b : Broker)
    (symbol exchange product : string) (quantity : Z) (side api_key : string)
    (max_retries : Z) (interval : Q) :
  Forall LegSpec.broker_event
    (execute_market_exit b symbol exchange product quantity side api_key
       max_retries interval).2.
Proof.
  unfold execute_market_exit.
  destruct (get_analyze_mode b).
  - unfold _execute_sandbox_market_exit, sandbox_reference_price.
    repeat case_match; simplify_eq; simpl; repeat constructor.
  - unfold _execute_live_market_exit.
    repeat case_match; simplify_eq; simpl; repeat constructor.
    all: match goal with
         | H : poll_loop ?b ?o ?i ?n ?a = (_, ?evs) |- Forall _ ?evs =>
           destruct (poll_loop_bound b o i n a) as (k & _ & Hk);
           rewrite H in Hk; simpl in Hk; rewrite Hk;
           apply polls_broker_events
         end.
Qed.

End EngineEvents.

Section ExitRequestFacts.

Import Blueprint.


(** A market request that passes the checks on the body. *)
Lemma validate_market (data : ManualExitRequest) (mode : ExitMode)
    (exit_status : string) :
  req_exit_at_market data = true ->
  validate_exit_request (Some data) = inr (mode, exit_status) ->
  mode = AtMarket
  /\ ((req_exit_status data = None \/ req_exit_status data = Some "") ->
      exit_status = "MANUAL_EXIT")
  /\ (forall s, req_exit_status data = Some s -> s <> "" ->
        exit_status = s
        /\ (s = "SL_HIT" \/ s = "TARGET_HIT" \/ s = "MANUAL_EXIT")).
Proof.
  intros Hm. unfold validate_exit_request. rewrite Hm.
  destruct (req_exit_status data) as [s|]; simpl.
  - case_bool_decide as Hs; simpl.
    + intros [= <- <-]. split_and!; [done|done|]. intros s' [= <-]. done.
    + case_bool_decide as Hin; simpl; [|done].
      intros [= <- <-]. split_and!; [done|by intros [|[= ->]]|].
      intros s' [= <-] _. split; [done|].
      rewrite !elem_of_cons, elem_of_nil in Hin. tauto.
  - intros [= <- <-]. split_and!; [done|done|done].
Qed.

End ExitRequestFacts.

Section ManualExitFacts.

Import Blueprint.

Context {Db : Type}.
Context (get : string -> Db -> option StrategyState).
Context (exit_leg :
           string -> string -> option Q -> string -> Z -> Db
           -> (StoreError + Payload) * Db).
Context (override :
           string -> string -> string -> option Q -> Db
           -> (StoreError + Payload) * Db).
Context (broker : Broker) (session : Session).
Context (instance_id leg_key : string).

(** The market block leaves the store alone and logs broker events only;
    when it goes on, the engine has reported success. *)
Lemma market_exit_block_world (state : StrategyState) (leg : Leg) (db : Db)
    (x : Response + option Q) (w : World Db) :
  market_exit_block broker session state leg (mkWorld db []) = (x, w) ->
  w_db w = db /\ Forall LegSpec.broker_event (w_events w)
  /\ (forall r, x = inl r -> forall s st e, resp_message r <> MCrossCheck s st e)
  /\ (forall fill, x = inr fill -> exists p, fill = Some p /\ 0 < p).
Proof.
  unfold market_exit_block, bind, reject_if, emit, reply, ret.
  repeat (case_match; simpl in * ); simplify_eq; intros [= <- <-]; simpl;
    split_and!; try done; try (by constructor);
    try (intros ? [= <-]; done).
  all: try match goal with
           | H : ExitService.execute_market_exit _ _ _ _ _ _ _ _ _ = (_, ?evs)
             |- Forall _ ?evs =>
             apply (f_equal snd) in H; simpl in H; rewrite <- H;
             apply execute_market_exit_events
           end.
  all: intros fill [= <-];
       match goal with
       | H : ExitService.execute_market_exit ?b ?s ?e ?p ?q ?sd ?k ?m ?i
             = (?r, _),
         Hs : negb (exit_success ?r) = false |- _ =>
         pose proof (execute_market_exit_filled b s e p q sd k m i) as Hf;
         rewrite H in Hf; simpl in Hf; apply Hf;
         by destruct (exit_success r)
       end.
Qed.

Lemma resolve_exit_price_world (mode : ExitMode) (state : StrategyState)
    (leg : Leg) (exit_status : string) (db : Db)
    (x : Response + option Q) (w : World Db) :
  resolve_exit_price broker session mode state leg exit_status (mkWorld db [])
  = (x, w) ->
  w_db w = db /\ Forall LegSpec.broker_event (w_events w).
Proof.
  destruct mode as [p|]; simpl.
  - destruct (cross_check leg exit_status p); intros [= <- <-]; by split.
  - intros H. by apply market_exit_block_world in H as (? & ? & _).
Qed.

(** The store update: one call, then the override when it is due, whose
    outcome is not looked at. *)
Lemma commit_exit_run (leg_type : option string) (strategy_status : string)
    (price : option Q) (exit_status : string) (w : World Db) :
  commit_exit exit_leg override session instance_id leg_key leg_type
    strategy_status price exit_status w
  = let call :=
      exit_leg instance_id leg_key price exit_status (utc_now session) (w_db w) in
    let logged :=
      w_events w ++ [EvManualExit instance_id leg_key price exit_status] in
    match call.1 with
    | inl e => (inl (exit_failed instance_id e), mkWorld call.2 logged)
    | inr result =>
      (inr (success ("Position exited successfully with status " ++ exit_status)
              result),
       if negb (bool_decide (leg_type = Some "MANUAL"))
          && bool_decide (strategy_status = "RUNNING")
       then
         mkWorld
           (override instance_id leg_key "MANUAL_EXIT" price call.2).2
           (logged ++ [EvCreateOverride instance_id leg_key "MANUAL_EXIT" price])
       else mkWorld call.2 logged)
    end.
Proof.
  unfold commit_exit, bind, store_call, reply, ret.
  destruct (exit_leg _ _ _ _ _ _) as [[e|result] db1]; simpl; [done|].
  destruct (negb _ && _); simpl; [|done].
  by destruct (override _ _ _ _ _) as [o db2].
Qed.

(** The endpoint, once the state and the leg are found. *)
Lemma manual_exit_run (body : option ManualExitRequest) (db : Db)
    (state : StrategyState) (leg : Leg) :
  get instance_id db = Some state ->
  state_legs state !! leg_key = Some (Some leg) ->
  run (manual_exit_leg_endpoint get exit_leg override broker session
         instance_id leg_key body) db
  = match validate_exit_request body with
    | inl r => (r, mkWorld db [])
    | inr (mode, exit_status) =>
      if bool_decide (leg_status leg = Some "IN_POSITION") then
        match resolve_exit_price broker session mode state leg exit_status
                (mkWorld db []) with
        | (inl r, w) => (r, w)
        | (inr price, w) =>
          match commit_exit exit_leg override session instance_id leg_key
                  (leg_type_of leg)
                  (default "COMPLETED" (st_status state)) price exit_status w
          with
          | (inl r, w') => (r, w')
          | (inr r, w') => (r, w')
          end
        end
      else (error 400 (MNotInPosition (leg_status leg)), mkWorld db [])
    end.
Proof.
  intros Hstate Hleg.
  unfold run, manual_exit_leg_endpoint, bind, checked, read, reject_if.
  destruct (validate_exit_request body) as [r|[mode exit_status]]; simpl;
    [done|].
  rewrite Hstate.
  assert (match st_legs state with IsNone => true | _ => false end = false)
    as ->.
  { unfold state_legs in Hleg. by destruct (st_legs state). }
  simpl. rewrite Hleg.
  destruct (bool_decide _); simpl; [|done].
  destruct (resolve_exit_price _ _ _ _ _ _ _) as [[r|price] w]; [done|].
  by destruct (commit_exit _ _ _ _ _ _ _ _ _ _) as [[r|r] w'].
Qed.


End ManualExitFacts.



(** C5. Once the store has taken a manual exit, the endpoint answers
    success; it makes the MANUAL_EXIT override call, with the exit price,
    exactly when the leg's type is not MANUAL (a missing type counts as
    MANUAL) and the strategy's status is RUNNING; and the outcome of that
    call is not looked at: whether it fails or not the answer is the same
    success, and the store is left as the override call left it, with no
    further store call. *)
Theorem manual_exit_override :
  (forall (Db : Type)
      (get : string -> Db -> option StrategyState)
      (exit_leg :
         string -> string -> option Q -> string -> Z -> Db
         -> (StoreError + Payload) * Db)
      (override :
         string -> string -> string -> option Q -> Db
         -> (StoreError + Payload) * Db)
      (broker : Broker) (session : Session) (instance_id leg_key : string)
      (body : option ManualExitRequest) (db : Db) (state : StrategyState)
      (leg : Leg) (price : option Q) (exit_status : string) (result : Payload),
    let out :=
      Blueprint.run
        (Blueprint.manual_exit_leg_endpoint get exit_leg override broker
           session instance_id leg_key body) db in
    let committed :=
      exit_leg instance_id leg_key price exit_status (utc_now session) db in
    let published :=
      EvCreateOverride instance_id leg_key "MANUAL_EXIT" price in
    get instance_id db = Some state ->
    state_legs state !! leg_key = Some (Some leg) ->
    EvManualExit instance_id leg_key price exit_status
      ∈ Blueprint.w_events out.2 ->
    committed.1 = inr result ->
    out.1 = Blueprint.success
              ("Position exited successfully with status " ++ exit_status)
              result
    /\ (published ∈ Blueprint.w_events out.2 <-> LegSpec.override_due state leg)
    /\ (LegSpec.override_due state leg ->
        exists before,
          Blueprint.w_events out.2
          = before ++ [EvManualExit instance_id leg_key price exit_status;
                       published]
          /\ Blueprint.w_db out.2
             = (override instance_id leg_key "MANUAL_EXIT" price committed.2).2)
    /\ (~ LegSpec.override_due state leg ->
        exists before,
          Blueprint.w_events out.2
          = before ++ [EvManualExit instance_id leg_key price exit_status]
          /\ Blueprint.w_db out.2 = committed.2))
  /\ (let run := fun override =>
        Blueprint.run
          (Blueprint.manual_exit_leg_endpoint LegSpec.lookup_state
             LegSpec.accept_exit override
             (LiveSpec.scripted []) LegSpec.a_session "S1" "L1"
             (Some (LegSpec.priced_exit "TARGET_HIT" 101)))
          (LegSpec.one_strategy "STRATEGY") in
      run LegSpec.failing_override = run LegSpec.accept_override
      /\ run LegSpec.failing_override
         = (Blueprint.success
              "Position exited successfully with status TARGET_HIT" NoPayload,
            Blueprint.mkWorld (LegSpec.one_strategy "STRATEGY")
              [EvManualExit "S1" "L1" (Some 101) "TARGET_HIT";
               EvCreateOverride "S1" "L1" "MANUAL_EXIT" (Some 101)])).
Proof.
  split; [|by vm_compute].
  intros Db get exit_leg override broker session instance_id leg_key body db
    state leg price exit_status result out committed published Hstate Hleg
    Hin Hok.
  subst out committed published. revert Hin.
  rewrite (manual_exit_run get exit_leg override broker session instance_id
             leg_key body db state leg Hstate Hleg).
  destruct (Blueprint.validate_exit_request body) as [r|[mode status]];
    [simpl; by rewrite elem_of_nil|].
  case_bool_decide as Hopen; [|simpl; by rewrite elem_of_nil].
  destruct (Blueprint.resolve_exit_price _ _ _ _ _ _ _) as [[r|price'] w] eqn:Hres.
  { apply resolve_exit_price_world in Hres as [_ Hev]. simpl. intros Hin.
    rewrite Forall_forall in Hev. by apply Hev in Hin. }
  apply resolve_exit_price_world in Hres as [Hdb Hev].
  rewrite Forall_forall in Hev.
  rewrite commit_exit_run. rewrite Hdb. simpl.
  assert (Hdue :
    negb (bool_decide (Blueprint.leg_type_of leg = Some "MANUAL"))
    && bool_decide (default "COMPLETED" (st_status state) = "RUNNING") = true
    <-> LegSpec.override_due state leg).
  { unfold LegSpec.override_due, Blueprint.leg_type_of.
    rewrite andb_true_iff, negb_true_iff, bool_decide_eq_false,
      bool_decide_eq_true.
    destruct (leg_type leg) as [| |t], (st_status state) as [s|]; simpl;
      (split; [intros [H1 H2]; split_and!; congruence
              |intros (H1 & H2 & H3); split; congruence]). }
  assert (Hargs : forall evs,
    EvManualExit instance_id leg_key price exit_status
      ∈ (Blueprint.w_events w ++ [EvManualExit instance_id leg_key price' status])
        ++ evs ->
    (forall e, e ∈ evs -> exists a b c d, e = EvCreateOverride a b c d) ->
    price' = price /\ status = exit_status).
  { intros evs Hin Hevs. rewrite !elem_of_app, list_elem_of_singleton in Hin.
    destruct Hin as [[Hin|Hin]|Hin].
    - by apply Hev in Hin.
    - by injection Hin as -> ->.
    - apply Hevs in Hin as (? & ? & ? & ? & ?). done. }
  destruct (exit_leg instance_id leg_key price' status (utc_now session) db)
    as [[e|result'] db1] eqn:Hcall; simpl.
  { intros Hin. destruct (Hargs [] ) as [-> ->];
      [by rewrite app_nil_r|by intros ? ?%elem_of_nil|].
    rewrite Hcall in Hok. done. }
  destruct (negb _ && _) eqn:Hcond; simpl; intros Hin.
  - destruct (Hargs [EvCreateOverride instance_id leg_key "MANUAL_EXIT" price'])
      as [-> ->]; [done| |].
    { intros e ->%list_elem_of_singleton. by repeat eexists. }
    rewrite Hcall in Hok. simpl in Hok. injection Hok as ->.
    assert (LegSpec.override_due state leg) as Hyes by by apply Hdue.
    split_and!; [done| | |done].
    + split; [done|]. intros _. rewrite elem_of_app, list_elem_of_singleton.
      by right.
    + intros _. exists (Blueprint.w_events w). split; [|by rewrite Hcall].
      by rewrite <- app_assoc.
  - destruct (Hargs []) as [-> ->];
      [by rewrite app_nil_r|by intros ? ?%elem_of_nil|].
    rewrite Hcall in Hok. simpl in Hok. injection Hok as ->.
    assert (~ LegSpec.override_due state leg) as Hno.
    { intros Hd. apply Hdue in Hd. congruence. }
    split_and!; [done| |done|].
    + split; [|done]. intros Hpub.
      rewrite elem_of_app, list_elem_of_singleton in Hpub.
      destruct Hpub as [Hpub|Hpub]; [by apply Hev in Hpub|done].
    + intros _. exists (Blueprint.w_events w). split; [done|by rewrite Hcall].
Qed.

Section MarketExitFacts.

Import Blueprint.

(** The exit status a market request is validated to. *)
Lemma validate_market_status (data : ManualExitRequest) (exit_status : string) :
  req_exit_at_market data = true ->
  LegSpec.market_status data exit_status ->
  validate_exit_request (Some data) = inr (AtMarket, exit_status).
Proof.
  intros Hm Hs. unfold validate_exit_request. rewrite Hm.
  destruct Hs as [[[Hs|Hs] ->]|[Hs Hin]]; rewrite Hs; simpl; try done.
  rewrite bool_decide_eq_false_2
    by (intros ->; destruct Hin as [?|[?|?]]; done).
  simpl.
  rewrite bool_decide_eq_true_2; [done|].
  rewrite !elem_of_cons. tauto.
Qed.

Lemma validate_market_error (data : ManualExitRequest) (r : Response) :
  req_exit_at_market data = true ->
  validate_exit_request (Some data) = inl r ->
  forall side st e, resp_message r <> MCrossCheck side st e.
Proof.
  intros Hm. unfold validate_exit_request. rewrite Hm.
  repeat case_match; simplify_eq; intros [= <-]; done.
Qed.

End MarketExitFacts.

(** C10. A market exit of a leg in position is never answered by the
    cross-check: whatever fill price the engine resolves, a positive one, is
    handed to the store update together with the exit status of the body
    (SL_HIT, TARGET_HIT or MANUAL_EXIT, the last one also when the body has
    none), whatever the leg's side and entry price.  A BUY leg entered at
    100 is closed as SL_HIT at a fill price of 120. *)
Theorem market_exit_skips_cross_check :
  (forall (Db : Type)
      (get : string -> Db -> option StrategyState)
      (exit_leg :
         string -> string -> option Q -> string -> Z -> Db
         -> (StoreError + Payload) * Db)
      (override :
         string -> string -> string -> option Q -> Db
         -> (StoreError + Payload) * Db)
      (broker : Broker) (session : Session) (instance_id leg_key : string)
      (data : ManualExitRequest) (db : Db) (state : StrategyState) (leg : Leg),
    let out :=
      Blueprint.run
        (Blueprint.manual_exit_leg_endpoint get exit_leg override broker
           session instance_id leg_key (Some data)) db in
    req_exit_at_market data = true ->
    get instance_id db = Some state ->
    state_legs state !! leg_key = Some (Some leg) ->
    leg_status leg = Some "IN_POSITION" ->
    (forall side st e, resp_message out.1 <> MCrossCheck side st e)
    /\ (forall (exit_status : string) (fill : option Q)
          (w : Blueprint.World Db),
          LegSpec.market_status data exit_status ->
          Blueprint.market_exit_block broker session state leg
            (Blueprint.mkWorld db []) = (inr fill, w) ->
          exists (p : Q) (later : list Event),
            fill = Some p /\ 0 < p
            /\ Blueprint.w_events out.2
               = Blueprint.w_events w
                 ++ EvManualExit instance_id leg_key (Some p) exit_status
                    :: later))
  /\ (let out :=
        Blueprint.run
          (Blueprint.manual_exit_leg_endpoint LegSpec.lookup_state
             LegSpec.accept_exit LegSpec.accept_override
             (SandboxSpec.sandbox (Some 120) (mkQuoted false None Absent))
             LegSpec.a_session "S1" "L1"
             (Some (LegSpec.market_exit (Some "SL_HIT"))))
          (LegSpec.one_strategy "MANUAL") in
      ~ LegSpec.consistent "BUY" "SL_HIT" 100 120
      /\ http_code out.1 = 200%Z
      /\ Blueprint.w_events out.2
         = [EvGetLtp "NIFTY" "NFO";
            EvPlaceOrder
              (ExitService.market_order "NIFTY" "NFO" "MIS" 50 "SELL" "key");
            EvManualExit "S1" "L1" (Some 120) "SL_HIT"]).
Proof.
  split.
  - intros Db get exit_leg override broker session instance_id leg_key data db
      state leg out Hmode Hstate Hleg Hopen.
    subst out.
    rewrite (manual_exit_run get exit_leg override broker session instance_id
               leg_key (Some data) db state leg Hstate Hleg).
    rewrite bool_decide_eq_true_2 by done.
    split.
    + destruct (Blueprint.validate_exit_request (Some data))
        as [r|[mode status]] eqn:Hv.
      { simpl. by eapply validate_market_error. }
      apply validate_market in Hv as (-> & _); [|done]. simpl.
      destruct (Blueprint.market_exit_block _ _ _ _ _) as [[r|price] w] eqn:Hb.
      { apply market_exit_block_world in Hb as (_ & _ & Hr & _). simpl.
        by apply Hr. }
      rewrite commit_exit_run. simpl.
      destruct (exit_leg _ _ _ _ _ _) as [[e|result] db1]; simpl; [|done].
      by destruct e.
    + intros exit_status fill w Hs Hb.
      rewrite (validate_market_status data exit_status Hmode Hs). simpl.
      rewrite Hb.
      apply market_exit_block_world in Hb as (_ & _ & _ & Hfill).
      destruct (Hfill fill eq_refl) as (p & -> & Hp).
      rewrite commit_exit_run. simpl.
      destruct (exit_leg _ _ _ _ _ _) as [[e|result] db1]; simpl;
        [by exists p, []|].
      destruct (negb _ && _); simpl.
      * exists p. eexists. split_and!; [done|done|].
        by rewrite <- app_assoc.
      * by exists p, [].
  - split; [|split; by vm_compute].
    intros (_ & _ & H & _). specialize (H eq_refl eq_refl).
    revert H. by vm_compute.
Qed.

(** ** Worked instances *)



(** C4 with no last traded price and a quote of 75. *)
Lemma sandbox_exit_outcomes_witness :
  let b :=
    SandboxSpec.sandbox None (mkQuoted true (Some "success") (Number 75)) in
  let order := ExitService.market_order "NIFTY" "NFO" "MIS" 10 "SELL" "key" in
  get_analyze_mode b = true
  /\ SandboxSpec.reference_price b "NIFTY" "NFO" 75
  /\ SandboxSpec.order_accepted (place_order b order)
  /\ (ExitService.execute_market_exit b "NIFTY" "NFO" "MIS" 10 "BUY" "key" 10 2).1
     = mkExit true (Some 75) (MsgExitedAnalyzer 75).
Proof.
  intros b order.
  assert (Href : SandboxSpec.reference_price b "NIFTY" "NFO" 75).
  { split; [reflexivity|]. right. split; [exact I|]. by split_and!. }
  assert (Hacc : SandboxSpec.order_accepted (place_order b order)).
  { split; [reflexivity|]. by right. }
  split_and!; [reflexivity|exact Href|exact Hacc|].
  pose proof (proj1 sandbox_exit_outcomes b "NIFTY" "NFO" "MIS" 10%Z "BUY"
                "key" 10%Z 2 eq_refl) as [Hok _].
  exact (proj1 (Hok 75 Href Hacc)).
Defined.

(** C6 and C7 on a tracked BUY leg entered at 100 with a 10% stop-loss and
    a 20% target. *)
Lemma tracked_buy_leg_added :
  exists leg : NewLeg,
    Blueprint.w_events
      (Blueprint.run
         (Blueprint.create_manual_leg_endpoint
            SpecStore.add_manual_strategy_leg LegSpec.a_session "S1"
            (Some (LegSpec.tracked "L2" "BUY" 100 (Some (1 # 10))
                     (Some (1 # 5)))))
         (LegSpec.one_strategy "MANUAL")).2
    = [EvAddLeg "S1" "L2" leg]
    /\ new_side leg = "BUY" /\ new_entry_price leg = Some 100.
Proof. eexists. split; [by vm_compute|]. by split. Defined.

Lemma manual_leg_sl_target_prices_witness :
  let data := LegSpec.tracked "L2" "BUY" 100 (Some (1 # 10)) (Some (1 # 5)) in
  let out :=
    Blueprint.run
      (Blueprint.create_manual_leg_endpoint SpecStore.add_manual_strategy_leg
         LegSpec.a_session "S1" (Some data))
      (LegSpec.one_strategy "MANUAL") in
  exists leg : NewLeg,
    EvAddLeg "S1" "L2" leg ∈ Blueprint.w_events out.2
    /\ req_entry_price data = Some (Converts 100)
    /\ req_sl_percent data = Some (Converts (1 # 10))
    /\ new_sl_price leg = Some (100 * (1 - (1 # 10))).
Proof.
  intros data out. destruct tracked_buy_leg_added as (leg & Hev & Hside & _).
  exists leg.
  assert (Hin : EvAddLeg "S1" "L2" leg ∈ Blueprint.w_events out.2).
  { subst out data. rewrite Hev. by apply list_elem_of_singleton. }
  split_and!; [exact Hin|reflexivity|reflexivity|].
  pose proof (proj1 (manual_leg_sl_target_prices _
                       SpecStore.add_manual_strategy_leg LegSpec.a_session
                       "S1" data (LegSpec.one_strategy "MANUAL"))
                "S1" "L2" leg Hin) as (_ & Hsl & _).
  destruct (Hsl 100 (1 # 10) eq_refl eq_refl) as (_ & Hbuy & _).
  exact (Hbuy Hside).
Defined.


(** C8 on a well-formed request for the existing key ["L1"]. *)
Lemma duplicate_leg_rejected_witness :
  let data := LegSpec.tracked "L1" "BUY" 100 None None in
  let db := LegSpec.one_strategy "MANUAL" in
  let out :=
    Blueprint.run
      (Blueprint.create_manual_leg_endpoint SpecStore.add_manual_strategy_leg
         LegSpec.a_session "S1" (Some data)) db in
  req_leg_key data = Some "L1"
  /\ (exists state,
        db !! "S1" = Some state /\ is_Some (state_legs state !! "L1"))
  /\ Blueprint.w_db out.2 = db
  /\ http_code out.1 = 409%Z.
Proof.
  intros data db out.
  set (state := LegSpec.one_leg_state "RUNNING"
                  (LegSpec.open_leg "BUY" "MANUAL" 100)).
  assert (Hstate : db !! "S1" = Some state) by by vm_compute.
  assert (Hleg : is_Some (state_legs state !! "L1")).
  { exists (Some (LegSpec.open_leg "BUY" "MANUAL" 100)). by vm_compute. }
  split_and!; [reflexivity|by exists state| |].
  - exact (proj1 (proj1 (duplicate_leg_rejected LegSpec.a_session "S1"
                           (Some data) db)
                    data state "L1" eq_refl eq_refl Hstate Hleg)).
  - destruct (proj1 (duplicate_leg_rejected LegSpec.a_session "S1"
                       (Some data) db)
                data state "L1" eq_refl eq_refl Hstate Hleg)
      as (_ & _ & Hdup & _).
    eapply Hdup. by vm_compute.
Defined.


(** C5 on a strategy leg of a running strategy, with an override call
    that fails. *)
Lemma manual_exit_override_witness :
  let db := LegSpec.one_strategy "STRATEGY" in
  let leg := LegSpec.open_leg "BUY" "STRATEGY" 100 in
  let state := LegSpec.one_leg_state "RUNNING" leg in
  let out :=
    Blueprint.run
      (Blueprint.manual_exit_leg_endpoint LegSpec.lookup_state
         LegSpec.accept_exit LegSpec.failing_override (LiveSpec.scripted [])
         LegSpec.a_session "S1" "L1"
         (Some (LegSpec.priced_exit "TARGET_HIT" 101))) db in
  LegSpec.lookup_state "S1" db = Some state
  /\ EvManualExit "S1" "L1" (Some 101) "TARGET_HIT" ∈ Blueprint.w_events out.2
  /\ LegSpec.override_due state leg
  /\ out.1 = Blueprint.success
               "Position exited successfully with status TARGET_HIT" NoPayload
  /\ EvCreateOverride "S1" "L1" "MANUAL_EXIT" (Some 101)
       ∈ Blueprint.w_events out.2.
Proof.
  intros db leg state out.
  assert (Hstate : LegSpec.lookup_state "S1" db = Some state) by by vm_compute.
  assert (Hleg : state_legs state !! "L1" = Some (Some leg)) by by vm_compute.
  assert (Hin : EvManualExit "S1" "L1" (Some 101) "TARGET_HIT"
                  ∈ Blueprint.w_events out.2).
  { replace (Blueprint.w_events out.2)
      with [EvManualExit "S1" "L1" (Some 101) "TARGET_HIT";
            EvCreateOverride "S1" "L1" "MANUAL_EXIT" (Some 101)]
      by (by vm_compute).
    apply list_elem_of_here. }
  assert (Hdue : LegSpec.override_due state leg) by (by split).
  pose proof (proj1 manual_exit_override _ LegSpec.lookup_state
                LegSpec.accept_exit LegSpec.failing_override
                (LiveSpec.scripted []) LegSpec.a_session "S1" "L1"
                (Some (LegSpec.priced_exit "TARGET_HIT" 101)) db state leg
                (Some 101) "TARGET_HIT" NoPayload Hstate Hleg Hin eq_refl)
    as (Hok & Hiff & _).
  split_and!; [exact Hstate|exact Hin|exact Hdue|exact Hok|].
  exact (proj2 Hiff Hdue).
Defined.

(** C10 on a BUY leg entered at 100, closed at market as SL_HIT at 120. *)
Lemma market_exit_skips_cross_check_witness :
  let data := LegSpec.market_exit (Some "SL_HIT") in
  let db := LegSpec.one_strategy "MANUAL" in
  let leg := LegSpec.open_leg "BUY" "MANUAL" 100 in
  let state := LegSpec.one_leg_state "RUNNING" leg in
  let broker := SandboxSpec.sandbox (Some 120) (mkQuoted false None Absent) in
  let out :=
    Blueprint.run
      (Blueprint.manual_exit_leg_endpoint LegSpec.lookup_state
         LegSpec.accept_exit LegSpec.accept_override broker
         LegSpec.a_session "S1" "L1" (Some data)) db in
  req_exit_at_market data = true
  /\ leg_status leg = Some "IN_POSITION"
  /\ LegSpec.market_status data "SL_HIT"
  /\ exists (w : Blueprint.World (gmap string StrategyState)) (p : Q)
       (later : list Event),
       Blueprint.market_exit_block broker LegSpec.a_session state leg
         (Blueprint.mkWorld db []) = (inr (Some p), w)
       /\ 0 < p
       /\ Blueprint.w_events out.2
          = Blueprint.w_events w
            ++ EvManualExit "S1" "L1" (Some p) "SL_HIT" :: later.
Proof.
  intros data db leg state broker out.
  assert (Hstatus : LegSpec.market_status data "SL_HIT").
  { right. split; [reflexivity|by left]. }
  assert (Hstate : LegSpec.lookup_state "S1" db = Some state) by by vm_compute.
  assert (Hleg : state_legs state !! "L1" = Some (Some leg)) by by vm_compute.
  split_and!; [reflexivity|reflexivity|exact Hstatus|].
  destruct (Blueprint.market_exit_block broker LegSpec.a_session state leg
              (Blueprint.mkWorld db [])) as [[r|fill] w] eqn:Hblock;
    [by vm_compute in Hblock|].
  destruct (proj2 (proj1 market_exit_skips_cross_check _ LegSpec.lookup_state
                     LegSpec.accept_exit LegSpec.accept_override broker
                     LegSpec.a_session "S1" "L1" data db state leg eq_refl
                     Hstate Hleg eq_refl)
              "SL_HIT" fill w Hstatus Hblock)
    as (p & later & -> & Hp & Hev).
  by exists w, p, later.
Defined.

(** * Further properties of the code *)

(** ** Market exit engine *)

Section EngineShape.

Import ExitService.




End EngineShape.


(** X2. In live mode the outside calls of the engine are one order
    placement followed by at most [max_retries] sleep-and-poll pairs, and
    nothing else.  A refused placement fails with the broker's message (or
    the default text) and a placement without order id fails too, both
    without a single poll; with [max_retries <= 0] an accepted order times
    out without a poll. *)
Theorem live_exit_calls :
  forall (b : Broker) (symbol exchange product : string) (quantity : Z)
    (side api_key : string) (max_retries : Z) (retry_interval : Q),
    let order :=
      ExitService.market_order symbol exchange product quantity
        (ExitService.exit_action side) api_key in
    let response := place_order b order in
    let refused :=
      placed_success response = false
      \/ placed_status response <> Some "success" in
    let run :=
      ExitService.execute_market_exit b symbol exchange product quantity side
        api_key max_retries retry_interval in
    get_analyze_mode b = false ->
    (exists n : nat,
        (n <= Z.to_nat max_retries)%nat
        /\ run.2
           = EvPlaceOrder order
             :: LiveSpec.polls (default "" (placed_orderid response))
                  retry_interval n)
    /\ (refused ->
        run = (mkExit false None
                 (MsgText (default "Failed to place market exit order"
                             (placed_message response))),
               [EvPlaceOrder order]))
    /\ (~ refused ->
        placed_orderid response = None \/ placed_orderid response = Some "" ->
        run = (mkExit false None (MsgText "No order ID returned from broker"),
               [EvPlaceOrder order]))
    /\ (~ refused ->
        (exists order_id,
            placed_orderid response = Some order_id /\ order_id <> "") ->
        (max_retries <= 0)%Z ->
        run = (mkExit false None
                 (MsgTimeout (inject_Z max_retries * retry_interval)),
               [EvPlaceOrder order])).
Proof.
  intros b symbol exchange product quantity side api_key max_retries
    retry_interval order response refused run Hmode.
  assert (Hgate :
    negb (placed_success response)
    || negb (bool_decide (placed_status response = Some "success")) = true
    <-> refused).
  { subst refused. rewrite orb_true_iff, !negb_true_iff, bool_decide_eq_false.
    done. }
  subst run. unfold ExitService.execute_market_exit.
  rewrite Hmode. unfold ExitService._execute_live_market_exit.
  fold order. fold response.
  destruct (negb (placed_success response) || _) eqn:Hg.
  { assert refused as Hr by by apply Hgate. simpl.
    split_and!; [exists 0%nat; split; [lia|done]|done
                |by intros Hn|by intros Hn]. }
  assert (~ refused) as Hok by (intros Hr; apply Hgate in Hr; congruence).
  destruct (placed_orderid response) as [order_id|] eqn:Hid;
    unfold Py.truthy_str.
  - destruct (decide (order_id = "")) as [->|Hempty].
    + rewrite bool_decide_eq_true_2 by done. simpl.
      split_and!; [exists 0%nat; split; [lia|done]|done|done|].
      intros _ (oid & [= <-] & Hne). done.
    + rewrite (bool_decide_eq_false_2 _ Hempty). simpl.
      destruct (poll_loop_bound b order_id retry_interval
                  (Z.to_nat max_retries) 0) as (n & Hn & Hev).
      destruct (ExitService.poll_loop b order_id retry_interval
                  (Z.to_nat max_retries) 0) as [flow polls] eqn:Hloop.
      simpl in Hev. subst polls.
      split_and!.
      * exists n. split; [done|]. by destruct flow as [?| |?].
      * by intros Hr.
      * by intros _ [?|[= ->]].
      * intros _ _ Hmax.
        replace (Z.to_nat max_retries) with 0%nat in Hloop by lia.
        simpl in Hloop. injection Hloop as <- Hpolls. by rewrite <- Hpolls.
  - split_and!; [exists 0%nat; split; [lia|done]|done|done|].
    by intros _ (oid & ? & _).
Qed.

(** X2 on a broker that refuses the order. *)
Lemma live_exit_calls_witness :
  let b :=
    mkBroker false (fun _ => mkPlaced false (Some "error")
                               (Some "Insufficient funds") None)
      (fun _ _ => mkPolled false None None None)
      (fun _ _ => None) (fun _ _ => mkQuoted false None Absent) in
  get_analyze_mode b = false
  /\ ExitService.execute_market_exit b "NIFTY" "NFO" "MIS" 10 "BUY" "key" 10 2
     = (mkExit false None (MsgText "Insufficient funds"),
        [EvPlaceOrder
           (ExitService.market_order "NIFTY" "NFO" "MIS" 10 "SELL" "key")]).
Proof.
  intros b. split; [reflexivity|].
  destruct (live_exit_calls b "NIFTY" "NFO" "MIS" 10%Z "BUY" "key" 10%Z 2
              eq_refl) as (_ & Hrefused & _).
  apply Hrefused. by left.
Defined.

Section EngineExceptions.

Import ExitService LiveSpec EngineSpec.



End EngineExceptions.



(** X4. In analyzer mode the engine never sleeps and never asks for an
    order status: it looks up the last traded price, the quote only as a
    fallback, and places at most one order, after the lookups.  When a
    reference price was resolved but the bookkeeping order is refused, the
    exit fails with the broker's message (or the default text) and no fill
    price. *)
Theorem sandbox_exit_calls :
  forall (b : Broker) (symbol exchange product : string) (quantity : Z)
    (side api_key : string) (max_retries : Z) (retry_interval : Q),
    let order :=
      ExitService.market_order symbol exchange product quantity
        (ExitService.exit_action side) api_key in
    let run :=
      ExitService.execute_market_exit b symbol exchange product quantity side
        api_key max_retries retry_interval in
    get_analyze_mode b = true ->
    (exists lookups placed : list Event,
        run.2 = lookups ++ placed
        /\ (lookups = [EvGetLtp symbol exchange]
            \/ lookups = [EvGetLtp symbol exchange; EvGetQuotes symbol exchange])
        /\ (placed = [] \/ placed = [EvPlaceOrder order]))
    /\ (forall p : Q,
          SandboxSpec.reference_price b symbol exchange p ->
          ~ SandboxSpec.order_accepted (place_order b order) ->
          run.1 = mkExit false None
                    (MsgText (default "Failed to place sandbox exit order"
                                (placed_message (place_order b order))))
          /\ EvPlaceOrder order ∈ run.2).
Proof.
  intros b symbol exchange product quantity side api_key max_retries
    retry_interval order run Hmode.
  subst run. unfold ExitService.execute_market_exit. rewrite Hmode.
  unfold ExitService._execute_sandbox_market_exit. fold order. split.
  - unfold ExitService.sandbox_reference_price.
    repeat case_match; simplify_eq; simpl;
      first [ by exists [EvGetLtp symbol exchange], [];
                split_and!; [|left|left]
            | by exists [EvGetLtp symbol exchange],
                [EvPlaceOrder order]; split_and!; [|left|right]
            | by exists [EvGetLtp symbol exchange;
                         EvGetQuotes symbol exchange], [];
                split_and!; [|right|left]
            | by exists [EvGetLtp symbol exchange;
                         EvGetQuotes symbol exchange],
                [EvPlaceOrder order]; split_and!; [|right|right] ].
  - intros p Href Hrefused.
    destruct (reference_price_resolved b symbol exchange p Href)
      as (lookups & -> & _).
    assert (negb (placed_success (place_order b order))
            || negb (bool_decide
                       (placed_status (place_order b order)
                        ∈ [Some "success"; Some "analyze"])) = true) as ->.
    { rewrite orb_true_iff, !negb_true_iff, bool_decide_eq_false.
      destruct (placed_success (place_order b order)) eqn:Hs; [right|by left].
      intros Hin. apply Hrefused. split; [done|].
      rewrite !elem_of_cons, elem_of_nil in Hin. tauto. }
    simpl. split; [done|]. rewrite elem_of_app, list_elem_of_singleton.
    by right.
Qed.

(** X4 with a last traded price of 120 and an order the broker refuses. *)
Lemma sandbox_exit_calls_witness :
  let b :=
    mkBroker true (fun _ => mkPlaced false (Some "error") None None)
      (fun _ _ => mkPolled false None None None)
      (fun _ _ => Some 120) (fun _ _ => mkQuoted false None Absent) in
  get_analyze_mode b = true
  /\ SandboxSpec.reference_price b "NIFTY" "NFO" 120
  /\ (ExitService.execute_market_exit b "NIFTY" "NFO" "MIS" 10 "BUY" "key" 10 2).1
     = mkExit false None (MsgText "Failed to place sandbox exit order").
Proof.
  intros b.
  assert (Href : SandboxSpec.reference_price b "NIFTY" "NFO" 120).
  { split; [reflexivity|]. by left. }
  split_and!; [reflexivity|exact Href|].
  refine (proj1 (proj2 (sandbox_exit_calls b "NIFTY" "NFO" "MIS" 10%Z "BUY"
                          "key" 10%Z 2 eq_refl) 120 Href _)).
  intros [Hs _]. discriminate Hs.
Defined.

(** ** P&L summary *)

Section SummaryFacts.

Import PnlSpec.

Lemma disjoint_filters_length {A} (P Q : A -> Prop)
    `{forall x, Decision (P x)} `{forall x, Decision (Q x)} (l : list A) :
  (forall x, P x -> ~ Q x) ->
  (length (filter P l) + length (filter Q l) <= length l)%nat.
Proof.
  intros Hdis. induction l as [|x l IH]; [done|].
  rewrite !filter_cons.
  destruct (decide (P x)) as [Hp|Hp], (decide (Q x)) as [Hq|Hq]; simpl;
    [by apply Hdis in Hp|lia|lia|lia].
Qed.

(** The totals of the loop do not depend on the order of the items. *)
Lemma summary_loop_perm (items items' : list (string * option Leg)) :
  items ≡ₚ items' ->
  let start := {| acc_unrealized := 0; acc_open := 0; acc_idle := 0 |} in
  acc_unrealized (fold_left summary_step items start)
  == acc_unrealized (fold_left summary_step items' start)
  /\ acc_open (fold_left summary_step items start)
     = acc_open (fold_left summary_step items' start)
  /\ acc_idle (fold_left summary_step items start)
     = acc_idle (fold_left summary_step items' start).
Proof.
  intros Hperm start.
  destruct (summary_loop items start) as (Hu & Ho & Hi).
  destruct (summary_loop items' start) as (Hu' & Ho' & Hi').
  assert (Hsnd : map snd items ≡ₚ map snd items') by by apply Permutation_map.
  rewrite Hu, Hu', Ho, Ho', Hi, Hi'. split_and!.
  - apply Qplus_comp; [reflexivity|]. apply total_perm.
    apply Permutation_map. by rewrite Hsnd.
  - f_equal. apply Permutation_length. by rewrite Hsnd.
  - f_equal. apply Permutation_length. by rewrite Hsnd.
Qed.

End SummaryFacts.

(** The two counts, as lengths of filtered leg lists. *)
Lemma summary_matches_spec_counts (state : StrategyState) :
  open_positions_count (compute_strategy_state_summary state)
  = length (PnlSpec.open_legs state)
  /\ idle_positions_count (compute_strategy_state_summary state)
     = length (PnlSpec.idle_legs state).
Proof.
  unfold compute_strategy_state_summary; simpl.
  pose proof (summary_loop (map_to_list (state_legs state))
                {| acc_unrealized := 0; acc_open := 0; acc_idle := 0 |})
    as (_ & Ho & Hi).
  by split.
Qed.

(** X5. The open and the idle count of a summary are taken from disjoint
    sets of legs: together they never exceed the number of legs. *)
Theorem summary_counts_bounded (state : StrategyState) :
  let s := compute_strategy_state_summary state in
  (open_positions_count s + idle_positions_count s
   <= size (state_legs state))%nat.
Proof.
  intros s. subst s.
  destruct (summary_matches_spec_counts state) as [-> ->].
  unfold PnlSpec.open_legs, PnlSpec.idle_legs.
  etrans; [apply disjoint_filters_length|].
  - intros leg Hopen Hidle. by apply idle_not_open in Hidle.
  - by rewrite length_map, length_map_to_list.
Qed.


(** X7. Storing a leg under a key the snapshot does not have changes the
    summary by that leg alone: an open leg (IN_POSITION, PENDING_ENTRY,
    PENDING_EXIT) adds its unrealized P&L and one open position, an IDLE
    leg adds one idle position, and a leg in any other status (a closed or
    a null leg) changes nothing; the realized total and the trade count are
    never affected. *)
Theorem summary_put_leg (state : StrategyState) (leg_key : string)
    (leg : option Leg) :
  state_legs state !! leg_key = None ->
  let s := compute_strategy_state_summary state in
  let s' := compute_strategy_state_summary (Snapshot.put_leg state leg_key leg) in
  (PnlSpec.is_open leg ->
   total_unrealized_pnl s'
   == total_unrealized_pnl s + PnlSpec.amount (leg ≫= leg_unrealized_pnl)
   /\ open_positions_count s' = S (open_positions_count s)
   /\ idle_positions_count s' = idle_positions_count s)
  /\ (PnlSpec.is_idle leg ->
      total_unrealized_pnl s' == total_unrealized_pnl s
      /\ open_positions_count s' = open_positions_count s
      /\ idle_positions_count s' = S (idle_positions_count s))
  /\ (~ PnlSpec.is_open leg -> ~ PnlSpec.is_idle leg ->
      total_unrealized_pnl s' == total_unrealized_pnl s
      /\ open_positions_count s' = open_positions_count s
      /\ idle_positions_count s' = idle_positions_count s)
  /\ total_realized_pnl s' = total_realized_pnl s
  /\ total_trades s' = total_trades s.
Proof.
  intros Hfresh s s'. subst s s'. unfold compute_strategy_state_summary. simpl.
  change (state_legs (Snapshot.put_leg state leg_key leg))
    with (<[leg_key := leg]> (state_legs state)).
  change (state_trade_history (Snapshot.put_leg state leg_key leg))
    with (state_trade_history state).
  set (start := {| acc_unrealized := 0; acc_open := 0; acc_idle := 0 |}).
  set (items := map_to_list (state_legs state)).
  destruct (summary_loop_perm
              (map_to_list (<[leg_key := leg]> (state_legs state)))
              ((leg_key, leg) :: items))
    as (Hu & Ho & Hi); [by apply map_to_list_insert|].
  fold start in Hu, Ho, Hi. simpl in Hu, Ho, Hi. rewrite Hu, Ho, Hi.
  destruct (summary_loop items (summary_step start (leg_key, leg)))
    as (Hu1 & Ho1 & Hi1).
  destruct (summary_loop items start) as (Hu0 & Ho0 & Hi0).
  simpl in Hu1, Ho1, Hi1, Hu0, Ho0, Hi0.
  rewrite Hu1, Ho1, Hi1, Hu0, Ho0, Hi0. clear Hu Ho Hi Hu1 Ho1 Hi1 Hu0 Ho0 Hi0.
  unfold summary_step; simpl.
  split_and!; [| | |done|done].
  - intros Hopen. rewrite bool_decide_eq_true_2 by by apply open_status_iff.
    simpl. unfold unrealized_of. rewrite float_or_zero_amount.
    split_and!; [ring|lia|lia].
  - intros Hidle.
    rewrite bool_decide_eq_false_2
      by (rewrite open_status_iff; by apply idle_not_open).
    rewrite bool_decide_eq_true_2 by by apply idle_status_iff.
    simpl. split_and!; [ring|lia|lia].
  - intros Hopen Hidle.
    rewrite bool_decide_eq_false_2 by by rewrite open_status_iff.
    rewrite bool_decide_eq_false_2 by by rewrite idle_status_iff.
    simpl. split_and!; [ring|lia|lia].
Qed.

(** X7 on an empty snapshot and an open leg. *)
Lemma summary_put_leg_witness :
  let state := PnlSpec.history_only [] in
  let leg := Some (LegSpec.open_leg "BUY" "MANUAL" 100) in
  state_legs state !! "L1" = None
  /\ PnlSpec.is_open leg
  /\ open_positions_count
       (compute_strategy_state_summary (Snapshot.put_leg state "L1" leg))
     = S (open_positions_count (compute_strategy_state_summary state)).
Proof.
  intros state leg.
  assert (Hfresh : state_legs state !! "L1" = None) by reflexivity.
  assert (Hopen : PnlSpec.is_open leg) by (by left).
  split_and!; [exact Hfresh|exact Hopen|].
  destruct (summary_put_leg state "L1" leg Hfresh) as (Hadd & _).
  exact (proj1 (proj2 (Hadd Hopen))).
Defined.

(** ** Adding a manual leg: what reaches the store *)

Section ManualLegMore.

Import Blueprint.

(** The remaining facts about an accepted request: where the fields of the
    call come from. *)
Lemma validate_manual_leg_fields now data leg_key leg :
  validate_manual_leg now (Some data) = inr (leg_key, leg) ->
  exists mode,
    request_mode data = Some mode
    /\ (mode = "TRACK" \/ mode = "NEW")
    /\ parse_wait mode (req_wait_trade_percent data)
         (req_wait_baseline_price data)
       = inr (new_status leg, new_wait_trade_percent leg,
              new_wait_baseline_price leg)
    /\ parse_limit "reentry_limit" (req_reentry_limit data)
       = inr (new_reentry_limit leg)
    /\ parse_limit "reexecute_limit" (req_reexecute_limit data)
       = inr (new_reexecute_limit leg)
    /\ req_symbol data = Some (new_symbol leg)
    /\ req_exchange data = Some (new_exchange leg)
    /\ req_product data = Some (new_product leg)
    /\ req_quantity data = Some (new_quantity leg)
    /\ new_entry_time leg = now.
Proof.
  unfold validate_manual_leg. intros H.
  destruct (bool_decide (request_mode data ∈ _)) eqn:Hm; simpl in H; [|done].
  apply bool_decide_eq_true_1 in Hm.
  rewrite !elem_of_cons, elem_of_nil in Hm.
  destruct (request_mode data) as [mode|] eqn:Hmode;
    [|by destruct Hm as [?|[?|[]]]].
  destruct (first_missing data) eqn:Hmiss; [done|].
  destruct (parse_entry_price _ _) as [r0|entry] eqn:He; [done|].
  destruct (bool_decide (Py.upper _ ∈ _)) eqn:Hside; simpl in H; [|done].
  destruct (parse_wait _ _ _) as [r0|[[status w] base]] eqn:Hw; [done|].
  destruct (parse_sl _ _ _) as [r0|sl] eqn:Hsl; [done|].
  destruct (parse_target _ _ _) as [r0|target] eqn:Ht; [done|].
  destruct (parse_limit "reentry_limit" _) as [r0|l1] eqn:Hl1; [done|].
  destruct (parse_limit "reexecute_limit" _) as [r0|l2] eqn:Hl2; [done|].
  injection H as <- <-. simpl.
  unfold first_missing in Hmiss.
  repeat case_bool_decide; try done.
  exists mode. split_and!; try done.
  - destruct Hm as [[= ->]|[[= ->]|[]]]; auto.
  - by destruct (req_symbol data).
  - by destruct (req_exchange data).
  - by destruct (req_product data).
  - by destruct (req_quantity data).
Qed.

Lemma parse_wait_result mode w base status w' base' :
  parse_wait mode w base = inr (status, w', base') ->
  (mode <> "NEW" /\ status = "IN_POSITION" /\ w' = w /\ base' = base)
  \/ (mode = "NEW" /\ status = "PENDING_ENTRY"
      /\ ((w = None /\ w' = None /\ base' = base)
          \/ exists x y : Q,
               w = Some (Converts x) /\ 0 < x /\ base = Some (Converts y)
               /\ w' = w /\ base' = base)).
Proof.
  unfold parse_wait. case_bool_decide as Hmode; [|intros [= <- <- <-]; by left].
  destruct w as [[x|]|]; simpl;
    [| done |intros [= <- <- <-]; right; split_and!; [done|done|by left]].
  destruct (Qle_bool x 0) eqn:Hx; [done|].
  destruct base as [[y|]|]; [|done|done].
  intros [= <- <- <-]. right. split_and!; [done|done|]. right.
  exists x, y. split_and!; try done. by apply not_le_positive.
Qed.


End ManualLegMore.

(** X8. A leg reaches the store only for mode TRACK (also when the body has
    no mode) or NEW.  A tracked leg is stored IN_POSITION and with the
    entry price of the body, which must be a number; a new leg is stored
    PENDING_ENTRY, with or without entry price.  Symbol, exchange, product
    and quantity are those of the body, and the side is the body's side in
    upper case, BUY or SELL. *)
Theorem added_leg_status_by_mode :
  forall (Db : Type)
    (add : string -> string -> NewLeg -> Db -> (StoreError + Payload) * Db)
    (session : Session) (instance_id : string) (data : ManualLegRequest)
    (db : Db) (iid leg_key : string) (leg : NewLeg),
    EvAddLeg iid leg_key leg
      ∈ Blueprint.w_events
          (Blueprint.run
             (Blueprint.create_manual_leg_endpoint add session instance_id
                (Some data)) db).2 ->
    iid = instance_id
    /\ req_leg_key data = Some leg_key
    /\ (((req_mode data = Missing \/ req_mode data = Holds "TRACK")
         /\ new_status leg = "IN_POSITION"
         /\ exists entry : Q,
              req_entry_price data = Some (Converts entry)
              /\ new_entry_price leg = Some entry)
        \/ (req_mode data = Holds "NEW"
            /\ new_status leg = "PENDING_ENTRY"
            /\ ((req_entry_price data = None /\ new_entry_price leg = None)
                \/ exists entry : Q,
                     req_entry_price data = Some (Converts entry)
                     /\ new_entry_price leg = Some entry)))
    /\ req_symbol data = Some (new_symbol leg)
    /\ req_exchange data = Some (new_exchange leg)
    /\ req_product data = Some (new_product leg)
    /\ req_quantity data = Some (new_quantity leg)
    /\ (exists side : string,
          req_side data = Some side /\ new_side leg = Py.upper side)
    /\ (new_side leg = "BUY" \/ new_side leg = "SELL").
Proof.
  intros Db add session instance_id data db iid leg_key leg Hev.
  assert (iid = instance_id) as ->.
  { revert Hev. rewrite create_manual_leg_run.
    destruct (Blueprint.validate_manual_leg _ _) as [r|[k l]]; simpl.
    - by rewrite elem_of_nil.
    - rewrite list_elem_of_singleton. by intros [= -> _ _]. }
  apply added_leg_validated in Hev.
  pose proof (validate_manual_leg_accepts _ _ _ _ Hev)
    as (mode & Hmode & Hkey & Hentry & Hupper & Hside & _).
  pose proof (validate_manual_leg_fields _ _ _ _ Hev)
    as (mode' & Hmode' & Hm & Hwait & _ & _ & Hsym & Hex & Hprod & Hq & _).
  assert (mode' = mode) as -> by congruence.
  split_and!; try done.
  - apply parse_wait_result in Hwait.
    unfold Blueprint.request_mode in Hmode.
    unfold Blueprint.parse_entry_price in Hentry.
    destruct Hm as [-> | ->].
    + left. destruct Hwait as [(_ & Hs & _)|(? & _)]; [|done].
      rewrite bool_decide_eq_false_2 in Hentry by done.
      split_and!; [|done|].
      * destruct (req_mode data); simplify_eq; auto.
      * destruct (req_entry_price data) as [[e|]|]; simpl in Hentry;
          simplify_eq. exists e. split; [done|congruence].
    + right. destruct Hwait as [(? & _)|(_ & Hs & _)]; [done|].
      rewrite bool_decide_eq_true_2 in Hentry by done.
      split_and!; [|done|].
      * destruct (req_mode data); by simplify_eq.
      * destruct (req_entry_price data) as [[e|]|]; simpl in Hentry;
          simplify_eq;
          [right; exists e; split; [done|congruence]
          |left; split; [done|congruence]].
  - unfold Blueprint.first_missing in *.
    destruct (req_side data) as [side|] eqn:Hs; [by exists side|].
    exfalso. clear -Hev Hs. unfold Blueprint.validate_manual_leg in Hev.
    unfold Blueprint.first_missing in Hev. rewrite Hs in Hev.
    repeat case_match; simplify_eq; simpl in *; try done;
      repeat case_bool_decide; simplify_eq; done.
Qed.

(** X8 on a tracked BUY leg given in lower case. *)
Lemma added_leg_status_by_mode_witness :
  exists leg : NewLeg,
    EvAddLeg "S1" "L2" leg
      ∈ Blueprint.w_events
          (Blueprint.run
             (Blueprint.create_manual_leg_endpoint
                SpecStore.add_manual_strategy_leg LegSpec.a_session "S1"
                (Some (LegSpec.tracked "L2" "buy" 100 None None)))
             (LegSpec.one_strategy "MANUAL")).2
    /\ (new_side leg = "BUY" \/ new_side leg = "SELL").
Proof.
  assert (Hex : exists leg : NewLeg,
    Blueprint.w_events
      (Blueprint.run
         (Blueprint.create_manual_leg_endpoint
            SpecStore.add_manual_strategy_leg LegSpec.a_session "S1"
            (Some (LegSpec.tracked "L2" "buy" 100 None None)))
         (LegSpec.one_strategy "MANUAL")).2
    = [EvAddLeg "S1" "L2" leg]) by (eexists; by vm_compute).
  destruct Hex as [leg Hev]. exists leg.
  assert (Hin :
    EvAddLeg "S1" "L2" leg
      ∈ Blueprint.w_events
          (Blueprint.run
             (Blueprint.create_manual_leg_endpoint
                SpecStore.add_manual_strategy_leg LegSpec.a_session "S1"
                (Some (LegSpec.tracked "L2" "buy" 100 None None)))
             (LegSpec.one_strategy "MANUAL")).2).
  { rewrite Hev. by apply list_elem_of_singleton. }
  split; [exact Hin|].
  exact (proj2 (proj2 (proj2 (proj2 (proj2 (proj2 (proj2 (proj2
           (added_leg_status_by_mode _ _ _ _ _ _ _ _ _ Hin))))))))).
Defined.




(** ** Exiting a leg by hand: what is called, and when *)

Section ManualExitMore.

Import Blueprint ExitSpec.

Lemma validate_exit_request_400 (body : option ManualExitRequest) (r : Response) :
  validate_exit_request body = inl r ->
  http_code r = 400%Z /\ early r.
Proof.
  unfold validate_exit_request, to_float, early. intros H.
  repeat case_match; simplify_eq; simpl;
    (split; [done|split; [done|left; by eexists]]).
Qed.


Context {Db : Type}.
Context (get : string -> Db -> option StrategyState).
Context (exit_leg :
           string -> string -> option Q -> string -> Z -> Db
           -> (StoreError + Payload) * Db).
Context (override :
           string -> string -> string -> option Q -> Db
           -> (StoreError + Payload) * Db).
Context (broker : Broker) (session : Session).
Context (instance_id leg_key : string).

(** Every run either answers early, with nothing called, or has found a
    leg in position and goes on to resolve the exit price. *)
Lemma manual_exit_cases (body : option ManualExitRequest) (db : Db) :
  let out :=
    run (manual_exit_leg_endpoint get exit_leg override broker session
           instance_id leg_key body) db in
  (exists r, out = (r, mkWorld db []) /\ early r)
  \/ exists state leg mode exit_status,
       get instance_id db = Some state
       /\ state_legs state !! leg_key = Some (Some leg)
       /\ leg_status leg = Some "IN_POSITION"
       /\ validate_exit_request body = inr (mode, exit_status).
Proof.
  intros out. subst out.
  destruct (validate_exit_request body) as [r|[mode exit_status]] eqn:Hv.
  { left. exists r. split; [|by apply validate_exit_request_400 in Hv as [_ ?]].
    unfold run, manual_exit_leg_endpoint, bind, checked. by rewrite Hv. }
  destruct (get instance_id db) as [state|] eqn:Hstate.
  2:{ left. eexists. split.
      - unfold run, manual_exit_leg_endpoint, bind, checked, read.
        rewrite Hv. simpl. rewrite Hstate. reflexivity.
      - split; [done|]. left. by eexists. }
  destruct (state_legs state !! leg_key) as [[leg|]|] eqn:Hleg.
  - destruct (decide (leg_status leg = Some "IN_POSITION")) as [Hopen|Hopen].
    + right. by exists state, leg, mode, exit_status.
    + left. eexists. split.
      * rewrite (manual_exit_run get exit_leg override broker session
                   instance_id leg_key body db state leg Hstate Hleg).
        rewrite Hv. by rewrite bool_decide_eq_false_2.
      * split; [done|]. right. by eexists.
  - left. unfold run, manual_exit_leg_endpoint, bind, checked, read, reject_if.
    rewrite Hv. simpl. rewrite Hstate, Hleg.
    destruct (st_legs state); simpl; eexists; (split; [reflexivity|]);
      (split; [done|left; by eexists]).
  - left. unfold run, manual_exit_leg_endpoint, bind, checked, read, reject_if.
    rewrite Hv. simpl. rewrite Hstate, Hleg.
    destruct (st_legs state); simpl; eexists; (split; [reflexivity|]);
      (split; [done|left; by eexists]).
Qed.

End ManualExitMore.



(** X12. The endpoint answers before anything is called, with the store
    and the event log untouched: 400 for a body that fails validation, 404
    when the strategy is not in the store, 404 when the strategy has no such
    leg, and 400 when the leg is in any status other than IN_POSITION (or
    has none), for a priced exit and for a market exit alike. *)
Theorem manual_exit_answers_early :
  forall (Db : Type)
    (get : string -> Db -> option StrategyState)
    (exit_leg :
       string -> string -> option Q -> string -> Z -> Db
       -> (StoreError + Payload) * Db)
    (override :
       string -> string -> string -> option Q -> Db
       -> (StoreError + Payload) * Db)
    (broker : Broker) (session : Session) (instance_id leg_key : string)
    (body : option ManualExitRequest) (db : Db),
    let out :=
      Blueprint.run
        (Blueprint.manual_exit_leg_endpoint get exit_leg override broker
           session instance_id leg_key body) db in
    let untouched := Blueprint.mkWorld db [] in
    (forall r : Response,
        Blueprint.validate_exit_request body = inl r ->
        out = (r, untouched) /\ http_code r = 400%Z)
    /\ (forall (mode : Blueprint.ExitMode) (exit_status : string),
          Blueprint.validate_exit_request body = inr (mode, exit_status) ->
          (get instance_id db = None ->
           out = (Blueprint.error 404
                    (MText ("Strategy state not found: " ++ instance_id)),
                  untouched))
          /\ (forall state : StrategyState,
                get instance_id db = Some state ->
                st_legs state <> IsNone ->
                state_legs state !! leg_key = None ->
                out = (Blueprint.error 404 (MText ("Leg not found: " ++ leg_key)),
                       untouched))
          /\ (forall (state : StrategyState) (leg : Leg),
                get instance_id db = Some state ->
                state_legs state !! leg_key = Some (Some leg) ->
                leg_status leg <> Some "IN_POSITION" ->
                out = (Blueprint.error 400 (MNotInPosition (leg_status leg)),
                       untouched))).
Proof.
  intros Db get exit_leg override broker session instance_id leg_key body db
    out untouched. subst out untouched. split.
  - intros r Hv. split; [|by apply validate_exit_request_400 in Hv as [? _]].
    unfold Blueprint.run, Blueprint.manual_exit_leg_endpoint, Blueprint.bind,
      Blueprint.checked. by rewrite Hv.
  - intros mode exit_status Hv. split_and!.
    + intros Hstate.
      unfold Blueprint.run, Blueprint.manual_exit_leg_endpoint, Blueprint.bind,
        Blueprint.checked, Blueprint.read.
      rewrite Hv. simpl. by rewrite Hstate.
    + intros state Hstate Hlegs Hleg.
      unfold Blueprint.run, Blueprint.manual_exit_leg_endpoint, Blueprint.bind,
        Blueprint.checked, Blueprint.read, Blueprint.reject_if.
      rewrite Hv. simpl. rewrite Hstate, Hleg.
      by destruct (st_legs state).
    + intros state leg Hstate Hleg Hopen.
      rewrite (manual_exit_run get exit_leg override broker session
                 instance_id leg_key body db state leg Hstate Hleg).
      rewrite Hv. by rewrite bool_decide_eq_false_2.
Qed.

(** X12 on a market exit of a leg that is still pending entry. *)
Lemma manual_exit_answers_early_witness :
  let leg :=
    mkLeg (Some "NIFTY") (Some "NFO") (Some "MIS") (Some 50%Z) (Some "BUY")
      None None None (Holds "MANUAL") (Some "PENDING_ENTRY") None in
  let db : gmap string StrategyState :=
    {[ "S1" := LegSpec.one_leg_state "RUNNING" leg ]} in
  let body := Some (LegSpec.market_exit None) in
  Blueprint.validate_exit_request body
  = inr (Blueprint.AtMarket, "MANUAL_EXIT")
  /\ leg_status leg <> Some "IN_POSITION"
  /\ Blueprint.run
       (Blueprint.manual_exit_leg_endpoint LegSpec.lookup_state
          LegSpec.accept_exit LegSpec.accept_override
          (SandboxSpec.sandbox (Some 120) (mkQuoted false None Absent))
          LegSpec.a_session "S1" "L1" body) db
     = (Blueprint.error 400 (MNotInPosition (Some "PENDING_ENTRY")),
        Blueprint.mkWorld db []).
Proof.
  intros leg db body.
  assert (Hpending : leg_status leg <> Some "IN_POSITION") by done.
  split_and!; [reflexivity|exact Hpending|].
  refine (proj2 (proj2 (proj2 (manual_exit_answers_early _ LegSpec.lookup_state
                   LegSpec.accept_exit LegSpec.accept_override
                   (SandboxSpec.sandbox (Some 120) (mkQuoted false None Absent))
                   LegSpec.a_session "S1" "L1" body db)
            Blueprint.AtMarket "MANUAL_EXIT" eq_refl))
            (LegSpec.one_leg_state "RUNNING" leg) leg _ _ Hpending);
    by vm_compute.
Defined.

Section MarketBlock.

Import Blueprint ExitSpec.

Lemma truthy_str_or_else (x : option string) (fallback : string) :
  (if negb (Py.truthy_str x) then fallback else default "" x)
  = or_else x fallback.
Proof.
  destruct x as [s|]; simpl; [|done]. by case_bool_decide.
Qed.

Lemma truthy_str_true (s : string) : s <> "" -> Py.truthy_str (Some s) = true.
Proof. intros H. simpl. by rewrite bool_decide_eq_false_2. Qed.

Context {Db : Type}.
Context (broker : Broker) (session : Session).

(** With a user, an API key and a complete leg, the block is one run of
    the engine. *)
Lemma market_exit_block_ready (state : StrategyState) (leg : Leg)
    (api_key symbol side : string) (quantity : Z) (w : World Db) :
  authenticated session api_key ->
  exitable leg symbol quantity side ->
  market_exit_block broker session state leg w
  = let engine :=
      ExitService.execute_market_exit broker symbol (exit_exchange leg symbol)
        (exit_product state leg) quantity side api_key
        ExitService.default_max_retries ExitService.default_retry_interval in
    let w' := mkWorld (w_db w) (w_events w ++ engine.2) in
    if exit_success engine.1
    then (inr (exit_fill_price engine.1), w')
    else (inl (error 400 (MExitFailed (exit_message engine.1))), w').
Proof.
  intros (user & Hu & Hune & Hk & Hkne) (Hs & Hsne & Hq & Hqpos & Hsd & Hsdne).
  unfold market_exit_block, bind, reject_if, emit, reply, ret.
  rewrite Hu, (truthy_str_true user Hune). simpl.
  rewrite Hk, (truthy_str_true api_key Hkne). simpl.
  rewrite Hs, (truthy_str_true symbol Hsne). simpl.
  rewrite Hq. simpl.
  assert (Z.eqb quantity 0 || Z.leb quantity 0 = false) as ->.
  { apply orb_false_intro; [apply Z.eqb_neq|apply Z.leb_gt]; lia. }
  simpl. rewrite Hsd, (truthy_str_true side Hsdne). simpl.
  assert (Hex :
    (if negb (Py.truthy_str (leg_exchange leg)) then infer_exchange symbol
     else default "" (leg_exchange leg)) = exit_exchange leg symbol)
    by apply truthy_str_or_else.
  assert (Hprod :
    (if negb
          (Py.truthy_str
             (if negb (Py.truthy_str (leg_product leg))
              then st_config_product state else leg_product leg))
     then "MIS"
     else default ""
            (if negb (Py.truthy_str (leg_product leg))
             then st_config_product state else leg_product leg))
    = exit_product state leg).
  { unfold exit_product, or_else.
    destruct (leg_product leg) as [p|]; simpl; [case_bool_decide; simpl|];
      try done; destruct (st_config_product state) as [c|]; simpl; try done;
      by case_bool_decide. }
  rewrite Hex, Hprod.
  destruct (ExitService.execute_market_exit _ _ _ _ _ _ _ _ _) as [result evs].
  simpl. by destruct (exit_success result).
Qed.

End MarketBlock.

Section EngineOrders.

Import ExitService.

Lemma polls_no_order (order_id : string) (interval : Q) (n : nat)
    (order : OrderRequest) :
  EvPlaceOrder order ∉ LiveSpec.polls order_id interval n.
Proof.
  induction n as [|n IH]; [by apply not_elem_of_nil|].
  rewrite polls_S. simpl. rewrite !not_elem_of_cons. by split_and!.
Qed.

Lemma live_exit_events (b : Broker) (symbol exchange product : string)
    (quantity : Z) (side api_key : string) (max_retries : Z) (interval : Q) :
  get_analyze_mode b = false ->
  exists (n : nat) (order_id : string),
    (execute_market_exit b symbol exchange product quantity side api_key
       max_retries interval).2
    = EvPlaceOrder
        (market_order symbol exchange product quantity (exit_action side)
           api_key)
      :: LiveSpec.polls order_id interval n.
Proof.
  intros Hmode. unfold execute_market_exit. rewrite Hmode.
  unfold _execute_live_market_exit.
  destruct (negb _ || _); [by exists 0%nat, ""|].
  destruct (negb (Py.truthy_str _)); [by exists 0%nat, ""|].
  set (order_id := default "" _).
  destruct (poll_loop_bound b order_id interval (Z.to_nat max_retries) 0)
    as (n & _ & Hev).
  destruct (poll_loop b order_id interval (Z.to_nat max_retries) 0)
    as [flow polls]. simpl in Hev. subst polls.
  exists n, order_id. by destruct flow.
Qed.

(** Any order the engine places is the market order for the opposite
    side. *)
Lemma execute_market_exit_orders (b : Broker)
    (symbol exchange product : string) (quantity : Z) (side api_key : string)
    (max_retries : Z) (interval : Q) (order : OrderRequest) :
  EvPlaceOrder order
    ∈ (execute_market_exit b symbol exchange product quantity side api_key
         max_retries interval).2 ->
  order = market_order symbol exchange product quantity (exit_action side)
            api_key.
Proof.
  destruct (get_analyze_mode b) eqn:Hmode.
  - unfold execute_market_exit. rewrite Hmode.
    unfold _execute_sandbox_market_exit, sandbox_reference_price.
    repeat case_match; simplify_eq; simpl;
      rewrite ?elem_of_cons, ?elem_of_nil; intros Hin;
      repeat destruct Hin as [Hin|Hin]; try done; by injection Hin.
  - destruct (live_exit_events b symbol exchange product quantity side api_key
                max_retries interval Hmode) as (n & order_id & ->).
    rewrite elem_of_cons. intros [[= ->]|Hin]; [done|].
    by apply polls_no_order in Hin.
Qed.

End EngineOrders.

Section MarketExitRun.

Import Blueprint ExitSpec.

Context {Db : Type}.
Context (broker : Broker) (session : Session).

(** Without a user, an API key or a complete leg, the block answers with
    nothing called. *)
Lemma market_exit_block_not_ready (state : StrategyState) (leg : Leg)
    (w : World Db) :
  ((forall api_key, ~ authenticated session api_key) ->
   exists r, market_exit_block broker session state leg w = (inl r, w)
             /\ http_code r = 401%Z)
  /\ (forall api_key, authenticated session api_key ->
      (forall symbol quantity side, ~ exitable leg symbol quantity side) ->
      exists r, market_exit_block broker session state leg w = (inl r, w)
                /\ http_code r = 400%Z).
Proof.
  unfold market_exit_block, bind, reject_if, emit, reply, ret. split.
  - intros Hno.
    destruct (session_user session) as [user|] eqn:Hu; simpl;
      [|by eexists].
    case_bool_decide as Hune; simpl; [by eexists|].
    destruct (get_api_key_for_tradingview session user) as [k|] eqn:Hk; simpl;
      [|by eexists].
    case_bool_decide as Hkne; simpl; [by eexists|].
    exfalso. apply (Hno k). by exists user.
  - intros api_key (user & Hu & Hune & Hk & Hkne) Hno.
    rewrite Hu, (truthy_str_true user Hune). simpl.
    rewrite Hk, (truthy_str_true api_key Hkne). simpl.
    destruct (leg_symbol leg) as [symbol|] eqn:Hs; simpl; [|by eexists].
    case_bool_decide as Hsne; simpl; [by eexists|].
    destruct (leg_quantity leg) as [quantity|] eqn:Hq; simpl; [|by eexists].
    destruct (Z.eqb quantity 0 || Z.leb quantity 0) eqn:Hqpos; simpl;
      [by eexists|].
    destruct (leg_side leg) as [side|] eqn:Hsd; simpl; [|by eexists].
    case_bool_decide as Hsdne; simpl; [by eexists|].
    exfalso. apply (Hno symbol quantity side).
    apply orb_false_elim in Hqpos as [_ Hle]. apply Z.leb_gt in Hle.
    by split_and!.
Qed.

End MarketExitRun.

(** X13. A market exit of a leg in position answers 401 when the session
    names no user or the user has no API key, and 400 when the leg lacks a
    symbol, a positive quantity or a side; in both cases no order is
    placed and the store is not touched. *)
Theorem market_exit_needs_user_and_leg_data :
  forall (Db : Type)
    (get : string -> Db -> option StrategyState)
    (exit_leg :
       string -> string -> option Q -> string -> Z -> Db
       -> (StoreError + Payload) * Db)
    (override :
       string -> string -> string -> option Q -> Db
       -> (StoreError + Payload) * Db)
    (broker : Broker) (session : Session) (instance_id leg_key : string)
    (data : ManualExitRequest) (db : Db) (state : StrategyState) (leg : Leg)
    (exit_status : string),
    let out :=
      Blueprint.run
        (Blueprint.manual_exit_leg_endpoint get exit_leg override broker
           session instance_id leg_key (Some data)) db in
    req_exit_at_market data = true ->
    LegSpec.market_status data exit_status ->
    get instance_id db = Some state ->
    state_legs state !! leg_key = Some (Some leg) ->
    leg_status leg = Some "IN_POSITION" ->
    ((forall api_key, ~ ExitSpec.authenticated session api_key) ->
     http_code out.1 = 401%Z /\ out.2 = Blueprint.mkWorld db [])
    /\ (forall api_key,
          ExitSpec.authenticated session api_key ->
          (forall symbol quantity side,
              ~ ExitSpec.exitable leg symbol quantity side) ->
          http_code out.1 = 400%Z /\ out.2 = Blueprint.mkWorld db []).
Proof.
  intros Db get exit_leg override broker session instance_id leg_key data db
    state leg exit_status out Hmode Hs Hstate Hleg Hopen. subst out.
  rewrite (manual_exit_run get exit_leg override broker session instance_id
             leg_key (Some data) db state leg Hstate Hleg).
  rewrite (validate_market_status data exit_status Hmode Hs).
  rewrite bool_decide_eq_true_2 by done. simpl.
  destruct (market_exit_block_not_ready broker session state leg
              (Blueprint.mkWorld db [])) as [Hauth Hdata].
  split.
  - intros Hno. destruct (Hauth Hno) as (r & -> & Hr). by split.
  - intros api_key Hyes Hno.
    destruct (Hdata api_key Hyes Hno) as (r & -> & Hr). by split.
Qed.

(** X13 on a session without user. *)
Lemma market_exit_needs_user_and_leg_data_witness :
  let session := mkSession None (fun _ => Some "key") 0 in
  let db := LegSpec.one_strategy "MANUAL" in
  (forall api_key, ~ ExitSpec.authenticated session api_key)
  /\ http_code
       (Blueprint.run
          (Blueprint.manual_exit_leg_endpoint LegSpec.lookup_state
             LegSpec.accept_exit LegSpec.accept_override
             (SandboxSpec.sandbox (Some 120) (mkQuoted false None Absent))
             session "S1" "L1" (Some (LegSpec.market_exit None))) db).1
     = 401%Z.
Proof.
  intros session db.
  assert (Hno : forall api_key, ~ ExitSpec.authenticated session api_key).
  { intros api_key (user & Hu & _). discriminate Hu. }
  split; [exact Hno|].
  refine (proj1 (proj1 (market_exit_needs_user_and_leg_data _
                   LegSpec.lookup_state LegSpec.accept_exit
                   LegSpec.accept_override
                   (SandboxSpec.sandbox (Some 120) (mkQuoted false None Absent))
                   session "S1" "L1" (LegSpec.market_exit None) db
                   (LegSpec.one_leg_state "RUNNING"
                      (LegSpec.open_leg "BUY" "MANUAL" 100))
                   (LegSpec.open_leg "BUY" "MANUAL" 100) "MANUAL_EXIT"
                   eq_refl _ _ _ eq_refl) Hno)).
  - left. split; [by left|done].
  - by vm_compute.
  - by vm_compute.
Defined.

(** X14. A market exit of a complete leg in position, for a user with an
    API key, runs the engine once: for the leg's symbol, quantity and side,
    on the leg's exchange (else the one inferred from the symbol) and with
    the leg's product (else the configured one, else MIS), with 10 retries
    2 seconds apart.  Every order placed during the request is that market
    order for the opposite side, and when the engine fails the answer is
    400 with the engine's message and the store is not touched. *)
Theorem market_exit_runs_engine_once :
  forall (Db : Type)
    (get : string -> Db -> option StrategyState)
    (exit_leg :
       string -> string -> option Q -> string -> Z -> Db
       -> (StoreError + Payload) * Db)
    (override :
       string -> string -> string -> option Q -> Db
       -> (StoreError + Payload) * Db)
    (broker : Broker) (session : Session) (instance_id leg_key : string)
    (data : ManualExitRequest) (db : Db) (state : StrategyState) (leg : Leg)
    (exit_status api_key symbol side : string) (quantity : Z),
    let engine :=
      ExitService.execute_market_exit broker symbol
        (ExitSpec.exit_exchange leg symbol) (ExitSpec.exit_product state leg)
        quantity side api_key 10 2 in
    let out :=
      Blueprint.run
        (Blueprint.manual_exit_leg_endpoint get exit_leg override broker
           session instance_id leg_key (Some data)) db in
    req_exit_at_market data = true ->
    LegSpec.market_status data exit_status ->
    get instance_id db = Some state ->
    state_legs state !! leg_key = Some (Some leg) ->
    leg_status leg = Some "IN_POSITION" ->
    ExitSpec.authenticated session api_key ->
    ExitSpec.exitable leg symbol quantity side ->
    (exists later, Blueprint.w_events out.2 = engine.2 ++ later)
    /\ (forall order : OrderRequest,
          EvPlaceOrder order ∈ Blueprint.w_events out.2 ->
          order = ExitService.market_order symbol
                    (ExitSpec.exit_exchange leg symbol)
                    (ExitSpec.exit_product state leg) quantity
                    (ExitService.exit_action side) api_key)
    /\ (exit_success engine.1 = false ->
        out = (Blueprint.error 400 (MExitFailed (exit_message engine.1)),
               Blueprint.mkWorld db engine.2)).
Proof.
  intros Db get exit_leg override broker session instance_id leg_key data db
    state leg exit_status api_key symbol side quantity engine out Hmode Hs
    Hstate Hleg Hopen Hauth Hdata. subst out.
  rewrite (manual_exit_run get exit_leg override broker session instance_id
             leg_key (Some data) db state leg Hstate Hleg).
  rewrite (validate_market_status data exit_status Hmode Hs).
  rewrite bool_decide_eq_true_2 by done. simpl.
  rewrite (market_exit_block_ready broker session state leg api_key symbol
             side quantity _ Hauth Hdata).
  change ExitService.default_max_retries with 10%Z.
  change ExitService.default_retry_interval with (2 : Q).
  fold engine. simpl.
  assert (Horders : forall order later,
    EvPlaceOrder order ∈ engine.2 ++ later ->
    (forall e, e ∈ later -> ~ exists o, e = EvPlaceOrder o) ->
    order = ExitService.market_order symbol (ExitSpec.exit_exchange leg symbol)
              (ExitSpec.exit_product state leg) quantity
              (ExitService.exit_action side) api_key).
  { intros order later Hin Hlater. apply elem_of_app in Hin as [Hin|Hin].
    - by apply execute_market_exit_orders in Hin.
    - exfalso. apply (Hlater _ Hin). by eexists. }
  destruct (exit_success engine.1) eqn:Hok.
  - rewrite commit_exit_run. simpl.
    destruct (exit_leg _ _ _ _ _ _) as [[e|result] db1]; simpl.
    + split_and!; [by eexists| |done].
      intros order Hin. apply (Horders order _ Hin).
      intros e' ->%list_elem_of_singleton [o Ho]. done.
    + destruct (negb _ && _); simpl.
      * split_and!; [rewrite <- app_assoc; by eexists| |done].
        intros order Hin. rewrite <- app_assoc in Hin.
        apply (Horders order _ Hin).
        intros e' He' [o Ho]. subst e'.
        rewrite elem_of_app, !list_elem_of_singleton in He'.
        by destruct He'.
      * split_and!; [by eexists| |done].
        intros order Hin. apply (Horders order _ Hin).
        intros e' ->%list_elem_of_singleton [o Ho]. done.
  - split_and!; [exists []; by rewrite app_nil_r| |done].
    intros order Hin. by apply execute_market_exit_orders in Hin.
Qed.

(** X14 on a BUY leg of 50 NIFTY closed at market in analyzer mode. *)
Lemma market_exit_runs_engine_once_witness :
  let leg := LegSpec.open_leg "BUY" "MANUAL" 100 in
  let db := LegSpec.one_strategy "MANUAL" in
  let broker := SandboxSpec.sandbox (Some 120) (mkQuoted false None Absent) in
  ExitSpec.authenticated LegSpec.a_session "key"
  /\ ExitSpec.exitable leg "NIFTY" 50 "BUY"
  /\ forall order : OrderRequest,
       EvPlaceOrder order
         ∈ Blueprint.w_events
             (Blueprint.run
                (Blueprint.manual_exit_leg_endpoint LegSpec.lookup_state
                   LegSpec.accept_exit LegSpec.accept_override broker
                   LegSpec.a_session "S1" "L1"
                   (Some (LegSpec.market_exit None))) db).2 ->
       order = ExitService.market_order "NIFTY" "NFO" "MIS" 50 "SELL" "key".
Proof.
  intros leg db broker.
  assert (Hauth : ExitSpec.authenticated LegSpec.a_session "key")
    by (by exists "trader").
  assert (Hdata : ExitSpec.exitable leg "NIFTY" 50 "BUY") by done.
  split_and!; [exact Hauth|exact Hdata|].
  refine (proj1 (proj2 (market_exit_runs_engine_once _ LegSpec.lookup_state
                   LegSpec.accept_exit LegSpec.accept_override broker
                   LegSpec.a_session "S1" "L1" (LegSpec.market_exit None) db
                   (LegSpec.one_leg_state "RUNNING" leg) leg "MANUAL_EXIT"
                   "key" "NIFTY" "BUY" 50%Z eq_refl _ _ _ eq_refl Hauth
                   Hdata))).
  - left. split; [by left|done].
  - by vm_compute.
  - by vm_compute.
Defined.

Section ExitOutcome.

Import Blueprint ExitSpec.

Context {Db : Type}.
Context (get : string -> Db -> option StrategyState).
Context (exit_leg :
           string -> string -> option Q -> string -> Z -> Db
           -> (StoreError + Payload) * Db).
Context (override :
           string -> string -> string -> option Q -> Db
           -> (StoreError + Payload) * Db).
Context (broker : Broker) (session : Session).
Context (instance_id leg_key : string).

Lemma resolve_exit_price_error (mode : ExitMode) (state : StrategyState)
    (leg : Leg) (exit_status : string) (w w' : World Db) (r : Response) :
  resolve_exit_price broker session mode state leg exit_status w = (inl r, w') ->
  resp_status r = "error".
Proof.
  destruct mode as [p|]; simpl.
  - unfold cross_check, reply, ret.
    repeat case_match; simplify_eq; intros [= <- <-]; done.
  - unfold market_exit_block, bind, reject_if, emit, reply, ret.
    repeat (case_match; simpl in * ); simplify_eq; intros [= <- <-]; done.
Qed.

(** A run that is not answered early went through the store update, or
    stopped with an error while resolving the exit price. *)
Lemma manual_exit_outcomes (body : option ManualExitRequest) (db : Db) :
  let out :=
    run (manual_exit_leg_endpoint get exit_leg override broker session
           instance_id leg_key body) db in
  (resp_status out.1 = "error"
   /\ Forall LegSpec.broker_event (w_events out.2) /\ w_db out.2 = db)
  \/ exists (state : StrategyState) (leg : Leg) (price : option Q)
       (exit_status : string) (w : World Db),
       w_db w = db /\ Forall LegSpec.broker_event (w_events w)
       /\ out = match commit_exit exit_leg override session instance_id
                        leg_key (leg_type_of leg)
                        (default "COMPLETED" (st_status state)) price
                        exit_status w with
                | (inl r, w') => (r, w')
                | (inr r, w') => (r, w')
                end.
Proof.
  intros out. subst out.
  destruct (manual_exit_cases get exit_leg override broker session instance_id
              leg_key body db)
    as [(r & -> & Herr & _)|(state & leg & mode & status & Hstate & Hleg
                              & Hopen & Hv)].
  { left. simpl. by split_and!. }
  rewrite (manual_exit_run get exit_leg override broker session instance_id
             leg_key body db state leg Hstate Hleg).
  rewrite Hv, bool_decide_eq_true_2 by done.
  destruct (resolve_exit_price _ _ _ _ _ _ _) as [[r|price] w] eqn:Hres.
  - left. pose proof (resolve_exit_price_error _ _ _ _ _ _ _ Hres).
    apply resolve_exit_price_world in Hres as [? ?]. by split_and!.
  - right. apply resolve_exit_price_world in Hres as [? ?].
    by exists state, leg, price, status, w.
Qed.

End ExitOutcome.

(** X15. The endpoint reports success only after the store has taken the
    exit: a success response comes with an exit call for the leg of the
    request which the store answered with a result, and carries that
    result.  When the store update raises instead, the answer is 404 for an
    unknown strategy and 500 for any other exception, and no override is
    published. *)
Theorem manual_exit_reports_store_outcome :
  forall (Db : Type)
    (get : string -> Db -> option StrategyState)
    (exit_leg :
       string -> string -> option Q -> string -> Z -> Db
       -> (StoreError + Payload) * Db)
    (override :
       string -> string -> string -> option Q -> Db
       -> (StoreError + Payload) * Db)
    (broker : Broker) (session : Session) (instance_id leg_key : string)
    (body : option ManualExitRequest) (db : Db),
    let out :=
      Blueprint.run
        (Blueprint.manual_exit_leg_endpoint get exit_leg override broker
           session instance_id leg_key body) db in
    let call := fun (price : option Q) (exit_status : string) =>
      exit_leg instance_id leg_key price exit_status (utc_now session) db in
    (resp_status out.1 = "success" ->
     exists (price : option Q) (exit_status : string) (result : Payload),
       EvManualExit instance_id leg_key price exit_status
         ∈ Blueprint.w_events out.2
       /\ (call price exit_status).1 = inr result
       /\ out.1 = Blueprint.success
                    ("Position exited successfully with status " ++ exit_status)
                    result)
    /\ (forall (price : option Q) (exit_status : string) (e : StoreError),
          EvManualExit instance_id leg_key price exit_status
            ∈ Blueprint.w_events out.2 ->
          (call price exit_status).1 = inl e ->
          resp_status out.1 = "error"
          /\ http_code out.1
             = match e with
               | StrategyStateNotFoundError _ => 404%Z
               | _ => 500%Z
               end
          /\ Blueprint.w_db out.2 = (call price exit_status).2
          /\ forall a b c d,
               EvCreateOverride a b c d ∉ Blueprint.w_events out.2).
Proof.
  intros Db get exit_leg override broker session instance_id leg_key body db
    out call. subst out call.
  destruct (manual_exit_outcomes get exit_leg override broker session
              instance_id leg_key body db)
    as [(Herr & Hev & Hdb)|(state & leg & price' & status & w & Hdb & Hev & ->)].
  { rewrite Forall_forall in Hev. split.
    - rewrite Herr. done.
    - intros price exit_status e Hin _. by apply Hev in Hin. }
  rewrite Forall_forall in Hev.
  rewrite commit_exit_run, Hdb. simpl.
  destruct (exit_leg instance_id leg_key price' status (utc_now session) db)
    as [[e|result] db1] eqn:Hcall; simpl.
  - split; [by destruct e|].
    intros price exit_status e' Hin Hfail.
    rewrite elem_of_app, list_elem_of_singleton in Hin.
    destruct Hin as [Hin|[= -> ->]]; [by apply Hev in Hin|].
    rewrite Hcall in Hfail. simpl in Hfail. injection Hfail as <-.
    rewrite Hcall. simpl. split_and!; [by destruct e|by destruct e|done|].
    intros a b c d Hin. rewrite elem_of_app, list_elem_of_singleton in Hin.
    destruct Hin as [Hin|Hin]; [by apply Hev in Hin|done].
  - split.
    + intros _. exists price', status, result. rewrite Hcall.
      split_and!; [|done|done].
      destruct (negb _ && _); simpl; rewrite !elem_of_app,
        !list_elem_of_singleton; auto.
    + intros price exit_status e Hin Hfail. exfalso.
      assert (price = price' /\ exit_status = status) as [-> ->].
      { revert Hin. destruct (negb _ && _); simpl; intros Hin;
          rewrite !elem_of_app, !list_elem_of_singleton in Hin.
        - destruct Hin as [[Hin|Hin]|Hin];
            [by apply Hev in Hin|by injection Hin as -> ->|done].
        - destruct Hin as [Hin|Hin];
            [by apply Hev in Hin|by injection Hin as -> ->]. }
      rewrite Hcall in Hfail. done.
Qed.

(** X15 on a store whose exit call fails. *)
Lemma manual_exit_reports_store_outcome_witness :
  let failing_exit :=
    fun (_ _ : string) (_ : option Q) (_ : string) (_ : Z)
        (db : gmap string StrategyState) =>
      (inl (StrategyStateDbError "database is locked") : StoreError + Payload,
       db) in
  let out :=
    Blueprint.run
      (Blueprint.manual_exit_leg_endpoint LegSpec.lookup_state failing_exit
         LegSpec.accept_override (LiveSpec.scripted []) LegSpec.a_session
         "S1" "L1" (Some (LegSpec.priced_exit "TARGET_HIT" 101)))
      (LegSpec.one_strategy "STRATEGY") in
  EvManualExit "S1" "L1" (Some 101) "TARGET_HIT" ∈ Blueprint.w_events out.2
  /\ http_code out.1 = 500%Z
  /\ forall a b c d, EvCreateOverride a b c d ∉ Blueprint.w_events out.2.
Proof.
  intros failing_exit out.
  assert (Hin : EvManualExit "S1" "L1" (Some 101) "TARGET_HIT"
                  ∈ Blueprint.w_events out.2).
  { replace (Blueprint.w_events out.2)
      with [EvManualExit "S1" "L1" (Some 101) "TARGET_HIT"] by (by vm_compute).
    apply list_elem_of_here. }
  destruct (proj2 (manual_exit_reports_store_outcome _ LegSpec.lookup_state
                     failing_exit LegSpec.accept_override (LiveSpec.scripted [])
                     LegSpec.a_session "S1" "L1"
                     (Some (LegSpec.priced_exit "TARGET_HIT" 101))
                     (LegSpec.one_strategy "STRATEGY"))
              (Some 101) "TARGET_HIT"
              (StrategyStateDbError "database is locked") Hin eq_refl)
    as (_ & Hcode & _ & Hnone).
  by split_and!.
Defined.

(** ** Exchange inference *)

Section Exchange.





End Exchange.


(** ** The override endpoint *)

Section OverrideFacts.

Import Blueprint Endpoints.

Lemma validate_override_request_400 (body : option OverrideRequest) (r : Response) :
  validate_override_request body = inl r ->
  http_code r = 400%Z /\ resp_status r = "error" /\ resp_data r = None.
Proof.
  unfold validate_override_request, to_float.
  intros H. repeat case_match; simplify_eq; done.
Qed.

Lemma validate_override_request_ok (body : option OverrideRequest)
    (leg_key override_type : string) (new_value : Q) :
  validate_override_request body = inr (leg_key, override_type, new_value) <->
  exists data,
    body = Some data
    /\ req_override_leg_key data = Some leg_key /\ leg_key <> ""
    /\ req_override_type data = Some override_type
    /\ OverrideSpec.limit_name override_type
    /\ req_new_value data = Some (Converts new_value)
    /\ 0 <= new_value.
Proof.
  unfold validate_override_request, to_float, OverrideSpec.limit_name. split.
  - intros H. destruct body as [data|]; [|done]. exists data.
    destruct (req_override_leg_key data) as [k|]; [|done]. simpl in H.
    destruct (decide (k = "")) as [->|Hk]; [done|].
    rewrite bool_decide_eq_false_2 in H by done. simpl in H.
    destruct (req_override_type data) as [t|]; [|done]. simpl in H.
    destruct (decide (t = "")) as [->|Ht]; [done|].
    rewrite bool_decide_eq_false_2 in H by done. simpl in H.
    case_bool_decide as Hin; [|done]. simpl in H.
    destruct (req_new_value data) as [[v|]|]; [|done|done].
    destruct (Qle_bool 0 v) eqn:Hv; [|done]. simpl in H.
    injection H as <- <- <-. apply Qle_bool_iff in Hv.
    split_and!; try done.
    rewrite !elem_of_cons, elem_of_nil in Hin. tauto.
  - intros (data & -> & -> & Hk & -> & Ht & -> & Hv). simpl.
    rewrite !bool_decide_eq_false_2 by (try done; by destruct Ht as [->| ->]).
    simpl. rewrite bool_decide_eq_true_2
      by (rewrite !elem_of_cons; tauto).
    simpl. apply Qle_bool_iff in Hv. by rewrite Hv.
Qed.

Lemma override_created_text (override_type : string) :
  OverrideSpec.limit_name override_type ->
  (override_type = "sl_price"
   /\ override_created override_type
      = "Sl Price override created. Will be applied within 5 seconds.")
  \/ (override_type = "target_price"
      /\ override_created override_type
         = "Target Price override created. Will be applied within 5 seconds.").
Proof. intros [->| ->]; [left|right]; split; done. Qed.

Context {Db : Type}.
Context (get : string -> Db -> option StrategyState).
Context (create :
           string -> string -> string -> option Q -> Db
           -> (StoreError + Payload) * Db).
Context (instance_id : string).

(** Every run either answers with an error and nothing called, or has
    found the leg of a valid request in position and makes the one store
    call, whose outcome it reports. *)
Lemma override_cases (body : option OverrideRequest) (db : Db) :
  let out := run (create_strategy_override_endpoint get create instance_id body) db in
  (exists r, out = (r, mkWorld db [])
             /\ resp_status r = "error" /\ resp_data r = None
             /\ (http_code r = 400%Z \/ http_code r = 404%Z \/ http_code r = 500%Z))
  \/ exists leg_key override_type new_value state leg,
       validate_override_request body = inr (leg_key, override_type, new_value)
       /\ get instance_id db = Some state
       /\ state_legs state !! leg_key = Some (Some leg)
       /\ leg_status leg = Some "IN_POSITION"
       /\ out
          = (match (create instance_id leg_key override_type (Some new_value) db).1 with
             | inl e => error 500 (MText (str_exc e))
             | inr result => success (override_created override_type) result
             end,
             mkWorld
               (create instance_id leg_key override_type (Some new_value) db).2
               [EvCreateOverride instance_id leg_key override_type (Some new_value)]).
Proof.
  intros out. subst out.
  unfold run, create_strategy_override_endpoint, bind, checked, read,
    reject_if, store_call, reply, ret.
  destruct (validate_override_request body) as [r|[[leg_key override_type] v]] eqn:Hv.
  { left. exists r. apply validate_override_request_400 in Hv as (? & ? & ?).
    split_and!; auto. }
  simpl. destruct (get instance_id db) as [state|] eqn:Hstate.
  2:{ left. eexists. split_and!; [reflexivity|done|done|auto]. }
  destruct (state_legs state !! leg_key) as [[leg|]|] eqn:Hleg.
  - destruct (decide (leg_status leg = Some "IN_POSITION")) as [Hopen|Hopen].
    + right. exists leg_key, override_type, v, state, leg.
      split_and!; try done.
      assert (Hlegs : match st_legs state with IsNone => true | _ => false end
                      = false).
      { unfold state_legs in Hleg. by destruct (st_legs state). }
      rewrite Hlegs. simpl. rewrite bool_decide_eq_true_2 by done. simpl.
      destruct (create _ _ _ _ _) as [[e|result] db']; done.
    + left. destruct (st_legs state); simpl;
        rewrite ?bool_decide_eq_false_2 by done; simpl;
        eexists; split_and!; try reflexivity; auto.
  - left. destruct (st_legs state); simpl;
      eexists; split_and!; try reflexivity; auto.
  - left. destruct (st_legs state); simpl;
      eexists; split_and!; try reflexivity; auto.
Qed.

End OverrideFacts.



(** X18. A request that names a leg in position, one of the two limits and
    a non-negative value (zero included) makes exactly one store call, with
    the instance, the leg, the limit and the value of the request.  When the
    store accepts, the answer is 200 with the store's result and the message
    "Sl Price override created. ..." or "Target Price override created.
    ..."; when the store raises, the answer is 500 with the text of the
    exception.  The store is left as the call left it. *)
Theorem override_reports_store_outcome :
  forall (Db : Type)
    (get : string -> Db -> option StrategyState)
    (create :
       string -> string -> string -> option Q -> Db
       -> (StoreError + Payload) * Db)
    (instance_id leg_key override_type : string) (new_value : Q)
    (db : Db) (leg : Leg),
    leg_key <> "" ->
    OverrideSpec.limit_name override_type ->
    0 <= new_value ->
    OverrideSpec.open_at get instance_id leg_key db leg ->
    let out :=
      Blueprint.run
        (Endpoints.create_strategy_override_endpoint get create instance_id
           (Some (OverrideSpec.request leg_key override_type new_value)))
        db in
    let call := create instance_id leg_key override_type (Some new_value) db in
    out.2
    = Blueprint.mkWorld call.2
        [EvCreateOverride instance_id leg_key override_type (Some new_value)]
    /\ (forall result,
          call.1 = inr result ->
          http_code out.1 = 200%Z /\ resp_status out.1 = "success"
          /\ resp_data out.1 = Some result
          /\ ((override_type = "sl_price"
               /\ resp_message out.1
                  = MText "Sl Price override created. Will be applied within 5 seconds.")
              \/ (override_type = "target_price"
                  /\ resp_message out.1
                     = MText "Target Price override created. Will be applied within 5 seconds.")))
    /\ (forall e,
          call.1 = inl e ->
          http_code out.1 = 500%Z /\ resp_status out.1 = "error"
          /\ resp_message out.1 = MText (Endpoints.str_exc e)
          /\ resp_data out.1 = None).
Proof.
  intros Db get create instance_id leg_key override_type new_value db leg
    Hkey Hlim Hpos (state & Hstate & (legs & Hlegs & Hleg) & Hopen) out call.
  assert (Hv : Endpoints.validate_override_request
                 (Some (OverrideSpec.request leg_key override_type new_value))
               = inr (leg_key, override_type, new_value)).
  { apply validate_override_request_ok. eexists. by split_and!. }
  subst out.
  destruct (override_cases get create instance_id
              (Some (OverrideSpec.request leg_key override_type new_value)) db)
    as [(r & Hout & _)
       |(key & t & v & state' & leg' & Hv' & _ & _ & _ & Hout)].
  { exfalso. revert Hout.
    unfold Blueprint.run, Endpoints.create_strategy_override_endpoint,
      Blueprint.bind, Blueprint.checked, Blueprint.read, Blueprint.reject_if,
      Blueprint.store_call, Blueprint.reply, Blueprint.ret.
    rewrite Hv. simpl. rewrite Hstate. unfold state_legs. rewrite Hlegs, Hleg.
    simpl. rewrite bool_decide_eq_true_2 by done. simpl.
    destruct (create _ _ _ _ _) as [[e|result] db']; simpl;
      intros Hout; by injection Hout. }
  rewrite Hv in Hv'. injection Hv' as <- <- <-.
  rewrite Hout. simpl. fold call. split; [done|]. split.
  - intros result ->. simpl. split_and!; try done.
    destruct (override_created_text override_type Hlim) as [[-> ->]|[-> ->]];
      [left|right]; done.
  - intros e ->. by simpl.
Qed.

Lemma override_reports_store_outcome_witness :
  let out :=
    Blueprint.run
      (Endpoints.create_strategy_override_endpoint LegSpec.lookup_state
         LegSpec.failing_override "S1"
         (Some (OverrideSpec.request "L1" "target_price" 0)))
      (LegSpec.one_strategy "STRATEGY") in
  OverrideSpec.open_at LegSpec.lookup_state "S1" "L1"
    (LegSpec.one_strategy "STRATEGY") (LegSpec.open_leg "BUY" "STRATEGY" 100)
  /\ http_code out.1 = 500%Z
  /\ resp_message out.1 = MText "database is locked".
Proof.
  intros out.
  assert (Hopen : OverrideSpec.open_at LegSpec.lookup_state "S1" "L1"
                    (LegSpec.one_strategy "STRATEGY")
                    (LegSpec.open_leg "BUY" "STRATEGY" 100)).
  { exists (LegSpec.one_leg_state "RUNNING"
              (LegSpec.open_leg "BUY" "STRATEGY" 100)).
    split; [by vm_compute|]. split; [|done].
    eexists. split; [reflexivity|]. by rewrite lookup_singleton_eq. }
  split; [exact Hopen|].
  assert (Hkey : "L1" <> "") by done.
  assert (Hlim : OverrideSpec.limit_name "target_price") by (by right).
  assert (Hpos : 0 <= 0) by done.
  destruct (proj2 (proj2 (override_reports_store_outcome _ LegSpec.lookup_state
                            LegSpec.failing_override "S1" "L1" "target_price" 0
                            (LegSpec.one_strategy "STRATEGY")
                            (LegSpec.open_leg "BUY" "STRATEGY" 100)
                            Hkey Hlim Hpos Hopen))
              (StrategyStateDbError "database is locked") eq_refl)
    as (Hcode & _ & Hmsg & _).
  split; [exact Hcode|exact Hmsg].
Defined.



(** ** The GET endpoints *)

(** X20. When the store lists its states, the list endpoint answers 200
    with as many states, in the same order, each one the stored snapshot with
    its summary attached.  When the store also finds one of the listed states
    under an instance id, the single-state endpoint answers 200 with exactly
    the entry that the list endpoint serves for that state.  An instance id
    that the store does not know is answered 404, and an exception of the
    store 500 with its text, without data. *)
Theorem single_state_matches_listing :
  forall (Db : Type)
    (get_all : Db -> StoreError + list StrategyState)
    (get : string -> Db -> StoreError + option StrategyState)
    (instance_id : string) (db : Db),
    let listing := Endpoints.get_strategy_states get_all db in
    let single := Endpoints.get_strategy_state get instance_id db in
    (forall states,
        get_all db = inr states ->
        exists served_states,
          read_code listing = 200%Z /\ read_status listing = "success"
          /\ read_data listing = Some served_states
          /\ length served_states = length states
          /\ (forall i state,
                states !! i = Some state ->
                exists served,
                  served_states !! i = Some served
                  /\ ReadSpec.serves state served)
          /\ forall state,
               get instance_id db = inr (Some state) ->
               state ∈ states ->
               exists served,
                 read_code single = 200%Z
                 /\ read_data single = Some served
                 /\ served ∈ served_states
                 /\ ReadSpec.serves state served)
    /\ (get instance_id db = inr None ->
        read_code single = 404%Z /\ read_data single = None)
    /\ (forall e,
          (get_all db = inl e ->
           read_code listing = 500%Z /\ read_data listing = None
           /\ read_message listing = Some (Endpoints.str_exc e))
          /\ (get instance_id db = inl e ->
              read_code single = 500%Z /\ read_data single = None
              /\ read_message single = Some (Endpoints.str_exc e))).
Proof.
  intros Db get_all get instance_id db listing single.
  subst listing single.
  unfold Endpoints.get_strategy_states, Endpoints.get_strategy_state.
  split; [|split].
  - intros states ->. exists (map attach_summary states). simpl.
    split_and!; try done.
    + by rewrite length_map.
    + intros i state Hi. exists (attach_summary state).
      split; [|done]. by rewrite list_lookup_fmap, Hi.
    + intros state -> Hin. exists (attach_summary state). simpl.
      split_and!; try done. by apply (list_elem_of_fmap_2 attach_summary).
  - by intros ->.
  - intros e. split; by intros ->.
Qed.

Lemma single_state_matches_listing_witness :
  let db := LegSpec.one_strategy "STRATEGY" in
  let state := LegSpec.one_leg_state "RUNNING"
                 (LegSpec.open_leg "BUY" "STRATEGY" 100) in
  ReadSpec.list_states db = inr [state]
  /\ ReadSpec.find_state "S1" db = inr (Some state)
  /\ exists served,
       read_data (Endpoints.get_strategy_state ReadSpec.find_state "S1" db)
       = Some served
       /\ ReadSpec.serves state served.
Proof.
  intros db state.
  assert (Hall : ReadSpec.list_states db = inr [state]).
  { unfold ReadSpec.list_states, db, LegSpec.one_strategy.
    by rewrite map_to_list_singleton. }
  assert (Hget : ReadSpec.find_state "S1" db = inr (Some state)).
  { unfold ReadSpec.find_state, db, LegSpec.one_strategy.
    by rewrite lookup_singleton_eq. }
  assert (Hin : state ∈ [state]) by apply list_elem_of_here.
  split; [exact Hall|]. split; [exact Hget|].
  destruct (proj1 (single_state_matches_listing _ ReadSpec.list_states
                     ReadSpec.find_state "S1" db) [state] Hall)
    as (served_states & _ & _ & _ & _ & _ & Hsingle).
  destruct (Hsingle state Hget Hin) as (served & _ & Hdata & _ & Hserves).
  exists served. split; [exact Hdata|exact Hserves].
Defined.

(** ** Shared broker credentials *)

Section Credentials.

Import CredentialManager CredentialSpec.

Lemma not_shared_mode (env : Env) :
  ~ shared_mode env <->
  Py.truthy_str (getenv_SHARED_CREDENTIALS_FILE env) = false.
Proof.
  unfold shared_mode, Py.truthy_str.
  destruct (getenv_SHARED_CREDENTIALS_FILE env) as [p|].
  - destruct (decide (p = "")) as [->|Hp].
    + split; [done|]. by intros _ (p & [= <-] & Hp).
    + rewrite bool_decide_eq_false_2 by done. split; [|done].
      intros H. exfalso. apply H. by exists p.
  - split; [done|]. by intros _ (p & ? & _).
Qed.

Lemma shared_mode_path (env : Env) (path : string) :
  getenv_SHARED_CREDENTIALS_FILE env = Some path -> path <> "" ->
  Py.truthy_str (getenv_SHARED_CREDENTIALS_FILE env) = true
  /\ default "" (getenv_SHARED_CREDENTIALS_FILE env) = path.
Proof.
  intros -> Hp. simpl. by rewrite bool_decide_eq_false_2.
Qed.

Lemma load_usable (env : Env) (path : string) (c : Credentials) :
  _load_shared_credentials_from_file env path = inr c -> usable c.
Proof.
  unfold _load_shared_credentials_from_file, usable, Py.truthy_str.
  destruct (file_at env path) as [| |j]; try done.
  destruct (json_api_key j) as [k|]; [|done].
  destruct (json_access_token j) as [t|]; [|by rewrite orb_true_r].
  destruct (decide (k = "")) as [->|Hk]; [done|].
  destruct (decide (t = "")) as [->|Ht];
    [by rewrite bool_decide_eq_false_2|].
  rewrite !bool_decide_eq_false_2 by done. simpl. intros [= <-]. simpl.
  split_and!; try done.
  destruct (json_openalgo_api_key j) as [o|]; [|done].
  destruct (decide (o = "")) as [->|Ho]; [done|].
  rewrite bool_decide_eq_false_2 by done. simpl. by intros [= ->].
Qed.

(** What [_get_or_load_shared_credentials] does in shared mode. *)
Lemma get_or_load_shared (env : Env) (path : string) (cache : Cache) :
  getenv_SHARED_CREDENTIALS_FILE env = Some path -> path <> "" ->
  _get_or_load_shared_credentials env cache
  = match cache with
    | Some c => (inr (Some c), cache)
    | None =>
      match _load_shared_credentials_from_file env path with
      | inr c => (inr (Some c), Some c)
      | inl e => (inl e, None)
      end
    end.
Proof.
  intros Henv Hp. unfold _get_or_load_shared_credentials.
  destruct (shared_mode_path env path Henv Hp) as [-> ->]. simpl.
  by destruct cache.
Qed.

Lemma get_or_load_local (env : Env) (cache : Cache) :
  ~ shared_mode env ->
  _get_or_load_shared_credentials env cache = (inr None, cache).
Proof.
  intros H. apply not_shared_mode in H.
  unfold _get_or_load_shared_credentials. by rewrite H.
Qed.

(** The cache after any of the three functions is the cache after
    [_get_or_load_shared_credentials]. *)
Lemma cache_after_get_or_load (env : Env) (c : Call) (cache : Cache) :
  cache_after env c cache = (_get_or_load_shared_credentials env cache).2.
Proof.
  unfold cache_after, get_shared_credentials, get_shared_auth_token,
    get_shared_openalgo_api_key.
  destruct c; by destruct (_get_or_load_shared_credentials env cache)
    as [[e|[cr|]] cache'].
Qed.

Lemma get_or_load_keeps (env : Env) (c : Credentials) :
  (_get_or_load_shared_credentials env (Some c)).2 = Some c.
Proof.
  unfold _get_or_load_shared_credentials.
  by destruct (negb _).
Qed.

Lemma get_or_load_ok (env : Env) (cache : Cache) :
  cache_ok cache -> cache_ok (_get_or_load_shared_credentials env cache).2.
Proof.
  intros Hok. destruct cache as [c|]; [by rewrite get_or_load_keeps|].
  unfold _get_or_load_shared_credentials.
  destruct (negb _); [done|].
  destruct (_load_shared_credentials_from_file _ _) as [e|c] eqn:Hload; [done|].
  simpl. intros c' [= <-]. by apply load_usable in Hload.
Qed.

Lemma cache_after_all_keeps (calls : list (Env * Call)) (c : Credentials) :
  cache_after_all calls (Some c) = Some c.
Proof.
  unfold cache_after_all. induction calls as [|[env call] calls IH]; [done|].
  simpl. by rewrite cache_after_get_or_load, get_or_load_keeps.
Qed.

Lemma cache_after_all_ok (calls : list (Env * Call)) (cache : Cache) :
  cache_ok cache -> cache_ok (cache_after_all calls cache).
Proof.
  unfold cache_after_all. revert cache.
  induction calls as [|[env call] calls IH]; intros cache Hok; [done|].
  simpl. apply IH. rewrite cache_after_get_or_load. by apply get_or_load_ok.
Qed.

End Credentials.

(** X21. When the variable SHARED_CREDENTIALS_FILE is unset or empty, the
    three functions give back the local values (the two defaults, the
    default token, no OpenAlgo key), whatever the files and the cache hold,
    and leave the cache as it is. *)
Theorem local_mode_uses_defaults :
  forall (env : CredentialManager.Env) (cache : CredentialManager.Cache)
    (default_api_key default_access_token default_auth_token : option string),
    ~ CredentialManager.shared_mode env ->
    CredentialManager.get_shared_credentials env default_api_key
      default_access_token cache
    = (inr (default_api_key, default_access_token), cache)
    /\ CredentialManager.get_shared_auth_token env default_auth_token cache
       = (inr default_auth_token, cache)
    /\ CredentialManager.get_shared_openalgo_api_key env cache = (None, cache).
Proof.
  intros env cache dk dt d Hlocal.
  unfold CredentialManager.get_shared_credentials,
    CredentialManager.get_shared_auth_token,
    CredentialManager.get_shared_openalgo_api_key.
  by rewrite (get_or_load_local env cache Hlocal).
Qed.

Lemma local_mode_uses_defaults_witness :
  let env := CredentialSpec.one_file (Some "") "/run/creds.json"
               CredentialSpec.good_file in
  ~ CredentialManager.shared_mode env
  /\ CredentialManager.get_shared_auth_token env (Some "k:t") None
     = (inr (Some "k:t"), None).
Proof.
  intros env.
  assert (Hlocal : ~ CredentialManager.shared_mode env).
  { intros (path & Hp & Hne). simpl in Hp. by injection Hp as <-. }
  split; [exact Hlocal|].
  exact (proj1 (proj2 (local_mode_uses_defaults env None None None (Some "k:t")
                         Hlocal))).
Defined.

(** X22. In shared mode with an empty cache and a file that holds a key and
    a token, the first call reads the file, returns its key and token and
    caches them.  From then on no sequence of calls, in whatever
    environments, changes the cache, and every call in shared mode answers
    from it: a file that has changed or gone, or a variable that names
    another file, is not looked at. *)
Theorem shared_credentials_cached :
  forall (env : CredentialManager.Env) (path : string)
    (creds : CredentialManager.Credentials)
    (default_api_key default_access_token : option string),
    CredentialManager.getenv_SHARED_CREDENTIALS_FILE env = Some path ->
    path <> "" ->
    CredentialManager._load_shared_credentials_from_file env path = inr creds ->
    CredentialManager.get_shared_credentials env default_api_key
      default_access_token None
    = (inr (Some (CredentialManager.api_key creds),
            Some (CredentialManager.access_token creds)),
       Some creds)
    /\ (forall calls,
          CredentialManager.cache_after_all calls (Some creds) = Some creds)
    /\ forall (env' : CredentialManager.Env) (k t d : option string),
         CredentialManager.shared_mode env' ->
         CredentialManager.get_shared_credentials env' k t (Some creds)
         = (inr (Some (CredentialManager.api_key creds),
                 Some (CredentialManager.access_token creds)),
            Some creds)
         /\ CredentialManager.get_shared_auth_token env' d (Some creds)
            = (inr (Some (CredentialManager.api_key creds ++ ":"
                          ++ CredentialManager.access_token creds)%string),
               Some creds)
         /\ CredentialManager.get_shared_openalgo_api_key env' (Some creds)
            = (CredentialManager.openalgo_api_key creds, Some creds).
Proof.
  intros env path creds dk dt Henv Hp Hload. split; [|split].
  - unfold CredentialManager.get_shared_credentials.
    by rewrite (get_or_load_shared env path None Henv Hp), Hload.
  - intros calls. apply cache_after_all_keeps.
  - intros env' k t d (path' & Henv' & Hp').
    unfold CredentialManager.get_shared_credentials,
      CredentialManager.get_shared_auth_token,
      CredentialManager.get_shared_openalgo_api_key.
    by rewrite (get_or_load_shared env' path' (Some creds) Henv' Hp').
Qed.

Lemma shared_credentials_cached_witness :
  let env := CredentialSpec.one_file (Some "/run/creds.json") "/run/creds.json"
               CredentialSpec.good_file in
  let gone := CredentialSpec.one_file (Some "/run/other.json") "/run/creds.json"
                CredentialManager.NoFile in
  exists cache,
    CredentialManager.get_shared_credentials env None None None
    = (inr (Some "kite-key", Some "kite-token"), cache)
    /\ CredentialManager.get_shared_auth_token gone None cache
       = (inr (Some "kite-key:kite-token"), cache).
Proof.
  intros env gone.
  assert (Henv : CredentialManager.getenv_SHARED_CREDENTIALS_FILE env
                 = Some "/run/creds.json") by reflexivity.
  assert (Hp : "/run/creds.json" <> "") by done.
  assert (Hload : CredentialManager._load_shared_credentials_from_file env
                    "/run/creds.json"
                  = inr (CredentialManager.mkCredentials "kite-key" "kite-token"
                           None)) by (by vm_compute).
  assert (Hgone : CredentialManager.shared_mode gone).
  { by exists "/run/other.json". }
  destruct (shared_credentials_cached env "/run/creds.json" _ None None
              Henv Hp Hload) as (Hfirst & _ & Hlater).
  destruct (Hlater gone None None None Hgone) as (_ & Htoken & _).
  eexists. split; [exact Hfirst|exact Htoken].
Defined.

(** X23. In shared mode with an empty cache and a file that cannot be
    loaded (it is missing, it cannot be read or parsed, or its key or its
    token is missing or empty), [get_shared_credentials] and
    [get_shared_auth_token] raise the error of the load instead of falling
    back to the local values, [get_shared_openalgo_api_key] returns no key
    instead of raising, and the cache stays empty, so that the next call
    tries the file again. *)
Theorem failed_load_fails_fast :
  forall (env : CredentialManager.Env) (path : string)
    (default_api_key default_access_token default_auth_token : option string),
    CredentialManager.getenv_SHARED_CREDENTIALS_FILE env = Some path ->
    path <> "" ->
    (forall creds,
        CredentialManager._load_shared_credentials_from_file env path
        <> inr creds) ->
    exists e,
      CredentialManager.cannot_load env e
      /\ CredentialManager.get_shared_credentials env default_api_key
           default_access_token None
         = (inl e, None)
      /\ CredentialManager.get_shared_auth_token env default_auth_token None
         = (inl e, None)
      /\ CredentialManager.get_shared_openalgo_api_key env None = (None, None)
      /\ match CredentialManager.file_at env path with
         | CredentialManager.NoFile =>
           e = CredentialManager.FileNotFoundError path
         | CredentialManager.Broken text =>
           e = CredentialManager.OtherError text
         | CredentialManager.JsonObject j =>
           e = CredentialManager.ValueError path
           /\ (Py.truthy_str (CredentialManager.json_api_key j) = false
               \/ Py.truthy_str (CredentialManager.json_access_token j) = false)
         end.
Proof.
  intros env path dk dt d Henv Hp Hbad.
  destruct (CredentialManager._load_shared_credentials_from_file env path)
    as [e|creds] eqn:Hload; [|by destruct (Hbad creds)].
  exists e.
  unfold CredentialManager.get_shared_credentials,
    CredentialManager.get_shared_auth_token,
    CredentialManager.get_shared_openalgo_api_key.
  rewrite (get_or_load_shared env path None Henv Hp), Hload.
  split_and!; try done.
  - by exists path.
  - revert Hload. unfold CredentialManager._load_shared_credentials_from_file.
    destruct (CredentialManager.file_at env path) as [|text|j].
    + by intros [= <-].
    + by intros [= <-].
    + destruct (Py.truthy_str (CredentialManager.json_api_key j));
        destruct (Py.truthy_str (CredentialManager.json_access_token j));
        simpl; intros [= <-]; auto.
Qed.

Lemma failed_load_fails_fast_witness :
  let env := CredentialSpec.one_file (Some "/run/creds.json") "/run/creds.json"
               (CredentialManager.JsonObject
                  (CredentialManager.mkJson (Some "kite-key") (Some "") None)) in
  CredentialManager.get_shared_credentials env (Some "local-key")
    (Some "local-token") None
  = (inl (CredentialManager.ValueError "/run/creds.json"), None).
Proof.
  intros env.
  assert (Henv : CredentialManager.getenv_SHARED_CREDENTIALS_FILE env
                 = Some "/run/creds.json") by reflexivity.
  assert (Hp : "/run/creds.json" <> "") by done.
  assert (Hbad : forall creds,
             CredentialManager._load_shared_credentials_from_file env
               "/run/creds.json" <> inr creds).
  { intros creds. by vm_compute. }
  destruct (failed_load_fails_fast env "/run/creds.json" (Some "local-key")
              (Some "local-token") None Henv Hp Hbad)
    as (e & _ & Hcreds & _ & _ & Hfile).
  vm_compute in Hfile. destruct Hfile as [-> _]. exact Hcreds.
Defined.

(** X24. Whatever calls were made before, in whatever environments, the
    cache is empty or holds a non-empty key and a non-empty token.  So a
    call in shared mode that returns, returns a non-empty key and a
    non-empty token; the auth token of the same moment is that key, a
    colon and that token; and an OpenAlgo key, when one is returned, is
    not empty. *)
Theorem shared_results_usable :
  forall (calls : list (CredentialManager.Env * CredentialManager.Call))
    (env : CredentialManager.Env)
    (default_api_key default_access_token default_auth_token : option string),
    let cache := CredentialManager.cache_after_all calls None in
    CredentialSpec.cache_ok cache
    /\ (CredentialManager.shared_mode env ->
        forall result cache',
          CredentialManager.get_shared_credentials env default_api_key
            default_access_token cache
          = (inr result, cache') ->
          exists key token,
            result = (Some key, Some token)
            /\ key <> "" /\ token <> ""
            /\ CredentialManager.get_shared_auth_token env default_auth_token
                 cache
               = (inr (Some (key ++ ":" ++ token)%string), cache')
            /\ CredentialSpec.cache_ok cache'
            /\ forall openalgo_key,
                 (CredentialManager.get_shared_openalgo_api_key env cache).1
                 = Some openalgo_key ->
                 openalgo_key <> "").
Proof.
  intros calls env dk dt d cache.
  assert (Hok : CredentialSpec.cache_ok cache).
  { apply cache_after_all_ok. by intros c. }
  split; [exact Hok|].
  intros (path & Henv & Hp) result cache'.
  unfold CredentialManager.get_shared_credentials,
    CredentialManager.get_shared_auth_token,
    CredentialManager.get_shared_openalgo_api_key.
  rewrite (get_or_load_shared env path cache Henv Hp).
  assert (Hcase : forall c cache'',
    CredentialManager.usable c ->
    CredentialSpec.cache_ok cache'' ->
    (inr (Some (CredentialManager.api_key c),
          Some (CredentialManager.access_token c)), cache'')
    = (inr result : CredentialManager.LoadError + option string * option string,
       cache') ->
    exists key token,
      result = (Some key, Some token) /\ key <> "" /\ token <> ""
      /\ (inr (Some (CredentialManager.api_key c ++ ":"
                     ++ CredentialManager.access_token c)%string)
          : CredentialManager.LoadError + option string, cache'')
         = (inr (Some (key ++ ":" ++ token)%string), cache')
      /\ CredentialSpec.cache_ok cache'
      /\ forall openalgo_key,
           CredentialManager.openalgo_api_key c = Some openalgo_key ->
           openalgo_key <> "").
  { intros c cache'' (Hk & Ht & Ho) Hok' [= <- <-].
    eexists _, _. split_and!; try done.
    intros o Hc ->. by rewrite Hc in Ho. }
  destruct cache as [c|] eqn:Hcache.
  - intros Heq. by apply (Hcase c (Some c) (Hok c eq_refl) Hok).
  - destruct (CredentialManager._load_shared_credentials_from_file env path)
      as [e|c] eqn:Hload; [done|].
    intros Heq. apply load_usable in Hload as Hu.
    apply (Hcase c (Some c) Hu); [|done]. by intros c' [= <-].
Qed.

Lemma shared_results_usable_witness :
  let env := CredentialSpec.one_file (Some "/run/creds.json") "/run/creds.json"
               CredentialSpec.good_file in
  CredentialManager.shared_mode env
  /\ exists cache',
       CredentialManager.get_shared_auth_token env None
         (CredentialManager.cache_after_all
            [(env, CredentialManager.CallOpenalgoKey)] None)
       = (inr (Some "kite-key:kite-token"), cache').
Proof.
  intros env.
  assert (Hshared : CredentialManager.shared_mode env).
  { by exists "/run/creds.json". }
  split; [exact Hshared|].
  assert (Hrun : CredentialManager.get_shared_credentials env None None
                   (CredentialManager.cache_after_all
                      [(env, CredentialManager.CallOpenalgoKey)] None)
                 = (inr (Some "kite-key", Some "kite-token"),
                    Some (CredentialManager.mkCredentials "kite-key"
                            "kite-token" None))) by (by vm_compute).
  destruct (proj2 (shared_results_usable
                     [(env, CredentialManager.CallOpenalgoKey)] env None None
                     None) Hshared _ _ Hrun)
    as (key & token & Hres & _ & _ & Htoken & _).
  injection Hres as <- <-. eexists. exact Htoken.
Defined.
